(** * Keyboard/mouse activity recorder: event capture, write buffer,
      aggregation and query layer

    A shallow embedding of [src/event_listener.py], [src/database.py],
    [src/core/services.py] and [src/core/utils.py].

    Conventions of the embedding:
    - readings of [time.time()] are rationals ([Q]); a handler receives the
      reading it would have taken as an argument;
    - the SQLite file is a record of its two tables; the rows of
      [aggregated_stats] are a finite map from the primary key [time_period];
    - SQL statements are given by their documented meaning (LIKE, GROUP BY,
      SUM, strftime, INSERT OR REPLACE);
    - code that can raise returns an [outcome]; handlers that hold a lock
      run atomically. *)

From Stdlib Require Import ZArith QArith Qcanon Qround Qabs Lqa Lia Ascii String List Bool.
From stdpp Require Import gmap strings list fin_maps sorting.

Local Open Scope Z_scope.

(* ===================================================================== *)
(** ** SQL text operators *)
(* ===================================================================== *)

Module Sql.

(** ASCII case folding, as LIKE applies it to both operands. *)
Definition fold_case (c : ascii) : ascii :=
  let n := nat_of_ascii c in
  if ((97 <=? n)%nat && (n <=? 122)%nat)%bool
  then ascii_of_nat (n - 32) else c.

(** [like p s] is SQLite's [s LIKE p]: [%] matches any run of
    characters, [_] exactly one, any other character itself up to ASCII
    case. *)
Fixpoint like (p s : string) : bool :=
  match p with
  | EmptyString =>
      match s with EmptyString => true | String _ _ => false end
  | String c p' =>
      if Ascii.eqb c "%"%char then
        (fix any (s : string) : bool :=
           like p' s ||
           match s with
           | EmptyString => false
           | String _ s' => any s'
           end) s
      else
        match s with
        | EmptyString => false
        | String d s' =>
            (Ascii.eqb c "_"%char || Ascii.eqb (fold_case c) (fold_case d))
            && like p' s'
        end
  end.

(** [SUM] over a result set: NULL on the empty set. *)
Definition sum (l : list Z) : option Z :=
  match l with
  | [] => None
  | _ => Some (foldr Z.add 0 l)
  end.

(** [LIMIT n]: a negative bound means no bound. *)
Definition limit {A} (n : Z) (l : list A) : list A :=
  if n <? 0 then l else take (Z.to_nat n) l.

(** Every character of the text satisfies [P]. *)
Fixpoint all_chars (P : ascii -> bool) (s : string) : bool :=
  match s with
  | EmptyString => true
  | String d s' => P d && all_chars P s'
  end.

(** The characters of a text. *)
Fixpoint chars (s : string) : list ascii :=
  match s with
  | EmptyString => []
  | String d s' => d :: chars s'
  end.

(** Not a space, even up to case folding. *)
Definition plain (d : ascii) : bool :=
  negb (Ascii.eqb (fold_case " ") (fold_case d)).

End Sql.

(* ===================================================================== *)
(** ** Calendar: strftime over a unix timestamp *)
(* ===================================================================== *)

Module Calendar.

Definition digit (n : Z) : ascii :=
  nth (Z.to_nat (n mod 10))
      ["0"; "1"; "2"; "3"; "4"; "5"; "6"; "7"; "8"; "9"]%char "0"%char.

Definition pad2 (n : Z) : string :=
  String (digit (n / 10)) (String (digit n) "").

Definition pad4 (n : Z) : string :=
  String (digit (n / 1000)) (String (digit (n / 100)) (pad2 n)).

(** Proleptic Gregorian date of a day number counted from 1970-01-01. *)
Definition civil_from_days (z : Z) : Z * Z * Z :=
  let z := z + 719468 in
  let era := z / 146097 in
  let doe := z - era * 146097 in
  let yoe := (doe - doe / 1460 + doe / 36524 - doe / 146096) / 365 in
  let doy := doe - (365 * yoe + yoe / 4 - yoe / 100) in
  let mp := (5 * doy + 2) / 153 in
  let d := doy - (153 * mp + 2) / 5 + 1 in
  let m := if mp <? 10 then mp + 3 else mp - 9 in
  let y := yoe + era * 400 + (if m <=? 2 then 1 else 0) in
  (y, m, d).

Definition days_from_civil (y m d : Z) : Z :=
  let y := if m <=? 2 then y - 1 else y in
  let era := y / 400 in
  let yoe := y - era * 400 in
  let doy := (153 * (if 2 <? m then m - 3 else m + 9) + 2) / 5 + d - 1 in
  let doe := yoe * 365 + yoe / 4 - yoe / 100 + doy in
  era * 146097 + doe - 719468.

(** A broken-down local time. *)
Record datetime := {
  year : Z; month : Z; day : Z; hour : Z; minute : Z;
  yday : Z;   (* days since 1 January *)
  wday : Z    (* days since Monday *)
}.

(** [datetime(ts, 'unixepoch', 'localtime')]; [utc_offset] is the offset
    of local time from UTC in seconds at a given instant, as the zone
    rules of the operating system give it. Years are those SQLite
    formats with four digits (0000 to 9999). *)
Definition localtime (utc_offset : Z -> Z) (ts : Z) : datetime :=
  let t := ts + utc_offset ts in
  let days := t / 86400 in
  let secs := t mod 86400 in
  let '(y, m, d) := civil_from_days days in
  {| year := y; month := m; day := d;
     hour := secs / 3600; minute := (secs mod 3600) / 60;
     yday := days - days_from_civil y 1 1;
     wday := (days + 3) mod 7 |}.

(** ['%Y-%m-%d'] *)
Definition fmt_day (t : datetime) : string :=
  pad4 (year t) +:+ "-" +:+ pad2 (month t) +:+ "-" +:+ pad2 (day t).

(** ['%Y-%m-%d %H:'] *)
Definition fmt_hour (t : datetime) : string :=
  fmt_day t +:+ " " +:+ pad2 (hour t) +:+ ":".

(** ['%Y-W%W']: week of the year, weeks starting on Monday. *)
Definition fmt_week (t : datetime) : string :=
  pad4 (year t) +:+ "-W" +:+ pad2 ((yday t + 7 - wday t) / 7).

(** ['%Y-%m'] *)
Definition fmt_month (t : datetime) : string :=
  pad4 (year t) +:+ "-" +:+ pad2 (month t).

End Calendar.

(* ===================================================================== *)
(** ** Results of code that can raise, and a state monad over them *)
(* ===================================================================== *)

Inductive outcome (A : Type) : Type :=
  | Returns (a : A)
  | Raises (e : string).
Arguments Returns {A} a.
Arguments Raises {A} e.

Definition M (S A : Type) : Type := S -> outcome A * S.

Definition ret {S A} (a : A) : M S A := fun s => (Returns a, s).

Definition bind {S A B} (m : M S A) (k : A -> M S B) : M S B :=
  fun s =>
    match m s with
    | (Returns a, s') => k a s'
    | (Raises e, s') => (Raises e, s')
    end.

(** [try: m except Exception as e: h e] *)
Definition try_except {S A} (m : M S A) (h : string -> M S A) : M S A :=
  fun s =>
    match m s with
    | (Returns a, s') => (Returns a, s')
    | (Raises e, s') => h e s'
    end.

Definition gets {S A} (f : S -> A) : M S A := fun s => (Returns (f s), s).
Definition modify {S} (f : S -> S) : M S unit := fun s => (Returns tt, f s).

(** Run a computation on a component of the state. *)
Definition zoom {S T A} (get : S -> T) (set : T -> S -> S) (m : M T A)
  : M S A :=
  fun s => let '(r, t') := m (get s) in (r, set t' s).

(** [x ← m; k] and [m;; k] are stdpp's notations for [bind]. *)
Global Instance M_ret {S} : MRet (M S) := fun A => ret.
Global Instance M_bind {S} : MBind (M S) := fun A B k m => bind m k.

(** Comparison of clock readings. *)
Definition Qltb (a b : Q) : bool := negb (Qle_bool b a).

(* ===================================================================== *)
(** ** The persistent store *)
(* ===================================================================== *)

Module Store.

(** A row of [raw_events]; [id] and [details] are never read. *)
Record RawEvent := { timestamp : Z; event_type : string }.

(** The CHECK constraint of [raw_events.event_type]. *)
Definition check_event_type (e : RawEvent) : Prop :=
  event_type e = "keyboard" \/ event_type e = "mouse".

(** The non-key columns of a row of [aggregated_stats]. *)
Record AggRow := { keyboard_count : Z; mouse_count : Z; score : Z }.

(** What a connection has been asked to execute. *)
Inductive Statement :=
  | SelectGroupedCounts (since : Q)
  | SelectConditionalSums (since : Q)
  | SelectAggregates (where_ : string) (limit : Z)
  | SelectTodayAggregates (where_ : string) (today : string) (limit : Z)
  | DeleteMinuteBuckets
  | UpsertAggregates (granularity : string)
  | InsertEvents (batch : list (string * Z))
  | Commit.

Record Database := {
  raw_events : list RawEvent;
  aggregated_stats : gmap string AggRow;
  (** [Some e]: the file cannot be accessed and every access raises [e]. *)
  fault : option string;
  journal : list Statement
}.

Definition set_aggregated_stats (f : gmap string AggRow -> gmap string AggRow)
    (d : Database) : Database :=
  {| raw_events := raw_events d; aggregated_stats := f (aggregated_stats d);
     fault := fault d; journal := journal d |}.

Definition set_raw_events (f : list RawEvent -> list RawEvent)
    (d : Database) : Database :=
  {| raw_events := f (raw_events d); aggregated_stats := aggregated_stats d;
     fault := fault d; journal := journal d |}.

Definition log (q : Statement) (d : Database) : Database :=
  {| raw_events := raw_events d; aggregated_stats := aggregated_stats d;
     fault := fault d; journal := journal d ++ [q] |}.

(** [conn.cursor()] *)
Definition cursor : M Database unit :=
  fun d => match fault d with
           | Some e => (Raises e, d)
           | None => (Returns tt, d)
           end.

(** [cursor.execute(q)] followed by the fetch of its result set. *)
Definition execute {A} (q : Statement) (result : Database -> A)
  : M Database A :=
  fun d => match fault d with
           | Some e => (Raises e, d)
           | None => (Returns (result d), log q d)
           end.

(** [cursor.execute(q)] for a statement that changes a table. *)
Definition execute_update (q : Statement) (f : Database -> Database)
  : M Database unit :=
  fun d => match fault d with
           | Some e => (Raises e, d)
           | None => (Returns tt, log q (f d))
           end.

(** [WHERE timestamp >= ?] *)
Definition since (t : Q) (raw : list RawEvent) : list RawEvent :=
  List.filter (fun e => Qle_bool t (inject_Z (timestamp e))) raw.

Definition of_type (ty : string) (raw : list RawEvent) : list RawEvent :=
  List.filter (fun e => String.eqb (event_type e) ty) raw.

(** [SELECT event_type, COUNT( * ) FROM raw_events WHERE timestamp >= ?
     GROUP BY event_type] *)
Definition select_grouped_counts (t : Q) (d : Database)
  : list (string * Z) :=
  let sel := since t (raw_events d) in
  map (fun ty => (ty, Z.of_nat (length (of_type ty sel))))
      (remove_dups (map event_type sel)).

(** [SUM(CASE WHEN event_type = ty THEN 1 ELSE 0 END)] *)
Definition sum_case (ty : string) (rows : list RawEvent) : option Z :=
  Sql.sum (map (fun e => if String.eqb (event_type e) ty then 1 else 0) rows).

(** [SELECT SUM(CASE ...) as keyboard, SUM(CASE ...) as mouse
     FROM raw_events WHERE timestamp >= ?] *)
Definition select_conditional_sums (t : Q) (d : Database)
  : option Z * option Z :=
  let sel := since t (raw_events d) in
  (sum_case "keyboard" sel, sum_case "mouse" sel).

(** [SELECT ... FROM aggregated_stats WHERE <cond on time_period>
     ORDER BY time_period ASC|DESC LIMIT ?] *)
Definition select_aggregates (cond : string -> bool) (descending : bool)
    (limit : Z) (d : Database) : list (string * AggRow) :=
  let rows :=
    List.filter (fun r => cond (fst r)) (map_to_list (aggregated_stats d)) in
  let asc := merge_sort (fun a b => String.le (fst a) (fst b)) rows in
  Sql.limit limit (if descending then reverse asc else asc).

(** [DELETE FROM aggregated_stats WHERE time_period LIKE pattern] *)
Definition delete_like (pattern : string) (agg : gmap string AggRow)
  : gmap string AggRow :=
  filter (fun kv => Sql.like pattern (fst kv) = false) agg.

(** [INSERT OR REPLACE INTO aggregated_stats ...] of a list of rows. *)
Definition insert_or_replace (rows : list (string * AggRow))
    (agg : gmap string AggRow) : gmap string AggRow :=
  foldl (fun m r => <[fst r := snd r]> m) agg rows.

(** [SELECT <key> as period, SUM(...) as keyboard, SUM(...) as mouse,
     SUM(...) as score FROM raw_events WHERE timestamp >= cutoff
     GROUP BY period] *)
Definition group_by_period (key : Z -> string) (cutoff : Z)
    (raw : list RawEvent) : list (string * AggRow) :=
  let sel := List.filter (fun e => cutoff <=? timestamp e) raw in
  map (fun p =>
         let g :=
           List.filter (fun e => String.eqb (key (timestamp e)) p) sel in
         (p, {| keyboard_count :=
                  default 0 (sum_case "keyboard" g);
                mouse_count :=
                  default 0 (sum_case "mouse" g);
                score :=
                  default 0
                    (Sql.sum (map (fun e =>
                       if String.eqb (event_type e) "keyboard"
                       then 1 else 5) g)) |}))
      (remove_dups (map (fun e => key (timestamp e)) sel)).

End Store.

(* ===================================================================== *)
(** ** database.py: the write buffer *)
(* ===================================================================== *)

Module DatabaseManager.
Import Store.

(** An entry of the worker's FIFO queue (the callable and its arguments;
    the callback is always [None]). *)
Inductive Task :=
  | BatchInsert (events : list (string * Z))
  | CalculateAggregates.

Record t := {
  conn : Database;
  (** the queue of [self.worker], when the manager has a worker *)
  worker : option (list Task);
  batch_events : list (string * Z)
}.

Definition set_conn (d : Database) (self : t) : t :=
  {| conn := d; worker := worker self; batch_events := batch_events self |}.

Definition set_batch_events (b : list (string * Z)) (self : t) : t :=
  {| conn := conn self; worker := worker self; batch_events := b |}.

(** [self.worker.queue.put(task)] *)
Definition queue_put (task : Task) : M t unit :=
  fun self =>
    match worker self with
    | Some q =>
        (Returns tt,
         {| conn := conn self; worker := Some (q ++ [task]);
            batch_events := batch_events self |})
    | None => (Raises "AttributeError", self)
    end.

Definition _flush_batch_events : M t unit :=
  pending ← gets batch_events;
  match pending with
  | [] => ret tt
  | _ =>
      let events := pending in
      modify (set_batch_events []);;
      queue_put (BatchInsert events)
  end.

Definition record_event (event_type : string) (timestamp : Z) : M t unit :=
  modify (fun self =>
            set_batch_events (batch_events self ++ [(event_type, timestamp)])
                             self);;
  n ← gets (fun self => length (batch_events self));
  if (10 <? n)%nat then _flush_batch_events else ret tt.

Definition _record_event (event_type : string) (timestamp : Z) : M t unit :=
  record_event event_type timestamp.

Definition row_of (e : string * Z) : RawEvent :=
  {| timestamp := snd e; event_type := fst e |}.

Definition check_ok (e : string * Z) : bool :=
  String.eqb (fst e) "keyboard" || String.eqb (fst e) "mouse".

(** The rows that precede the first violation of the CHECK constraint. *)
Fixpoint accepted (events : list (string * Z)) : list (string * Z) :=
  match events with
  | [] => []
  | e :: rest => if check_ok e then e :: accepted rest else []
  end.

(** [executemany("INSERT INTO raw_events ...", events)] then commit; a
    row violating the CHECK constraint raises. *)
Definition _do_batch_insert (events : list (string * Z)) : M t unit :=
  zoom conn set_conn
    (cursor;;
     execute_update (InsertEvents events)
       (set_raw_events
          (fun raw => raw ++ map row_of (accepted events)));;
     (if forallb check_ok events then ret tt
      else (fun d => (Raises "IntegrityError", d)));;
     execute_update Commit (fun d => d)).

End DatabaseManager.

(* ===================================================================== *)
(** ** core/services.py: EventService *)
(* ===================================================================== *)

Module EventService.
Import Store.

(** The dictionaries handed to the presentation layer. *)
Record AggregatedStats := {
  period : string; keyboard : Z; mouse : Z; score : Z
}.

Record t := {
  db : DatabaseManager.t;
  (** keyed by the requested timestamp *)
  _counts_cache : gmap Qc (gmap string Z);
  _cache_lifetime : Q;
  _cache_timestamps : gmap Qc Q;
  _last_aggregate_time : Q
}.

Definition __init__ (db_manager : DatabaseManager.t) : t :=
  {| db := db_manager; _counts_cache := ∅; _cache_lifetime := 1;
     _cache_timestamps := ∅; _last_aggregate_time := 0 |}.

Definition set_db (d : DatabaseManager.t) (self : t) : t :=
  {| db := d; _counts_cache := _counts_cache self;
     _cache_lifetime := _cache_lifetime self;
     _cache_timestamps := _cache_timestamps self;
     _last_aggregate_time := _last_aggregate_time self |}.

Definition set_caches (c : gmap Qc (gmap string Z)) (ts : gmap Qc Q)
    (self : t) : t :=
  {| db := db self; _counts_cache := c;
     _cache_lifetime := _cache_lifetime self;
     _cache_timestamps := ts;
     _last_aggregate_time := _last_aggregate_time self |}.

Definition set_last_aggregate_time (x : Q) (self : t) : t :=
  {| db := db self; _counts_cache := _counts_cache self;
     _cache_lifetime := _cache_lifetime self;
     _cache_timestamps := _cache_timestamps self;
     _last_aggregate_time := x |}.

(** Statements run on [self.db.conn]. *)
Definition on_conn {A} (m : M Database A) : M t A :=
  zoom db set_db (zoom DatabaseManager.conn DatabaseManager.set_conn m).

Definition _clear_outdated_cache (force : bool) (current_time : Q)
  : M t unit :=
  modify (fun self =>
    let outdated_keys :=
      map fst
        (List.filter
           (fun kv => force ||
                      negb (Qltb (current_time - snd kv)
                                 (_cache_lifetime self)))
           (map_to_list (_cache_timestamps self))) in
    set_caches (foldr delete (_counts_cache self) outdated_keys)
               (foldr delete (_cache_timestamps self) outdated_keys)
               self).

(** [x or 0] on a nullable integer column. *)
Definition or0 (x : option Z) : Z :=
  match x with
  | Some n => if n =? 0 then 0 else n
  | None => 0
  end.

(** The answer of the cache, if it has an entry that is still fresh. *)
Definition cached_counts (current_time timestamp : Q) (self : t)
  : option (gmap string Z) :=
  let very_recent := Qltb (current_time - timestamp) 2 in
  match _counts_cache self !! Q2Qc timestamp with
  | Some cached =>
      let cache_time :=
        default 0%Q (_cache_timestamps self !! Q2Qc timestamp) in
      if Qltb (current_time - cache_time)
              (if very_recent then 2 # 10 else _cache_lifetime self)
      then Some cached else None
  | None => None
  end.

(** The body of the loop over the rows of the grouped query. *)
Definition grouped_step (result : gmap string Z) (row : string * Z)
  : gmap string Z :=
  if String.eqb (fst row) "keyboard"
  then <["keyboard" := snd row]> result
  else if String.eqb (fst row) "mouse"
  then <["mouse" := snd row]> result
  else result.

(** The grouped-count query and the loop over its rows. *)
Definition counts_recent (timestamp : Q) : M t (gmap string Z) :=
  on_conn cursor;;
  rows ← on_conn (execute (SelectGroupedCounts timestamp)
                           (select_grouped_counts timestamp));
  ret (foldl grouped_step {[ "keyboard" := 0; "mouse" := 0 ]} rows).

(** The conditional-sum query. *)
Definition counts_historical (timestamp : Q) : M t (gmap string Z) :=
  on_conn cursor;;
  row ← on_conn (execute (SelectConditionalSums timestamp)
                          (select_conditional_sums timestamp));
  ret ({[ "keyboard" := or0 (fst row); "mouse" := or0 (snd row) ]}
       : gmap string Z).

(** [current_time] is the reading of the clock on entry; the forced
    eviction ignores its own reading. *)
Definition get_counts_since (current_time timestamp : Q)
  : M t (gmap string Z) :=
  let very_recent := Qltb (current_time - timestamp) 2 in
  hit ← gets (cached_counts current_time timestamp);
  match hit with
  | Some cached => ret cached
  | None =>
      result ← (if very_recent then counts_recent timestamp
                 else counts_historical timestamp);
      modify (fun self =>
                set_caches
                  (<[Q2Qc timestamp := result]> (_counts_cache self))
                  (<[Q2Qc timestamp := current_time]>
                     (_cache_timestamps self))
                  self);;
      n ← gets (fun self => size (_counts_cache self));
      (if (20 <? n)%nat then _clear_outdated_cache true current_time
       else ret tt);;
      ret result
  end.

(** [record_event]: the signal is delivered to the manager's
    [_record_event]. *)
Definition record_event (event_type : string) (timestamp : Z)
    (current_time : Q) : M t unit :=
  zoom db set_db (DatabaseManager._record_event event_type timestamp);;
  _clear_outdated_cache false current_time.

Definition row_dict (r : string * AggRow) : AggregatedStats :=
  {| period := fst r; keyboard := keyboard_count (snd r);
     mouse := mouse_count (snd r); score := Store.score (snd r) |}.

Definition ends_quarter (k : string) : bool :=
  Sql.like "%:00" k || Sql.like "%:15" k || Sql.like "%:30" k
  || Sql.like "%:45" k.

Definition ends_half (k : string) : bool :=
  Sql.like "%:00" k || Sql.like "%:30" k.

Definition get_aggregated_data (time_range : string) (limit : Z)
  : M t (list AggregatedStats) :=
  try_except
    (on_conn cursor;;
     results ←
       (if String.eqb time_range "15min" then
          on_conn (execute (SelectAggregates "15min" limit)
            (select_aggregates
               (fun k => Sql.like "%-%-% %:%" k && ends_quarter k)
               true limit))
        else if String.eqb time_range "30min" then
          on_conn (execute (SelectAggregates "30min" limit)
            (select_aggregates
               (fun k => Sql.like "%-%-% %:%" k && ends_half k)
               true limit))
        else if String.eqb time_range "day" then
          on_conn (execute (SelectAggregates "day" limit)
            (select_aggregates
               (fun k => Sql.like "%-%-%" k
                         && (String.length k =? 10)%nat)
               true limit))
        else if String.eqb time_range "week" then
          on_conn (execute (SelectAggregates "week" limit)
            (select_aggregates (fun k => Sql.like "%-W%" k) true limit))
        else if String.eqb time_range "month" then
          on_conn (execute (SelectAggregates "month" limit)
            (select_aggregates
               (fun k => Sql.like "%-%" k && (String.length k =? 7)%nat)
               true limit))
        else ret []);
     ret (map row_dict results))
    (fun _ => ret []).

(** [today] is [datetime.now().strftime("%Y-%m-%d")]. *)
Definition get_today_aggregated_data (today : string)
    (time_range : string) (limit : Z) : M t (list AggregatedStats) :=
  try_except
    (on_conn cursor;;
     if String.eqb time_range "15min" then
       results ←
         on_conn (execute (SelectTodayAggregates "15min" today limit)
           (select_aggregates
              (fun k => Sql.like (today +:+ " %:%") k && ends_quarter k)
              false limit));
       ret (map row_dict results)
     else if String.eqb time_range "30min" then
       results ←
         on_conn (execute (SelectTodayAggregates "30min" today limit)
           (select_aggregates
              (fun k => Sql.like (today +:+ " %:%") k && ends_half k)
              false limit));
       ret (map row_dict results)
     else ret [])
    (fun _ => ret []).

Section Aggregation.
(** The zone rules that ['localtime'] applies. *)
Variable utc_offset : Z -> Z.

Definition period_15min (ts : Z) : string :=
  let t := Calendar.localtime utc_offset ts in
  Calendar.fmt_hour t +:+
  (if Calendar.minute t <? 15 then "00"
   else if Calendar.minute t <? 30 then "15"
   else if Calendar.minute t <? 45 then "30"
   else "45").

Definition period_30min (ts : Z) : string :=
  let t := Calendar.localtime utc_offset ts in
  Calendar.fmt_hour t +:+
  (if Calendar.minute t <? 30 then "00" else "30").

Definition period_day (ts : Z) : string :=
  Calendar.fmt_day (Calendar.localtime utc_offset ts).

Definition period_week (ts : Z) : string :=
  Calendar.fmt_week (Calendar.localtime utc_offset ts).

Definition period_month (ts : Z) : string :=
  Calendar.fmt_month (Calendar.localtime utc_offset ts).

(** [strftime('%s', datetime('now', '-N day'))], with [now] the
    statement's clock in whole seconds. *)
Definition days_ago (now : Z) (n : Z) : Z := now - n * 86400.

(** One [INSERT OR REPLACE ... SELECT ... GROUP BY period]. *)
Definition upsert (granularity : string) (key : Z -> string)
    (cutoff : Z) : M Database unit :=
  execute_update (UpsertAggregates granularity)
    (fun d =>
       set_aggregated_stats
         (insert_or_replace (group_by_period key cutoff (raw_events d)))
         d).

(** The statements of a run, on the connection it picked. *)
Definition aggregate_statements (now : Z) : M Database unit :=
  cursor;;
  execute_update DeleteMinuteBuckets
    (set_aggregated_stats (delete_like "%-%-% %:%"));;
  upsert "15min" period_15min (days_ago now 2);;
  upsert "30min" period_30min (days_ago now 7);;
  upsert "day" period_day (days_ago now 30);;
  upsert "week" period_week (days_ago now 365);;
  upsert "month" period_month (days_ago now 365);;
  execute_update Commit (fun d => d).

(** Both connections open the same file. *)
Definition _do_calculate_aggregates (now : Z) : M t unit :=
  try_except (on_conn (aggregate_statements now)) (fun _ => ret tt).

(** [current_time] is the reading of [time.time()]; when the manager
    has no worker the aggregation runs at once, at that instant. *)
Definition calculate_aggregates (current_time : Q) : M t unit :=
  last ← gets _last_aggregate_time;
  if Qltb (current_time - last) 60 then ret tt
  else
    modify (set_last_aggregate_time current_time);;
    w ← gets (fun self => DatabaseManager.worker (db self));
    match w with
    | Some _ =>
        zoom db set_db
          (DatabaseManager.queue_put DatabaseManager.CalculateAggregates)
    | None =>
        try_except (_do_calculate_aggregates (Qfloor current_time))
                   (fun _ => ret tt)
    end.
End Aggregation.

End EventService.

(* ===================================================================== *)
(** ** core/utils.py: ScoreCalculator *)
(* ===================================================================== *)

Module ScoreCalculator.

Record t := {
  _keyboard_weight : Z;
  _mouse_weight : Z;
  _last_calculation : Z * Z * Z   (* keyboard count, mouse count, score *)
}.

Definition __init__ : t :=
  {| _keyboard_weight := 1; _mouse_weight := 5;
     _last_calculation := (0, 0, 0) |}.

(** Returns the score and the value emitted on [score_updated], if
    any. *)
Definition calculate_score (counts : gmap string Z) (self : t)
  : (Z * option Z) * t :=
  let keyboard := default 0 (counts !! "keyboard") in
  let mouse := default 0 (counts !! "mouse") in
  let '(last_keyboard, last_mouse, last_score) := _last_calculation self in
  if (keyboard =? last_keyboard) && (mouse =? last_mouse)
  then ((last_score, None), self)
  else
    let score :=
      keyboard * _keyboard_weight self + mouse * _mouse_weight self in
    ((score, Some score),
     {| _keyboard_weight := _keyboard_weight self;
        _mouse_weight := _mouse_weight self;
        _last_calculation := (keyboard, mouse, score) |}).

Definition update_weights (keyboard mouse : Z) (self : t) : t :=
  if negb (_keyboard_weight self =? keyboard)
     || negb (_mouse_weight self =? mouse)
  then {| _keyboard_weight := keyboard; _mouse_weight := mouse;
          _last_calculation := (0, 0, 0) |}
  else self.

(** The states the two methods can produce. *)
Inductive reachable : t -> Prop :=
  | reach_init : reachable __init__
  | reach_calculate counts self :
      reachable self -> reachable (snd (calculate_score counts self))
  | reach_update k m self :
      reachable self -> reachable (update_weights k m self).

(** The memo is always a score computed under the current weights. *)
Definition memo_ok (self : t) : Prop :=
  let '(k, m, s) := _last_calculation self in
  s = k * _keyboard_weight self + m * _mouse_weight self.

End ScoreCalculator.

(* ===================================================================== *)
(** ** event_listener.py: EventListener *)
(* ===================================================================== *)

Module EventListener.

Record t := { last_key_time : Q; last_click_time : Q }.

Definition __init__ : t := {| last_key_time := 0; last_click_time := 0 |}.

Definition keyboard_throttle : Q := 5 # 100.
Definition mouse_throttle : Q := 5 # 100.

(** Python's [int(x)]: truncation towards zero. *)
Definition int (x : Q) : Z := Z.quot (Qnum x) (Zpos (Qden x)).

(** What the handlers are called with, and the clock reading taken
    inside the handler. *)
Inductive Input :=
  | KeyPress (current_time : Q)
  | Click (pressed : bool) (current_time : Q).

(** Each handler returns the arguments of [event_recorded.emit], if it
    emits. *)
Definition on_press (current_time : Q) (self : t)
  : option (string * Z) * t :=
  if Qltb keyboard_throttle (current_time - last_key_time self)
  then (Some ("keyboard", int current_time),
        {| last_key_time := current_time;
           last_click_time := last_click_time self |})
  else (None, self).

Definition on_click (pressed : bool) (current_time : Q) (self : t)
  : option (string * Z) * t :=
  if pressed then
    if Qltb mouse_throttle (current_time - last_click_time self)
    then (Some ("mouse", int current_time),
          {| last_key_time := last_key_time self;
             last_click_time := current_time |})
    else (None, self)
  else (None, self).

Definition handle (i : Input) (self : t) : option (string * Z) * t :=
  match i with
  | KeyPress now => on_press now self
  | Click pressed now => on_click pressed now self
  end.

(** The emissions of a stream of inputs, one entry per input. *)
Fixpoint run (inputs : list Input) (self : t)
  : list (option (string * Z)) :=
  match inputs with
  | [] => []
  | i :: rest =>
      let '(out, self') := handle i self in out :: run rest self'
  end.

(** The listener after a stream of inputs. *)
Definition exec (inputs : list Input) (self : t) : t :=
  foldl (fun s i => snd (handle i s)) self inputs.

(** The [i]-th input of the stream reached [record_event]. *)
Definition forwarded (inputs : list Input) (self : t) (i : nat) : Prop :=
  exists e, run inputs self !! i = Some (Some e).

(** The signals of one type that a stream emits, in order. *)
Definition emitted (ty : string) (inputs : list Input) (self : t)
  : list (string * Z) :=
  List.filter (fun e => String.eqb (fst e) ty) (omap id (run inputs self)).

Definition is_key (i : Input) : bool :=
  match i with KeyPress _ => true | Click _ _ => false end.

End EventListener.

(* ===================================================================== *)
(** ** Statements outside the query and aggregation paths *)
(* ===================================================================== *)

Module Access.
Import Store.

(** [cursor.execute] and fetch of a statement that the journal does not
    list. *)
Definition read {A} (result : Database -> A) : M Database A :=
  fun d => match fault d with
           | Some e => (Raises e, d)
           | None => (Returns (result d), d)
           end.

(** [cursor.execute] of such a statement that changes a table, and
    [commit] and [VACUUM] (with the identity). *)
Definition write (f : Database -> Database) : M Database unit :=
  fun d => match fault d with
           | Some e => (Raises e, d)
           | None => (Returns tt, f d)
           end.

End Access.

(* ===================================================================== *)
(** ** database.py: the retention sweep and the total counts *)
(* ===================================================================== *)

Module Retention.
Import Store.

(** [DELETE FROM raw_events WHERE timestamp < ?] *)
Definition delete_before (cutoff : Z) (raw : list RawEvent) : list RawEvent :=
  List.filter (fun e => negb (timestamp e <? cutoff)) raw.

(** [_cleanup_old_data], run on the connection of the main thread while
    the manager is set up; [current_time] is the reading of
    [time.time()]. *)
Definition _cleanup_old_data (current_time : Q) : M Database unit :=
  try_except
    (cursor;;
     let thirty_days_ago :=
       EventListener.int current_time - 30 * 24 * 60 * 60 in
     Access.write (set_raw_events (delete_before thirty_days_ago));;
     Access.write (fun d => d);;
     Access.write (fun d => d);;
     Access.write (fun d => d))
    (fun _ => ret tt).

End Retention.

Module ManagerTotals.
Import Store.

(** [SELECT COUNT( * ) FROM raw_events WHERE event_type = ty] *)
Definition select_count (ty : string) (d : Database) : Z :=
  Z.of_nat (length (of_type ty (raw_events d))).

(** [DatabaseManager.get_total_counts] *)
Definition get_total_counts : M DatabaseManager.t (gmap string Z) :=
  zoom DatabaseManager.conn DatabaseManager.set_conn
    (cursor;;
     keyboard ← Access.read (select_count "keyboard");
     mouse ← Access.read (select_count "mouse");
     ret ({[ "keyboard" := keyboard; "mouse" := mouse ]} : gmap string Z)).

End ManagerTotals.

Module ServiceTotals.
Import Store.

(** [SELECT SUM(CASE ...) as keyboard, SUM(CASE ...) as mouse
     FROM raw_events] *)
Definition select_sums (d : Database) : option Z * option Z :=
  (sum_case "keyboard" (raw_events d), sum_case "mouse" (raw_events d)).

(** [EventService.get_total_counts]; the query always yields one row, so
    [row[0] or 0 if row else 0] is [row[0] or 0]. The statements after
    the [return] are never reached. *)
Definition get_total_counts : M EventService.t (gmap string Z) :=
  EventService.on_conn cursor;;
  row ← EventService.on_conn (Access.read select_sums);
  ret ({[ "keyboard" := EventService.or0 (fst row);
          "mouse" := EventService.or0 (snd row) ]} : gmap string Z).

End ServiceTotals.

(* ===================================================================== *)
(** ** database.py: DatabaseWorker *)
(* ===================================================================== *)

Module DatabaseWorker.
Import Store.

Definition set_queue (q : list DatabaseManager.Task)
    (m : DatabaseManager.t) : DatabaseManager.t :=
  {| DatabaseManager.conn := DatabaseManager.conn m;
     DatabaseManager.worker := Some q;
     DatabaseManager.batch_events := DatabaseManager.batch_events m |}.

Section Run.
Variable utc_offset : Z -> Z.

(** [task( *args )] for the two callables that are ever queued; [now] is
    the clock of the store while the task runs. *)
Definition call (now : Z) (task : DatabaseManager.Task)
  : M EventService.t unit :=
  match task with
  | DatabaseManager.BatchInsert events =>
      zoom EventService.db EventService.set_db
        (DatabaseManager._do_batch_insert events)
  | DatabaseManager.CalculateAggregates =>
      EventService._do_calculate_aggregates utc_offset now
  end.

(** One pass of the loop of [run]: [queue.get] takes the oldest task, the
    task is called and what it raises is printed; an empty queue times
    out and the pass does nothing. *)
Definition iteration (now : Z) : M EventService.t unit :=
  fun self =>
    match DatabaseManager.worker (EventService.db self) with
    | Some (task :: rest) =>
        try_except (call now task) (fun _ => ret tt)
          (EventService.set_db (set_queue rest (EventService.db self)) self)
    | _ => (Returns tt, self)
    end.

(** The loop, one pass per clock reading. *)
Fixpoint run (nows : list Z) (self : EventService.t) : EventService.t :=
  match nows with
  | [] => self
  | now :: rest => run rest (snd (iteration now self))
  end.
End Run.

(** The events of a queued task. *)
Definition batch_of (task : DatabaseManager.Task) : list (string * Z) :=
  match task with
  | DatabaseManager.BatchInsert events => events
  | DatabaseManager.CalculateAggregates => []
  end.

(** The events recorded and not yet stored, oldest first: those of the
    queued batches, then the pending list. *)
Definition pending (m : DatabaseManager.t) : list (string * Z) :=
  concat (map batch_of (default [] (DatabaseManager.worker m)))
  ++ DatabaseManager.batch_events m.

(** No queued batch is empty. *)
Definition batches_nonempty (q : list DatabaseManager.Task) : Prop :=
  Forall (fun task => batch_of task <> []) q.

(** A stream of [record_event] calls. *)
Definition record_all (events : list (string * Z)) (m : DatabaseManager.t)
  : DatabaseManager.t :=
  foldl (fun m e => snd (DatabaseManager.record_event (fst e) (snd e) m))
        m events.

End DatabaseWorker.

(* ===================================================================== *)
(** ** core/services.py: TimerService *)
(* ===================================================================== *)

Module TimerService.
Import Store.

(** A row of [timers]. [created_at] defaults to the clock of the store
    and is never NULL. *)
Record Timer := { id : Z; duration : Z; created_at : Z }.

(** The table and the largest id it ever assigned (AUTOINCREMENT). *)
Record Timers := { rows : list Timer; sequence : Z }.

Record t := { db : DatabaseManager.t; timers : Timers }.

(** The dictionaries of [get_timers]. *)
Record Entry := { entry_id : Z; minutes : Z; shown : string }.

Definition on_conn {A} (m : M Database A) : M t A :=
  zoom db (fun d self => {| db := d; timers := timers self |})
    (zoom DatabaseManager.conn DatabaseManager.set_conn m).

Definition set_timers (x : Timers) (self : t) : t :=
  {| db := db self; timers := x |}.

(** [a] was created no earlier than [b]. *)
Definition newer (a b : Timer) : Prop := created_at b <= created_at a.

Global Instance newer_dec : RelDecision newer :=
  fun a b => decide (created_at b <= created_at a).

Section Local.
Variable utc_offset : Z -> Z.

(** [datetime.fromtimestamp(ts).strftime("%Y-%m-%d %H:%M")] *)
Definition format_created (ts : Z) : string :=
  let lt := Calendar.localtime utc_offset ts in
  Calendar.fmt_hour lt +:+ Calendar.pad2 (Calendar.minute lt).

(** [ORDER BY created_at DESC]; the order among rows created in the same
    second is the one the sort happens to give. *)
Definition newest_first (l : list Timer) : list Timer :=
  merge_sort newer l.

Definition get_timers : M t (list Entry) :=
  on_conn cursor;;
  on_conn (Access.read (fun _ => tt));;
  table ← gets timers;
  ret (map (fun r => {| entry_id := id r; minutes := duration r;
                        shown := if created_at r =? 0 then "-"
                                 else format_created (created_at r) |})
           (newest_first (rows table))).
End Local.

(** [now] is the clock of the store, which fills [created_at]. *)
Definition add_timer (now : Z) (minutes : Z) : M t Z :=
  on_conn cursor;;
  on_conn (Access.write (fun d => d));;
  table ← gets timers;
  let lastrowid := sequence table + 1 in
  modify (set_timers
            {| rows := rows table
                       ++ [ {| id := lastrowid; duration := minutes;
                               created_at := now |} ];
               sequence := lastrowid |});;
  on_conn (Access.write (fun d => d));;
  ret lastrowid.

Definition remove_timer (timer_id : Z) : M t unit :=
  on_conn cursor;;
  on_conn (Access.write (fun d => d));;
  modify (fun self =>
            set_timers
              {| rows := List.filter (fun r => negb (id r =? timer_id))
                                     (rows (timers self));
                 sequence := sequence (timers self) |}
              self);;
  on_conn (Access.write (fun d => d)).

(** Ids are distinct and none exceeds the sequence. *)
Definition well_formed (x : Timers) : Prop :=
  NoDup (map id (rows x))
  /\ Forall (fun r => id r <= sequence x) (rows x).

(** The error that the connection of the service raises, if any. *)
Definition timer_fault (self : t) : option string :=
  fault (DatabaseManager.conn (db self)).

End TimerService.

(* ===================================================================== *)
(** ** core/utils.py: TimeUtils *)
(* ===================================================================== *)

Module TimeUtils.

Definition _cache_size_limit : nat := 100.

Section Format.
(** [datetime.fromtimestamp(timestamp).strftime(fmt)] *)
Variable strftime : Z -> string -> string.

(** [_format_cache] is a class attribute: one dictionary for all
    calls. *)
Definition timestamp_to_str (timestamp : Z) (fmt : string)
    (_format_cache : gmap (Z * string) string)
  : string * gmap (Z * string) string :=
  let cache_key := (timestamp, fmt) in
  match _format_cache !! cache_key with
  | Some cached => (cached, _format_cache)
  | None =>
      let cache :=
        if (_cache_size_limit <=? size _format_cache)%nat
        then ∅ else _format_cache in
      let result := strftime timestamp fmt in
      (result, <[cache_key := result]> cache)
  end.

(** The dictionaries that calls can produce from the empty one. *)
Inductive reachable : gmap (Z * string) string -> Prop :=
  | reach_empty : reachable ∅
  | reach_call timestamp fmt cache :
      reachable cache ->
      reachable (snd (timestamp_to_str timestamp fmt cache)).
End Format.

End TimeUtils.

(* ===================================================================== *)
(** ** The countdown of the main window *)
(* ===================================================================== *)

Module MainWindow.

(** The colour that the style sheet of [timer_label] sets. *)
Inductive Colour := Blue | Amber | Red | White.

(** The text of [timer_label]: the text the window is built with, a
    reading [mm:ss], the notice of completion, or the pause mark
    followed by the text shown so far from its tenth character on. *)
Inductive Text :=
  | Idle
  | Clock (mins secs : Z)
  | Finished
  | PauseMark (shown : Text).

(** The attributes of the window that the countdown uses. An attribute
    that is not set yet is [None]; [timer_countdown] holds [isActive()]
    of the [QTimer]; [notices] counts the message boxes shown. *)
Record t := {
  remaining_seconds : option Z;
  timer_paused : bool;
  timer_countdown : option bool;
  default_timer_minutes : Z;
  timer_label : Text;
  label_colour : Colour;
  pause_button : bool;
  start_button : bool;
  reset_button : bool;
  notices : nat
}.

Definition divmod (a b : Z) : Z * Z := (a / b, a mod b).

Definition start_timer_countdown (minutes : Z) : M t unit :=
  fun self =>
    let remaining :=
      match remaining_seconds self with
      | Some r => if timer_paused self then r else minutes * 60
      | None => minutes * 60
      end in
    let '(mins, secs) := divmod remaining 60 in
    (Returns tt,
     {| remaining_seconds := Some remaining;
        timer_paused := false;
        timer_countdown := Some true;
        default_timer_minutes := default_timer_minutes self;
        timer_label := Clock mins secs;
        label_colour := Blue;
        pause_button := true; start_button := false; reset_button := true;
        notices := notices self |}).

Definition update_timer_display : M t unit :=
  fun self =>
    match remaining_seconds self with
    | None => (Raises "AttributeError", self)
    | Some previous =>
        let remaining := previous - 1 in
        let '(mins, secs) := divmod remaining 60 in
        let color :=
          if 60 <? remaining then Blue
          else if 10 <? remaining then Amber
          else Red in
        let shown :=
          {| remaining_seconds := Some remaining;
             timer_paused := timer_paused self;
             timer_countdown := timer_countdown self;
             default_timer_minutes := default_timer_minutes self;
             timer_label := Clock mins secs;
             label_colour := color;
             pause_button := pause_button self;
             start_button := start_button self;
             reset_button := reset_button self;
             notices := notices self |} in
        if remaining <=? 0 then
          match timer_countdown self with
          | None => (Raises "AttributeError", shown)
          | Some _ =>
              (Returns tt,
               {| remaining_seconds := Some remaining;
                  timer_paused := timer_paused self;
                  timer_countdown := Some false;
                  default_timer_minutes := default_timer_minutes self;
                  timer_label := Finished;
                  label_colour := White;
                  pause_button := false; start_button := true;
                  reset_button := false;
                  notices := S (notices self) |})
          end
        else (Returns tt, shown)
    end.

Definition pause_timer : M t unit :=
  fun self =>
    match timer_countdown self with
    | Some true =>
        (Returns tt,
         {| remaining_seconds := remaining_seconds self;
            timer_paused := true;
            timer_countdown := Some false;
            default_timer_minutes := default_timer_minutes self;
            timer_label := PauseMark (timer_label self);
            label_colour := label_colour self;
            pause_button := false; start_button := true;
            reset_button := true;
            notices := notices self |})
    | _ => (Returns tt, self)
    end.

Definition start_timer : M t unit :=
  fun self =>
    match timer_paused self, remaining_seconds self with
    | true, Some remaining =>
        let '(mins, secs) := divmod remaining 60 in
        (Returns tt,
         {| remaining_seconds := Some remaining;
            timer_paused := false;
            timer_countdown := Some true;
            default_timer_minutes := default_timer_minutes self;
            timer_label := Clock mins secs;
            label_colour := label_colour self;
            pause_button := true; start_button := false;
            reset_button := true;
            notices := notices self |})
    | _, _ => start_timer_countdown (default_timer_minutes self) self
    end.

Definition reset_timer : M t unit :=
  fun self =>
    let remaining := default_timer_minutes self * 60 in
    let '(mins, secs) := divmod remaining 60 in
    (Returns tt,
     {| remaining_seconds := Some remaining;
        timer_paused := false;
        timer_countdown :=
          match timer_countdown self with
          | Some _ => Some false
          | None => None
          end;
        default_timer_minutes := default_timer_minutes self;
        timer_label := Clock mins secs;
        label_colour := White;
        pause_button := false; start_button := true; reset_button := false;
        notices := notices self |}).

(** One period of the [QTimer] started with [start(1000)]: the slot is
    called only while the timer is active. *)
Definition timeout : M t unit :=
  fun self =>
    match timer_countdown self with
    | Some true => update_timer_display self
    | _ => (Returns tt, self)
    end.

Fixpoint timeouts (n : nat) : M t unit :=
  match n with
  | O => ret tt
  | S n => timeout;; timeouts n
  end.

(** [c in s] for a string [c] of one character. *)
Fixpoint contains (c : ascii) (s : string) : bool :=
  match s with
  | EmptyString => false
  | String x s => Ascii.eqb x c || contains c s
  end.

(** [s.split(sep)] for a separator of one character. *)
Fixpoint split (sep : ascii) (s : string) : list string :=
  match s with
  | EmptyString => [EmptyString]
  | String x s =>
      if Ascii.eqb x sep then EmptyString :: split sep s
      else match split sep s with
           | word :: words => String x word :: words
           | [] => [String x EmptyString]
           end
  end.

(** An unpacking of anything but two parts raises [ValueError], which
    the handler answers with the string itself. *)
Definition _format_time (time_string : string) : string :=
  if contains " " time_string then
    let time_part := nth 1 (split " " time_string) EmptyString in
    if contains ":" time_part then
      match split ":" time_part with
      | [hour; minute] => hour +:+ ":" +:+ minute
      | _ => time_string
      end
    else time_string
  else time_string.

(** An entry of [merged_data]. *)
Record MergedData := { period : string; score : Z }.

Section Clipboard.
(** [score_diff <= 0.5], from the score of a row and the score its group
    began with; the quotient is computed in floating point. *)
Variable score_close : Z -> Z -> bool.
(** [time_diff <= 15], from the keys of two neighbouring rows as
    [_get_time_diff_minutes] reads them with [strptime]. *)
Variable time_close : string -> string -> bool.

Definition entry (current_start current_end : string)
    (current_data : EventService.AggregatedStats) : MergedData :=
  {| period := _format_time current_start +:+ "-"
               +:+ _format_time current_end;
     score := EventService.score current_data |}.

(** The three [+=] on [current_data]. *)
Definition accumulate (current_data item : EventService.AggregatedStats)
  : EventService.AggregatedStats :=
  {| EventService.period := EventService.period current_data;
     EventService.keyboard :=
       EventService.keyboard current_data + EventService.keyboard item;
     EventService.mouse :=
       EventService.mouse current_data + EventService.mouse item;
     EventService.score :=
       EventService.score current_data + EventService.score item |}.

(** The loop over [sorted_data[1:]] and the append that follows it;
    [previous] is [sorted_data[i-1]]. *)
Fixpoint merge_loop (current_start : string) (current_score : Z)
    (current_data previous : EventService.AggregatedStats)
    (rest : list EventService.AggregatedStats)
    (merged_data : list MergedData) : list MergedData :=
  match rest with
  | [] =>
      merged_data
      ++ [entry current_start (EventService.period previous) current_data]
  | item :: rest =>
      if score_close (EventService.score item) current_score
         && time_close (EventService.period previous)
              (EventService.period item)
      then merge_loop current_start current_score
             (accumulate current_data item) item rest merged_data
      else merge_loop (EventService.period item) (EventService.score item)
             item item rest
             (merged_data
              ++ [entry current_start (EventService.period previous)
                    current_data])
  end.

(** The entries that are numbered and joined into the text of the
    clipboard; [None] when the day has no row and the clipboard is left
    alone. [today] is [datetime.now().strftime("%Y-%m-%d")]. *)
Definition _copy_to_clipboard (today : string)
    (data : list EventService.AggregatedStats) : option (list MergedData) :=
  let today_data :=
    List.filter (fun item => String.prefix today (EventService.period item))
      data in
  match today_data with
  | [] => None
  | _ =>
      let sorted_data :=
        merge_sort (fun a b => String.le (EventService.period a)
                                 (EventService.period b))
          today_data in
      match sorted_data with
      | [] => Some []
      | first :: rest =>
          Some (merge_loop (EventService.period first)
                  (EventService.score first) first first rest [])
      end
  end.

End Clipboard.

End MainWindow.

(* ===================================================================== *)
(** ** Specification-side definitions *)
(* ===================================================================== *)

Module Spec.
Import Store.

(** The number of raw events of type [ty] with [timestamp >= t]. *)
Definition count_since (ty : string) (t : Q) (raw : list RawEvent) : Z :=
  Z.of_nat
    (length
       (List.filter
          (fun e => String.eqb (event_type e) ty
                    && Qle_bool t (inject_Z (timestamp e)))
          raw)).

Definition counts_since (t : Q) (raw : list RawEvent) : gmap string Z :=
  {[ "keyboard" := count_since "keyboard" t raw;
     "mouse" := count_since "mouse" t raw ]}.

(** [score = keyboard_count*1 + mouse_count*5] *)
Definition weighted (r : AggRow) : Prop :=
  Store.score r = keyboard_count r * 1 + mouse_count r * 5.

End Spec.

(* ===================================================================== *)
(** ** Series of calls *)
(* ===================================================================== *)

Module Series.

(** The results of [get_counts_since] called with the given clock
    readings and timestamps, one after the other. *)
Fixpoint poll (calls : list (Q * Q)) (self : EventService.t)
  : list (outcome (gmap string Z)) :=
  match calls with
  | [] => []
  | (now, t) :: rest =>
      let '(r, self') := EventService.get_counts_since now t self in
      r :: poll rest self'
  end.

(** A cache in which every entry is the exact answer for its timestamp
    on the current table. *)
Definition coherent (self : EventService.t) : Prop :=
  forall t c,
    EventService._counts_cache self !! Q2Qc t = Some c ->
    c = Spec.counts_since t
          (Store.raw_events (DatabaseManager.conn (EventService.db self))).

(** The two dictionaries of the cache have the same keys. *)
Definition same_keys (self : EventService.t) : Prop :=
  forall k,
    is_Some (EventService._counts_cache self !! k)
    <-> is_Some (EventService._cache_timestamps self !! k).

(** The keys that [_clear_outdated_cache] collects. *)
Definition outdated_keys (force : bool) (current_time : Q)
    (self : EventService.t) : list Qc :=
  map fst
    (List.filter
       (fun kv => force ||
                  negb (Qltb (current_time - snd kv)
                             (EventService._cache_lifetime self)))
       (map_to_list (EventService._cache_timestamps self))).

(** A computation that leaves both tables and the state of the store
    as it found them. *)
Definition reads_only {A} (m : M EventService.t A) : Prop :=
  forall self,
    Store.raw_events (DatabaseManager.conn (EventService.db (snd (m self))))
    = Store.raw_events (DatabaseManager.conn (EventService.db self))
    /\ Store.aggregated_stats
         (DatabaseManager.conn (EventService.db (snd (m self))))
       = Store.aggregated_stats (DatabaseManager.conn (EventService.db self))
    /\ Store.fault (DatabaseManager.conn (EventService.db (snd (m self))))
       = Store.fault (DatabaseManager.conn (EventService.db self)).

(** A character of a LIKE pattern that only itself matches. *)
Definition rigid (c : ascii) : bool :=
  negb (Ascii.eqb c "%") && negb (Ascii.eqb c "_")
  && forallb (fun d => implb (Ascii.eqb (Sql.fold_case c) (Sql.fold_case d))
                             (Ascii.eqb d c))
             (map ascii_of_nat (seq 0 256)).

(** The order of the rows of [aggregated_stats] by their key. *)
Definition key_le (a b : string * Store.AggRow) : Prop :=
  String.le (fst a) (fst b).

(** The row that a dictionary of the query results stands for. *)
Definition row_of_entry (x : EventService.AggregatedStats) : Store.AggRow :=
  {| Store.keyboard_count := EventService.keyboard x;
     Store.mouse_count := EventService.mouse x;
     Store.score := EventService.score x |}.

(** The service after rows were appended to [raw_events]. *)
Definition with_more_events (extra : list Store.RawEvent)
    (self : EventService.t) : EventService.t :=
  EventService.set_db
    (DatabaseManager.set_conn
       (Store.set_raw_events (fun raw => raw ++ extra)
          (DatabaseManager.conn (EventService.db self)))
       (EventService.db self))
    self.

(** The raw events of one type that a statement with the given key and
    cutoff puts in the bucket [p]. *)
Definition in_bucket (key : Z -> string) (cutoff : Z) (p : string)
    (ty : string) (raw : list Store.RawEvent) : list Store.RawEvent :=
  List.filter
    (fun e => (cutoff <=? Store.timestamp e)
              && String.eqb (key (Store.timestamp e)) p
              && String.eqb (Store.event_type e) ty)
    raw.

(** The aggregate table [agg] has a row for the period [p] whose two
    counts are those of the raw events that the statement puts there. *)
Definition holds_counts (key : Z -> string) (cutoff : Z)
    (raw : list Store.RawEvent) (agg : gmap string Store.AggRow)
    (p : string) : Prop :=
  exists r,
    agg !! p = Some r
    /\ Store.keyboard_count r
       = Z.of_nat (length (in_bucket key cutoff p "keyboard" raw))
    /\ Store.mouse_count r
       = Z.of_nat (length (in_bucket key cutoff p "mouse" raw)).

(** The scores of a list of rows, and of a list of merged entries,
    added up. *)
Definition rows_total (rows : list EventService.AggregatedStats) : Z :=
  foldr Z.add 0 (map EventService.score rows).

Definition merged_total (merged : list MainWindow.MergedData) : Z :=
  foldr Z.add 0 (map MainWindow.score merged).

(** The clock readings of the key presses of a stream. *)
Definition key_times (inputs : list EventListener.Input) : list Q :=
  omap (fun i => match i with
                 | EventListener.KeyPress t => Some t
                 | EventListener.Click _ _ => None
                 end) inputs.

(** Every entry of the format cache is what formatting gives. *)
Definition faithful (strftime : Z -> string -> string)
    (cache : gmap (Z * string) string) : Prop :=
  forall timestamp fmt s,
    cache !! (timestamp, fmt) = Some s -> s = strftime timestamp fmt.

(** Key presses at the given clock readings. *)
Definition presses (times : list Q) : list EventListener.Input :=
  map EventListener.KeyPress times.

(** Each reading is more than the throttle after the one before. *)
Fixpoint spaced (last : Q) (times : list Q) : Prop :=
  match times with
  | [] => True
  | t :: rest =>
      (EventListener.keyboard_throttle < t - last)%Q /\ spaced t rest
  end.

End Series.

(** Shorthands for the parts of a service. *)
Definition database_of (self : EventService.t) : Store.Database :=
  DatabaseManager.conn (EventService.db self).

Definition stats_of (self : EventService.t) : gmap string Store.AggRow :=
  Store.aggregated_stats (database_of self).

Definition raw_of (self : EventService.t) : list Store.RawEvent :=
  Store.raw_events (database_of self).

(** What the five upserts of a run write, laid over one another in the
    order of the statements. *)
Definition recomputed (utc_offset : Z -> Z) (now : Z)
    (raw : list Store.RawEvent) : gmap string Store.AggRow :=
  let rows key days :=
    Store.group_by_period key (EventService.days_ago now days) raw in
  Store.insert_or_replace (rows (EventService.period_month utc_offset) 365)
    (Store.insert_or_replace (rows (EventService.period_week utc_offset) 365)
       (Store.insert_or_replace (rows (EventService.period_day utc_offset) 30)
          (Store.insert_or_replace
             (rows (EventService.period_30min utc_offset) 7)
             (Store.insert_or_replace
                (rows (EventService.period_15min utc_offset) 2) ∅)))).

(* ===================================================================== *)
(** ** Concrete stores and services *)
(* ===================================================================== *)

Module Examples.
Import Store.

(** A machine whose local time is UTC. *)
Definition utc (_ : Z) : Z := 0.

Definition key_at (ts : Z) : RawEvent :=
  {| timestamp := ts; event_type := "keyboard" |}.

Definition click_at (ts : Z) : RawEvent :=
  {| timestamp := ts; event_type := "mouse" |}.

Definition row (k m s : Z) : AggRow :=
  {| keyboard_count := k; mouse_count := m; Store.score := s |}.

Definition manager (raw : list RawEvent) (agg : gmap string AggRow)
    (f : option string) : DatabaseManager.t :=
  {| DatabaseManager.conn :=
       {| raw_events := raw; aggregated_stats := agg; fault := f;
          journal := [] |};
     DatabaseManager.worker := Some [];
     DatabaseManager.batch_events := [] |}.

Definition service (raw : list RawEvent) (agg : gmap string AggRow)
    (f : option string) : EventService.t :=
  EventService.__init__ (manager raw agg f).

(** A service over an empty store that answered
    [get_counts_since(99.5)] at time 100.0 ... *)
Definition polled : EventService.t :=
  snd (EventService.get_counts_since 100 (995 # 10) (service [] ∅ None)).

(** ... after which the worker inserted one key press stamped 100. *)
Definition polled_then_insert : EventService.t :=
  snd (zoom EventService.db EventService.set_db
         (DatabaseManager._do_batch_insert [("keyboard", 100)]) polled).

(** Key presses at 100, 101, 102 and a click at 101. *)
Definition scenario : EventService.t :=
  service [key_at 100; key_at 101; key_at 102; click_at 101] ∅ None.

(** Key presses at 22:05:00 and 22:20:00 on 2023-11-14 (UTC). *)
Definition two_quarters : EventService.t :=
  service [key_at 1699999500; key_at 1700000400] ∅ None.

(** A key press at 22:18:20 on 2023-11-04 (UTC) and its 15-minute
    bucket, as a run on that day left it. *)
Definition aged : EventService.t :=
  service [key_at 1699136300] {[ "2023-11-04 22:15" := row 1 0 1 ]} None.

(** Ten pending key presses. *)
Definition ten_pending : DatabaseManager.t :=
  DatabaseManager.set_batch_events
    (map (fun n => ("keyboard", Z.of_nat n)) (seq 0 10))
    (manager [] ∅ None).

(** A key press, a click and a second key press within 20 ms. *)
Definition burst : list EventListener.Input :=
  [EventListener.KeyPress 100;
   EventListener.Click true (10001 # 100);
   EventListener.KeyPress (10002 # 100)].

(** A store whose file is locked. *)
Definition locked : EventService.t :=
  service [] ∅ (Some "database is locked").

End Examples.

(* ===================================================================== *)
(** ** Further concrete cases *)
(* ===================================================================== *)

Module Cases.
Import Store.

(** A service with an idle worker over an empty store. *)
Definition idle : EventService.t := Examples.service [] ∅ None.

(** Twelve key presses, stamped 0 to 11. *)
Definition twelve : list (string * Z) :=
  map (fun n => ("keyboard", Z.of_nat n)) (seq 0 12).

(** Twelve passes of the worker. *)
Definition passes : list Z := repeat 0 12.

(** A locked store whose worker holds one batch. *)
Definition stuck : EventService.t :=
  EventService.__init__
    {| DatabaseManager.conn :=
         {| raw_events := []; aggregated_stats := ∅;
            fault := Some "database is locked"; journal := [] |};
       DatabaseManager.worker :=
         Some [DatabaseManager.BatchInsert [("keyboard", 5); ("mouse", 6)]];
       DatabaseManager.batch_events := [] |}.

(** A timer service over a store that answers, with two timers. *)
Definition two_timers : TimerService.t :=
  {| TimerService.db := Examples.manager [] ∅ None;
     TimerService.timers :=
       {| TimerService.rows :=
            [ {| TimerService.id := 1; TimerService.duration := 25;
                 TimerService.created_at := 1700000000 |};
              {| TimerService.id := 3; TimerService.duration := 5;
                 TimerService.created_at := 1700000600 |} ];
          TimerService.sequence := 3 |} |}.

(** The main window as it is built, with a default timer of 25
    minutes. *)
Definition window : MainWindow.t :=
  {| MainWindow.remaining_seconds := None;
     MainWindow.timer_paused := false;
     MainWindow.timer_countdown := None;
     MainWindow.default_timer_minutes := 25;
     MainWindow.timer_label := MainWindow.Idle;
     MainWindow.label_colour := MainWindow.White;
     MainWindow.pause_button := false;
     MainWindow.start_button := true;
     MainWindow.reset_button := false;
     MainWindow.notices := 0 |}.

(** Three quarter-hour rows of one day and a row of the day before;
    the merge criteria, with the quotient taken exactly and the keys
    taken as neighbours. *)
Definition quarters : list EventService.AggregatedStats :=
  [ {| EventService.period := "2023-11-14 09:15"; EventService.keyboard := 10;
       EventService.mouse := 2; EventService.score := 20 |};
    {| EventService.period := "2023-11-13 23:45"; EventService.keyboard := 1;
       EventService.mouse := 0; EventService.score := 1 |};
    {| EventService.period := "2023-11-14 09:00"; EventService.keyboard := 12;
       EventService.mouse := 2; EventService.score := 22 |};
    {| EventService.period := "2023-11-14 09:30"; EventService.keyboard := 0;
       EventService.mouse := 1; EventService.score := 5 |} ].

Definition within_half (s current_score : Z) : bool :=
  2 * Z.abs (s - current_score) <=? Z.max current_score 1.

Definition neighbours (_ _ : string) : bool := true.

(** Events 40, 20 and 1 days before 2023-11-14 22:30:00 UTC. *)
Definition month_of_events : Database :=
  {| raw_events := [Examples.key_at 1696545000; Examples.click_at 1698273000;
                    Examples.key_at 1699914600];
     aggregated_stats := ∅; fault := None; journal := [] |}.

End Cases.

(* ===================================================================== *)
(** ** Clock comparisons *)
(* ===================================================================== *)

Lemma Qltb_true a b : Qltb a b = true <-> (a < b)%Q.
Proof.
  unfold Qltb. rewrite negb_true_iff.
  destruct (Qle_bool b a) eqn:E.
  - apply Qle_bool_iff in E. split; [discriminate | intros; lra].
  - split; [intros _ | reflexivity].
    destruct (Qlt_le_dec a b) as [|H]; [assumption |].
    apply Qle_bool_iff in H. congruence.
Qed.

Lemma Qltb_false a b : Qltb a b = false <-> (b <= a)%Q.
Proof.
  destruct (Qltb a b) eqn:E.
  - apply Qltb_true in E. split; [discriminate | intros; lra].
  - split; [intros _ | reflexivity].
    destruct (Qlt_le_dec a b) as [H|]; [| assumption].
    apply Qltb_true in H. congruence.
Qed.

(* ===================================================================== *)
(** ** Period keys *)
(* ===================================================================== *)

Example epoch_is_thursday :
  Calendar.localtime Examples.utc 0
  = {| Calendar.year := 1970; Calendar.month := 1; Calendar.day := 1;
       Calendar.hour := 0; Calendar.minute := 0;
       Calendar.yday := 0; Calendar.wday := 3 |}.
Proof. reflexivity. Qed.

Example leap_day_2024 :
  EventService.period_day Examples.utc 1709208000 = "2024-02-29"
  /\ EventService.period_week Examples.utc 1709208000 = "2024-W09"
  /\ EventService.period_month Examples.utc 1709208000 = "2024-02".
Proof. repeat split; vm_compute; reflexivity. Qed.

Example offset_moves_the_day :
  EventService.period_day (fun _ => 28800) 1700000000 = "2023-11-15"
  /\ EventService.period_15min (fun _ => 28800) 1700000000
     = "2023-11-15 06:00".
Proof. repeat split; vm_compute; reflexivity. Qed.

(** In the first and third quarter of an hour the 15-minute key is the
    30-minute key. *)
Lemma minute_keys_collide utc_offset ts :
  let m := Calendar.minute (Calendar.localtime utc_offset ts) in
  m < 15 \/ (30 <= m < 45) ->
  EventService.period_15min utc_offset ts
  = EventService.period_30min utc_offset ts.
Proof.
  intros m Hm. unfold EventService.period_15min, EventService.period_30min.
  fold m.
  destruct (Z.ltb_spec m 15), (Z.ltb_spec m 30), (Z.ltb_spec m 45);
    try reflexivity; lia.
Qed.

(* ===================================================================== *)
(** ** Counting queries *)
(* ===================================================================== *)

Section Counting.
Import Store.

Lemma sum_case_count ty (rows : list RawEvent) :
  foldr Z.add 0
    (map (fun e => if String.eqb (event_type e) ty then 1 else 0) rows)
  = Z.of_nat (length (of_type ty rows)).
Proof.
  induction rows as [|e rows IH]; [reflexivity |].
  cbn [map foldr of_type List.filter]. rewrite IH. unfold of_type.
  destruct (String.eqb (event_type e) ty); cbn [length]; lia.
Qed.

Lemma of_type_since ty t (raw : list RawEvent) :
  Z.of_nat (length (of_type ty (since t raw))) = Spec.count_since ty t raw.
Proof.
  unfold Spec.count_since, of_type, since. f_equal.
  induction raw as [|e raw IH]; [reflexivity |].
  cbn [List.filter].
  destruct (Qle_bool t (inject_Z (timestamp e)));
    destruct (String.eqb (event_type e) ty) eqn:E;
    cbn [List.filter andb length]; rewrite ?E; cbn [length]; lia.
Qed.

(** The conditional sum, after [or 0], is the count. *)
Lemma or0_sum_case ty (rows : list RawEvent) :
  EventService.or0 (sum_case ty rows) = Z.of_nat (length (of_type ty rows)).
Proof.
  unfold sum_case, Sql.sum.
  destruct rows as [|e rows]; [reflexivity |].
  set (l := e :: rows). cbn [map]. fold (map (fun e : RawEvent =>
    if String.eqb (event_type e) ty then 1 else 0) l).
  change (EventService.or0 (Some (foldr Z.add 0
    (map (fun e => if String.eqb (event_type e) ty then 1 else 0) l)))
    = Z.of_nat (length (of_type ty l))).
  rewrite sum_case_count. unfold EventService.or0.
  destruct (Z.eqb_spec (Z.of_nat (length (of_type ty l))) 0); lia.
Qed.

Lemma grouped_step_lookup (c : string -> Z) ty acc k :
  k = "keyboard" \/ k = "mouse" ->
  EventService.grouped_step acc (ty, c ty) !! k
  = if decide (ty = k) then Some (c k) else acc !! k.
Proof.
  intros Hk. unfold EventService.grouped_step. cbn [fst snd].
  destruct (String.eqb_spec ty "keyboard") as [->|Hkb].
  - destruct Hk as [->| ->].
    + rewrite lookup_insert_eq. by rewrite decide_True.
    + rewrite lookup_insert_ne by done. by rewrite decide_False.
  - destruct (String.eqb_spec ty "mouse") as [->|Hm].
    + destruct Hk as [->| ->].
      * rewrite lookup_insert_ne by done. by rewrite decide_False.
      * rewrite lookup_insert_eq. by rewrite decide_True.
    + destruct Hk as [->| ->]; by rewrite decide_False.
Qed.

Lemma grouped_fold_lookup (c : string -> Z) tys acc k :
  k = "keyboard" \/ k = "mouse" ->
  foldl EventService.grouped_step acc (map (fun ty => (ty, c ty)) tys) !! k
  = if decide (k ∈ tys) then Some (c k) else acc !! k.
Proof.
  intros Hk. revert acc.
  induction tys as [|ty tys IH]; intros acc.
  - cbn. rewrite decide_False; [done | apply not_elem_of_nil].
  - cbn [map foldl]. rewrite IH.
    destruct (decide (k ∈ tys)) as [Hin|Hnin].
    + rewrite decide_True; [done | by right].
    + rewrite grouped_step_lookup by done.
      destruct (decide (ty = k)) as [->|Hne].
      * rewrite decide_True; [done | by left].
      * rewrite decide_False; [done |].
        intros [?|?]%elem_of_cons; congruence.
Qed.

Lemma grouped_fold_other tys (f : string -> string * Z) acc k :
  k <> "keyboard" -> k <> "mouse" ->
  foldl EventService.grouped_step acc (map f tys) !! k = acc !! k.
Proof.
  intros Hkb Hm. revert acc.
  induction tys as [|ty tys IH]; intros acc; [done |].
  cbn [map foldl]. rewrite IH. unfold EventService.grouped_step.
  destruct (String.eqb (f ty).1 "keyboard");
    [by rewrite lookup_insert_ne |].
  destruct (String.eqb (f ty).1 "mouse"); [by rewrite lookup_insert_ne |].
  done.
Qed.

Lemma of_type_absent ty (rows : list RawEvent) :
  ty ∉ map event_type rows -> of_type ty rows = [].
Proof.
  induction rows as [|e rows IH]; [done |].
  cbn [map]. intros Hnin. unfold of_type. cbn [List.filter].
  destruct (String.eqb_spec (event_type e) ty) as [<-|_].
  - exfalso. apply Hnin. by left.
  - apply IH. intros ?. apply Hnin. by right.
Qed.

(** The loop over the grouped rows builds the exact counts. *)
Lemma grouped_counts_exact t (d : Database) :
  foldl EventService.grouped_step {[ "keyboard" := 0; "mouse" := 0 ]}
        (select_grouped_counts t d)
  = Spec.counts_since t (raw_events d).
Proof.
  unfold select_grouped_counts.
  set (sel := since t (raw_events d)).
  set (c := fun ty => Z.of_nat (length (of_type ty sel))).
  apply map_eq. intros k.
  assert (Hc : forall ty, c ty = Spec.count_since ty t (raw_events d))
    by (intros; apply of_type_since).
  assert (Hz : forall ty, ty ∉ remove_dups (map event_type sel) -> c ty = 0).
  { intros ty Hnin. unfold c. rewrite of_type_absent; [done |].
    by rewrite <- elem_of_remove_dups. }
  unfold Spec.counts_since.
  destruct (decide (k = "keyboard")) as [->|Hkb].
  - rewrite (grouped_fold_lookup c) by auto.
    rewrite !lookup_insert_eq.
    destruct (decide (_ ∈ _)) as [|Hnin]; [by rewrite Hc |].
    by rewrite <- Hc, (Hz _ Hnin).
  - destruct (decide (k = "mouse")) as [->|Hm].
    + rewrite (grouped_fold_lookup c) by auto.
      rewrite !(lookup_insert_ne _ "keyboard") by done.
      rewrite !lookup_singleton_eq.
      destruct (decide (_ ∈ _)) as [|Hnin]; [by rewrite Hc |].
      by rewrite <- Hc, (Hz _ Hnin).
    + rewrite grouped_fold_other by done.
      rewrite !lookup_insert_ne by done.
      by rewrite !lookup_singleton_ne.
Qed.

(** So does the conditional-sum row. *)
Lemma conditional_sums_exact t (d : Database) :
  ({[ "keyboard" := EventService.or0 (fst (select_conditional_sums t d));
      "mouse" := EventService.or0 (snd (select_conditional_sums t d)) ]}
   : gmap string Z)
  = Spec.counts_since t (raw_events d).
Proof.
  unfold select_conditional_sums. cbn [fst snd].
  rewrite !or0_sum_case, !of_type_since. reflexivity.
Qed.

End Counting.

(* ===================================================================== *)
(** ** get_counts_since *)
(* ===================================================================== *)

Ltac unfold_monad :=
  unfold mbind, M_bind, bind, mret, M_ret, ret, gets, modify, zoom,
    try_except in *.

Section CountsSince.
Import Store EventService.

Lemma on_conn_cursor_ok self :
  fault (database_of self) = None ->
  on_conn cursor self = (Returns tt, self).
Proof.
  intros Hf. unfold on_conn, cursor, database_of in *. unfold_monad.
  rewrite Hf. destruct self as [[? ? ?] ? ? ? ?]. reflexivity.
Qed.

Lemma on_conn_cursor_fault self e :
  fault (database_of self) = Some e ->
  on_conn cursor self = (Raises e, self).
Proof.
  intros Hf. unfold on_conn, cursor, database_of in *. unfold_monad.
  rewrite Hf. destruct self as [[? ? ?] ? ? ? ?]. reflexivity.
Qed.

Lemma on_conn_execute_ok {A} q (f : Database -> A) self :
  fault (database_of self) = None ->
  exists self', on_conn (execute q f) self
                = (Returns (f (database_of self)), self').
Proof.
  intros Hf. unfold on_conn, execute, database_of in *. unfold_monad.
  rewrite Hf. eauto.
Qed.

Lemma counts_recent_ok t self :
  fault (database_of self) = None ->
  exists self', counts_recent t self
                = (Returns (Spec.counts_since t (raw_of self)), self').
Proof.
  intros Hf. unfold counts_recent.
  destruct (on_conn_execute_ok (SelectGroupedCounts t)
              (select_grouped_counts t) self Hf) as [self' He].
  exists self'. unfold mbind, M_bind, bind at 1.
  rewrite (on_conn_cursor_ok _ Hf). unfold bind. rewrite He.
  unfold mret, M_ret, ret. by rewrite grouped_counts_exact.
Qed.

Lemma counts_historical_ok t self :
  fault (database_of self) = None ->
  exists self', counts_historical t self
                = (Returns (Spec.counts_since t (raw_of self)), self').
Proof.
  intros Hf. unfold counts_historical.
  destruct (on_conn_execute_ok (SelectConditionalSums t)
              (select_conditional_sums t) self Hf) as [self' He].
  exists self'. unfold mbind, M_bind, bind at 1.
  rewrite (on_conn_cursor_ok _ Hf). unfold bind. rewrite He.
  unfold mret, M_ret, ret. by rewrite conditional_sums_exact.
Qed.

Lemma clear_outdated_returns force now self :
  fst (_clear_outdated_cache force now self) = Returns tt.
Proof. reflexivity. Qed.

(** A call that the cache does not answer returns the exact counts. *)
Lemma get_counts_since_miss now t self :
  fault (database_of self) = None ->
  cached_counts now t self = None ->
  fst (get_counts_since now t self)
  = Returns (Spec.counts_since t (raw_of self)).
Proof.
  intros Hf Hmiss. unfold get_counts_since.
  unfold mbind, M_bind, bind at 1. unfold gets at 1. rewrite Hmiss.
  unfold bind at 1.
  assert (Hq : exists self',
             (if Qltb (now - t) 2 then counts_recent t
              else counts_historical t) self
             = (Returns (Spec.counts_since t (raw_of self)), self')).
  { destruct (Qltb (now - t) 2);
      [apply counts_recent_ok | apply counts_historical_ok]; done. }
  destruct Hq as [self' ->].
  unfold_monad.
  match goal with |- context [if ?b then _ else _] => destruct b end;
    reflexivity.
Qed.

(** A call that the cache answers returns the stored entry and touches
    nothing. *)
Lemma get_counts_since_hit now t self cached :
  cached_counts now t self = Some cached ->
  get_counts_since now t self = (Returns cached, self).
Proof.
  intros Hhit. unfold get_counts_since. unfold_monad. by rewrite Hhit.
Qed.

End CountsSince.



(* ===================================================================== *)
(** ** The aggregation run *)
(* ===================================================================== *)

Section AggregationRun.
Import Store EventService.
Variable utc_offset : Z -> Z.

Lemma lookup_delete_like pattern (agg : gmap string AggRow) k :
  delete_like pattern agg !! k
  = if Sql.like pattern k then None else agg !! k.
Proof.
  unfold delete_like. rewrite map_lookup_filter.
  destruct (agg !! k) as [r|]; cbn; [| by destruct (Sql.like _ _)].
  destruct (Sql.like pattern k); cbn.
  - by rewrite option_guard_False.
  - by rewrite option_guard_True.
Qed.

Lemma insert_or_replace_union rows (a m : gmap string AggRow) :
  insert_or_replace rows (a ∪ m) = insert_or_replace rows a ∪ m.
Proof.
  revert a. induction rows as [|r rows IH]; intros a; [done |].
  cbn [insert_or_replace foldl]. rewrite insert_union_l. apply IH.
Qed.

Lemma insert_or_replace_over rows (m : gmap string AggRow) :
  insert_or_replace rows m = insert_or_replace rows ∅ ∪ m.
Proof.
  rewrite <- insert_or_replace_union. by rewrite (left_id_L ∅ (∪)).
Qed.

Lemma execute_update_ok q f d :
  fault d = None -> execute_update q f d = (Returns tt, log q (f d)).
Proof. intros Hf. unfold execute_update. by rewrite Hf. Qed.

Lemma upsert_ok g key cutoff d :
  fault d = None ->
  exists d',
    upsert g key cutoff d = (Returns tt, d')
    /\ fault d' = None
    /\ raw_events d' = raw_events d
    /\ aggregated_stats d'
       = insert_or_replace (group_by_period key cutoff (raw_events d))
                           (aggregated_stats d).
Proof.
  intros Hf. unfold upsert. rewrite execute_update_ok by done.
  eexists. split; [reflexivity |]. by destruct d.
Qed.

(** The statements of a run on a store that answers. *)
Lemma aggregate_statements_ok now d :
  fault d = None ->
  exists d',
    aggregate_statements utc_offset now d = (Returns tt, d')
    /\ fault d' = None
    /\ raw_events d' = raw_events d
    /\ aggregated_stats d'
       = recomputed utc_offset now (raw_events d)
         ∪ delete_like "%-%-% %:%" (aggregated_stats d).
Proof.
  intros Hf. unfold aggregate_statements.
  unfold mbind, M_bind, bind at 1. unfold cursor. rewrite Hf.
  unfold bind at 1. rewrite execute_update_ok by done.
  set (d0 := log _ _).
  assert (H0 : fault d0 = None /\ raw_events d0 = raw_events d
               /\ aggregated_stats d0
                  = delete_like "%-%-% %:%" (aggregated_stats d))
    by (by destruct d).
  clearbody d0. destruct H0 as (Hf0 & Hr0 & Ha0).
  destruct (upsert_ok "15min" (period_15min utc_offset) (days_ago now 2)
              d0 Hf0) as (d1 & E1 & Hf1 & Hr1 & Ha1).
  unfold bind at 1. rewrite E1.
  destruct (upsert_ok "30min" (period_30min utc_offset) (days_ago now 7)
              d1 Hf1) as (d2 & E2 & Hf2 & Hr2 & Ha2).
  unfold bind at 1. rewrite E2.
  destruct (upsert_ok "day" (period_day utc_offset) (days_ago now 30)
              d2 Hf2) as (d3 & E3 & Hf3 & Hr3 & Ha3).
  unfold bind at 1. rewrite E3.
  destruct (upsert_ok "week" (period_week utc_offset) (days_ago now 365)
              d3 Hf3) as (d4 & E4 & Hf4 & Hr4 & Ha4).
  unfold bind at 1. rewrite E4.
  destruct (upsert_ok "month" (period_month utc_offset) (days_ago now 365)
              d4 Hf4) as (d5 & E5 & Hf5 & Hr5 & Ha5).
  unfold bind at 1. rewrite E5.
  rewrite execute_update_ok by done.
  eexists. split; [reflexivity |].
  split; [by destruct d5 |]. split; [destruct d5; cbn in *; congruence |].
  transitivity (aggregated_stats d5); [by destruct d5 |].
  rewrite Ha5, Ha4, Ha3, Ha2, Ha1, Ha0, Hr4, Hr3, Hr2, Hr1, Hr0.
  unfold recomputed.
  rewrite (insert_or_replace_over _ (delete_like _ _)).
  rewrite !insert_or_replace_union. reflexivity.
Qed.

Lemma aggregate_statements_fault now d e :
  fault d = Some e -> aggregate_statements utc_offset now d = (Raises e, d).
Proof.
  intros Hf. unfold aggregate_statements.
  unfold mbind, M_bind, bind at 1. unfold cursor. by rewrite Hf.
Qed.

(** The table after a run: the recomputed rows over what the DELETE
    left; a failing store leaves it as it was. *)
Lemma run_stats now self :
  stats_of (snd (_do_calculate_aggregates utc_offset now self))
  = match fault (database_of self) with
    | Some _ => stats_of self
    | None =>
        recomputed utc_offset now (raw_of self)
        ∪ delete_like "%-%-% %:%" (stats_of self)
    end.
Proof.
  unfold _do_calculate_aggregates, on_conn, try_except, zoom.
  unfold stats_of, raw_of, database_of.
  destruct (fault (DatabaseManager.conn (db self))) as [e|] eqn:Hf.
  - rewrite (aggregate_statements_fault _ _ e Hf).
    by destruct self as [[? ? ?] ? ? ? ?].
  - destruct (aggregate_statements_ok now _ Hf) as (d' & -> & _ & _ & Ha).
    by destruct self as [[? ? ?] ? ? ? ?].
Qed.

(** A run touches neither the raw events nor the state of the store. *)
Lemma run_frame now self :
  raw_of (snd (_do_calculate_aggregates utc_offset now self)) = raw_of self
  /\ fault (database_of (snd (_do_calculate_aggregates utc_offset now self)))
     = fault (database_of self).
Proof.
  unfold _do_calculate_aggregates, on_conn, try_except, zoom.
  unfold stats_of, raw_of, database_of.
  destruct (fault (DatabaseManager.conn (db self))) as [e|] eqn:Hf.
  - rewrite (aggregate_statements_fault _ _ e Hf).
    by destruct self as [[? ? ?] ? ? ? ?].
  - destruct (aggregate_statements_ok now _ Hf) as (d' & -> & Hf' & Hr & _).
    destruct self as [[? ? ?] ? ? ? ?]. cbn in *. by rewrite Hf', Hr.
Qed.

End AggregationRun.

(* ===================================================================== *)
(** ** LIKE on the period keys *)
(* ===================================================================== *)

Section LikeKeys.
Import Sql Calendar.

Lemma like_percent p s :
  like (String "%" p) s
  = like p s || match s with
                | EmptyString => false
                | String _ s' => like (String "%" p) s'
                end.
Proof. destruct s; reflexivity. Qed.

Lemma like_percent_any s : like "%" s = true.
Proof.
  induction s as [|d s IH]; [reflexivity |].
  rewrite like_percent, IH. apply orb_true_r.
Qed.

Lemma append_cons d (s1 s2 : string) :
  String d s1 +:+ s2 = String d (s1 +:+ s2).
Proof. reflexivity. Qed.

Lemma append_assoc (s1 s2 s3 : string) :
  (s1 +:+ s2) +:+ s3 = s1 +:+ (s2 +:+ s3).
Proof.
  induction s1 as [|d s1 IH]; [reflexivity |].
  rewrite !append_cons. by rewrite IH.
Qed.

(** [%c...] matches any text up to an occurrence of [c] whose rest
    matches the rest of the pattern. *)
Lemma like_percent_app c p s1 s2 :
  Ascii.eqb c "%" = false ->
  like p s2 = true ->
  like (String "%" (String c p)) (s1 +:+ String c s2) = true.
Proof.
  intros Hc Hp. induction s1 as [|d s1 IH].
  - change ("" +:+ String c s2) with (String c s2). rewrite like_percent.
    cbn [like]. rewrite Hc, Ascii.eqb_refl, Hp.
    by rewrite orb_true_r.
  - rewrite append_cons, like_percent, IH. apply orb_true_r.
Qed.

Lemma all_chars_app P s1 s2 :
  all_chars P (s1 +:+ s2) = all_chars P s1 && all_chars P s2.
Proof.
  induction s1 as [|d s1 IH]; [reflexivity |].
  rewrite append_cons. cbn [all_chars]. rewrite IH. apply andb_assoc.
Qed.

(** A literal of the pattern must occur in the text. *)
Lemma like_needs_literal c p s :
  In c (chars p) ->
  Ascii.eqb c "%" = false -> Ascii.eqb c "_" = false ->
  all_chars (fun d => negb (Ascii.eqb (fold_case c) (fold_case d))) s = true ->
  like p s = false.
Proof.
  intros Hin Hpc Hus. revert s.
  induction p as [|a p IH]; [destruct Hin |].
  intros s Hs. destruct (Ascii.eqb a "%") eqn:Ea.
  - apply Ascii.eqb_eq in Ea. subst a.
    destruct Hin as [<-|Hin]; [discriminate |].
    induction s as [|d s IHs].
    + rewrite like_percent. by rewrite IH.
    + rewrite like_percent, (IH Hin _ Hs).
      cbn [all_chars] in Hs. apply andb_true_iff in Hs as [_ Hs].
      by rewrite (IHs Hs).
  - cbn [like]. rewrite Ea. destruct s as [|d s]; [reflexivity |].
    cbn [all_chars] in Hs. apply andb_true_iff in Hs as [Hd Hs].
    destruct Hin as [->|Hin].
    + rewrite Hus. apply negb_true_iff in Hd. by rewrite Hd.
    + rewrite (IH Hin _ Hs). apply andb_false_r.
Qed.

Lemma digit_plain n : plain (digit n) = true.
Proof.
  unfold digit.
  assert (H : (Z.to_nat (n mod 10) < 10)%nat)
    by (pose proof (Z.mod_pos_bound n 10); lia).
  generalize dependent (Z.to_nat (n mod 10)). intros k Hk.
  do 10 (destruct k as [|k]; [reflexivity |]); lia.
Qed.

Lemma pad2_plain n : all_chars plain (pad2 n) = true.
Proof. unfold pad2. cbn [all_chars]. by rewrite !digit_plain. Qed.

Lemma pad4_plain n : all_chars plain (pad4 n) = true.
Proof.
  unfold pad4. cbn [all_chars]. by rewrite !digit_plain, pad2_plain.
Qed.

Lemma fmt_day_plain t : all_chars plain (fmt_day t) = true.
Proof.
  unfold fmt_day.
  rewrite !all_chars_app, pad4_plain, !pad2_plain. reflexivity.
Qed.

Lemma fmt_week_plain t : all_chars plain (fmt_week t) = true.
Proof.
  unfold fmt_week.
  rewrite !all_chars_app, pad4_plain, !pad2_plain. reflexivity.
Qed.

Lemma fmt_month_plain t : all_chars plain (fmt_month t) = true.
Proof.
  unfold fmt_month.
  rewrite !all_chars_app, pad4_plain, !pad2_plain. reflexivity.
Qed.

Lemma no_space_not_minute s :
  all_chars plain s = true -> like "%-%-% %:%" s = false.
Proof.
  intros Hs. apply (like_needs_literal " "); [| reflexivity..| exact Hs].
  cbn. tauto.
Qed.

(** Every ['%Y-%m-%d %H:'] prefix followed by minutes matches the
    pattern of the DELETE. *)
Lemma fmt_hour_minute t mm :
  like "%-%-% %:%" (fmt_hour t +:+ mm) = true.
Proof.
  unfold fmt_hour, fmt_day.
  rewrite !append_assoc.
  change ("-" +:+ ?x) with (String "-" x).
  apply like_percent_app; [reflexivity |].
  apply like_percent_app; [reflexivity |].
  change (" " +:+ ?x) with (String " " x).
  apply like_percent_app; [reflexivity |].
  change (":" +:+ ?x) with (String ":" x).
  apply like_percent_app; [reflexivity |].
  apply like_percent_any.
Qed.
End LikeKeys.

(* ===================================================================== *)
(** ** Scores of the aggregated rows *)
(* ===================================================================== *)

Section Scores.
Import Store EventService.

Lemma Forall_filter_keep {A} (P : A -> Prop) (f : A -> bool) l :
  Forall P l -> Forall P (List.filter f l).
Proof.
  induction 1 as [|x l Hx _ IH]; [constructor |].
  cbn [List.filter]. destruct (f x); [by constructor | done].
Qed.

Lemma score_fold (g : list RawEvent) :
  Forall check_event_type g ->
  foldr Z.add 0
    (map (fun e => if String.eqb (event_type e) "keyboard" then 1 else 5) g)
  = foldr Z.add 0
      (map (fun e => if String.eqb (event_type e) "keyboard" then 1 else 0) g)
      * 1
    + foldr Z.add 0
        (map (fun e => if String.eqb (event_type e) "mouse" then 1 else 0) g)
      * 5.
Proof.
  induction 1 as [|e g He _ IH]; [reflexivity |].
  cbn [map foldr]. rewrite IH.
  destruct He as [-> | ->]; cbn; lia.
Qed.

Lemma group_row_weighted (g : list RawEvent) :
  Forall check_event_type g ->
  Spec.weighted
    {| keyboard_count := default 0 (sum_case "keyboard" g);
       mouse_count := default 0 (sum_case "mouse" g);
       Store.score :=
         default 0
           (Sql.sum (map (fun e =>
              if String.eqb (event_type e) "keyboard" then 1 else 5) g)) |}.
Proof.
  intros Hg. unfold Spec.weighted, sum_case, Sql.sum. cbn [keyboard_count
    mouse_count Store.score].
  destruct g as [|e g]; [reflexivity |].
  set (l := e :: g) in *. cbn [map]. fold l.
  change (foldr Z.add 0
    (map (fun e => if String.eqb (event_type e) "keyboard" then 1 else 5) l)
    = foldr Z.add 0
        (map (fun e=> if String.eqb (event_type e) "keyboard" then 1 else 0) l)
      * 1
      + foldr Z.add 0
        (map (fun e => if String.eqb (event_type e) "mouse" then 1 else 0) l)
      * 5).
  by apply score_fold.
Qed.

Lemma group_by_period_weighted key cutoff raw :
  Forall check_event_type raw ->
  Forall (fun r => Spec.weighted (snd r)) (group_by_period key cutoff raw).
Proof.
  intros Hraw. unfold group_by_period.
  apply Forall_forall. intros r Hr.
  apply list_elem_of_In, in_map_iff in Hr as (p & <- & _). cbn [snd].
  apply group_row_weighted.
  by do 2 apply Forall_filter_keep.
Qed.

Lemma insert_or_replace_Forall (P : AggRow -> Prop) rows
    (m : gmap string AggRow) :
  Forall (fun r => P (snd r)) rows ->
  map_Forall (fun _ => P) m ->
  map_Forall (fun _ => P) (insert_or_replace rows m).
Proof.
  intros Hrows. revert m.
  induction Hrows as [|r rows Hr _ IH]; intros m Hm; [done |].
  cbn [insert_or_replace foldl]. apply IH.
  by apply map_Forall_insert_2.
Qed.

Lemma recomputed_weighted utc_offset now raw :
  Forall check_event_type raw ->
  map_Forall (fun _ => Spec.weighted) (recomputed utc_offset now raw).
Proof.
  intros Hraw. unfold recomputed.
  repeat (apply insert_or_replace_Forall;
          [by apply group_by_period_weighted |]).
  apply map_Forall_empty.
Qed.

(** The run keeps every row weighted. *)
Lemma run_weighted utc_offset now self :
  Forall check_event_type (raw_of self) ->
  map_Forall (fun _ => Spec.weighted) (stats_of self) ->
  map_Forall (fun _ => Spec.weighted)
    (stats_of (snd (_do_calculate_aggregates utc_offset now self))).
Proof.
  intros Hraw Hold. rewrite run_stats.
  destruct (fault (database_of self)); [done |].
  intros k r [Hnew | [_ Hkept]]%lookup_union_Some_raw.
  - by apply (recomputed_weighted utc_offset now _ Hraw k).
  - rewrite lookup_delete_like in Hkept.
    destruct (Sql.like _ k); [done |]. by apply (Hold k).
Qed.
End Scores.

(* ===================================================================== *)
(** ** ScoreCalculator *)
(* ===================================================================== *)

Section Calculator.
Import ScoreCalculator.

Lemma reachable_memo_ok self : reachable self -> memo_ok self.
Proof.
  induction 1 as [|counts self _ IH|k m self _ IH].
  - reflexivity.
  - unfold calculate_score, memo_ok in *.
    destruct (_last_calculation self) as [[lk lm] ls] eqn:El.
    destruct (_ && _); cbn; [by rewrite El | reflexivity].
  - unfold update_weights. destruct (_ || _); [| done].
    unfold memo_ok. cbn. lia.
Qed.

Lemma calculate_score_value counts self :
  memo_ok self ->
  fst (fst (calculate_score counts self))
  = default 0 (counts !! "keyboard") * _keyboard_weight self
    + default 0 (counts !! "mouse") * _mouse_weight self.
Proof.
  unfold memo_ok, calculate_score.
  destruct (_last_calculation self) as [[lk lm] ls].
  intros ->.
  destruct (Z.eqb_spec (default 0 (counts !! "keyboard")) lk) as [->|];
    [| reflexivity].
  destruct (Z.eqb_spec (default 0 (counts !! "mouse")) lm) as [->|];
    reflexivity.
Qed.
End Calculator.

(* ===================================================================== *)
(** ** EventListener: the throttle *)
(* ===================================================================== *)

Section Throttle.
Import EventListener.

Lemma run_lookup inputs self i :
  run inputs self !! i
  = (fun x => fst (handle x (exec (take i inputs) self))) <$> inputs !! i.
Proof.
  revert self i. induction inputs as [|x inputs IH]; intros self i.
  - by destruct i.
  - cbn [run]. destruct (handle x self) as [out self'] eqn:E.
    destruct i as [|i]; cbn.
    + by rewrite E.
    + rewrite IH. unfold exec. cbn. by rewrite E.
Qed.

Lemma exec_app l1 l2 self : exec (l1 ++ l2) self = exec l2 (exec l1 self).
Proof. unfold exec. apply foldl_app. Qed.

Lemma handle_mono i self :
  (last_key_time self <= last_key_time (snd (handle i self)))%Q
  /\ (last_click_time self <= last_click_time (snd (handle i self)))%Q.
Proof.
  destruct i as [now | pressed now]; cbn [handle].
  - unfold on_press.
    destruct (Qltb _ _) eqn:E; cbn; [| split; lra].
    apply Qltb_true in E. unfold keyboard_throttle in E. split; lra.
  - unfold on_click. destruct pressed; [| cbn; split; lra].
    destruct (Qltb _ _) eqn:E; cbn; [| split; lra].
    apply Qltb_true in E. unfold mouse_throttle in E. split; lra.
Qed.

Lemma exec_mono inputs self :
  (last_key_time self <= last_key_time (exec inputs self))%Q
  /\ (last_click_time self <= last_click_time (exec inputs self))%Q.
Proof.
  revert self. induction inputs as [|i inputs IH]; intros self.
  - cbn. split; lra.
  - change (exec (i :: inputs) self) with (exec inputs (snd (handle i self))).
    destruct (IH (snd (handle i self))), (handle_mono i self). split; lra.
Qed.

(** The state before input [j] comes from the state after an earlier
    input [i] by the inputs in between. *)
Lemma exec_take_later (inputs : list Input) self i j x :
  (i < j)%nat -> inputs !! i = Some x ->
  exists between,
    exec (take j inputs) self
    = exec between (snd (handle x (exec (take i inputs) self))).
Proof.
  intros Hij Hx.
  exists (take (j - S i) (drop (S i) inputs)).
  replace j with (S i + (j - S i))%nat at 1 by lia.
  rewrite <- take_take_drop, exec_app.
  rewrite (take_S_r _ _ _ Hx), exec_app. reflexivity.
Qed.

Lemma on_press_emits now self e :
  fst (on_press now self) = Some e ->
  (keyboard_throttle < now - last_key_time self)%Q
  /\ last_key_time (snd (on_press now self)) = now.
Proof.
  unfold on_press. destruct (Qltb _ _) eqn:E; [| discriminate].
  intros _. by apply Qltb_true in E.
Qed.

Lemma on_click_emits now self e :
  fst (on_click true now self) = Some e ->
  (mouse_throttle < now - last_click_time self)%Q
  /\ last_click_time (snd (on_click true now self)) = now.
Proof.
  unfold on_click. destruct (Qltb _ _) eqn:E; [| discriminate].
  intros _. by apply Qltb_true in E.
Qed.

Lemma throttle_gap (ti tj throttle last : Q) :
  (tj - ti < throttle)%Q -> (throttle < tj - last)%Q -> (ti <= last)%Q ->
  False.
Proof. intros. lra. Qed.

Lemma key_forwarded_then_blocked inputs self i j ti tj :
  (i < j)%nat ->
  inputs !! i = Some (KeyPress ti) -> inputs !! j = Some (KeyPress tj) ->
  (tj - ti < keyboard_throttle)%Q ->
  forwarded inputs self i -> ~ forwarded inputs self j.
Proof.
  intros Hij Hi Hj Hclose [ei Hfi] [ej Hfj].
  rewrite run_lookup, Hi in Hfi. rewrite run_lookup, Hj in Hfj.
  destruct (exec_take_later inputs self i j _ Hij Hi) as [between Hb].
  rewrite Hb in Hfj. clear Hb.
  injection Hfi as Hfi. injection Hfj as Hfj.
  change (handle (KeyPress ?t) ?s) with (on_press t s) in *.
  apply on_press_emits in Hfi as [_ Hlast].
  apply on_press_emits in Hfj as [Hfar _].
  pose proof (proj1 (exec_mono between
    (snd (on_press ti (exec (take i inputs) self))))) as Hmono.
  rewrite Hlast in Hmono.
  exact (throttle_gap _ _ _ _ Hclose Hfar Hmono).
Qed.

Lemma click_forwarded_then_blocked inputs self i j ti tj :
  (i < j)%nat ->
  inputs !! i = Some (Click true ti) -> inputs !! j = Some (Click true tj) ->
  (tj - ti < mouse_throttle)%Q ->
  forwarded inputs self i -> ~ forwarded inputs self j.
Proof.
  intros Hij Hi Hj Hclose [ei Hfi] [ej Hfj].
  rewrite run_lookup, Hi in Hfi. rewrite run_lookup, Hj in Hfj.
  destruct (exec_take_later inputs self i j _ Hij Hi) as [between Hb].
  rewrite Hb in Hfj. clear Hb.
  injection Hfi as Hfi. injection Hfj as Hfj.
  change (handle (Click ?p ?t) ?s) with (on_click p t s) in *.
  apply on_click_emits in Hfi as [_ Hlast].
  apply on_click_emits in Hfj as [Hfar _].
  pose proof (proj2 (exec_mono between
    (snd (on_click true ti (exec (take i inputs) self))))) as Hmono.
  rewrite Hlast in Hmono.
  exact (throttle_gap _ _ _ _ Hclose Hfar Hmono).
Qed.

(** Releases are never forwarded. *)
Lemma release_not_forwarded inputs self i now :
  inputs !! i = Some (Click false now) -> ~ forwarded inputs self i.
Proof.
  intros Hi [e He]. rewrite run_lookup, Hi in He. discriminate.
Qed.

(** The key presses that get through are those of the stream without
    its clicks, and conversely. *)
Lemma emitted_keyboard inputs s1 s2 :
  last_key_time s1 = last_key_time s2 ->
  emitted "keyboard" inputs s1
  = omap id (run (List.filter is_key inputs) s2).
Proof.
  unfold emitted. revert s1 s2.
  induction inputs as [|x inputs IH]; intros s1 s2 Hs; [reflexivity |].
  destruct x as [now | pressed now]; cbn [List.filter is_key run handle].
  - unfold on_press. rewrite Hs.
    destruct (Qltb _ _); cbn; f_equal; by apply IH.
  - unfold on_click. destruct pressed; [destruct (Qltb _ _) |]; cbn;
      by apply IH.
Qed.

Lemma emitted_mouse inputs s1 s2 :
  last_click_time s1 = last_click_time s2 ->
  emitted "mouse" inputs s1
  = omap id (run (List.filter (fun i => negb (is_key i)) inputs) s2).
Proof.
  unfold emitted. revert s1 s2.
  induction inputs as [|x inputs IH]; intros s1 s2 Hs; [reflexivity |].
  destruct x as [now | pressed now];
    cbn [List.filter is_key negb run handle].
  - unfold on_press. destruct (Qltb _ _); cbn; by apply IH.
  - unfold on_click. rewrite Hs.
    destruct pressed; [destruct (Qltb _ _) |]; cbn; f_equal; by apply IH.
Qed.
End Throttle.

(* ===================================================================== *)
(** ** DatabaseManager: the write buffer *)
(* ===================================================================== *)

Section WriteBuffer.
Import DatabaseManager.

(** Up to ten pending events the call only appends. *)
Lemma record_event_buffers ty ts self :
  (length (batch_events self ++ [(ty, ts)]) <= 10)%nat ->
  record_event ty ts self
  = (Returns tt, set_batch_events (batch_events self ++ [(ty, ts)]) self).
Proof.
  intros Hlen. unfold record_event. unfold_monad.
  cbn [batch_events set_batch_events].
  apply Nat.ltb_ge in Hlen. by rewrite Hlen.
Qed.
End WriteBuffer.

(* ===================================================================== *)
(** ** EventService: the rate limit and the query boundary *)
(* ===================================================================== *)

Section RateLimit.
Import Store EventService.
Variable utc_offset : Z -> Z.

(** Within the minute the call changes nothing. *)
Lemma calculate_aggregates_skips now self :
  (now - _last_aggregate_time self < 60)%Q ->
  calculate_aggregates utc_offset now self = (Returns tt, self).
Proof.
  intros Hclose. apply Qltb_true in Hclose.
  unfold calculate_aggregates. unfold_monad. by rewrite Hclose.
Qed.

Lemma on_conn_last {A} (m : M Database A) self :
  _last_aggregate_time (snd (on_conn m self)) = _last_aggregate_time self.
Proof.
  unfold on_conn, zoom.
  by destruct (m (DatabaseManager.conn (db self))).
Qed.

(** A call that runs records its own time. *)
Lemma calculate_aggregates_stamps now self :
  (60 <= now - _last_aggregate_time self)%Q ->
  _last_aggregate_time (snd (calculate_aggregates utc_offset now self))
  = now.
Proof.
  intros Hfar. apply Qltb_false in Hfar.
  unfold calculate_aggregates.
  unfold mbind, M_bind, bind at 1. unfold gets at 1. rewrite Hfar.
  unfold bind at 1. unfold modify at 1.
  unfold bind at 1. unfold gets at 1.
  cbn [db set_last_aggregate_time].
  destruct (DatabaseManager.worker (db self)) as [q|] eqn:Ew.
  - unfold zoom, DatabaseManager.queue_put. cbn [db set_last_aggregate_time].
    by rewrite Ew.
  - unfold try_except at 1. unfold _do_calculate_aggregates.
    unfold try_except at 1.
    pose proof (on_conn_last
      (aggregate_statements utc_offset (Qfloor now))
      (set_last_aggregate_time now self)) as Hl.
    destruct (on_conn _ _) as [[[]|e] s']; exact Hl.
Qed.
End RateLimit.

Section QueryBoundary.
Import Store EventService.

(** [get_counts_since] has no handler: what the store raises reaches
    the caller. *)
Lemma get_counts_since_fault now t self e :
  fault (database_of self) = Some e ->
  cached_counts now t self = None ->
  get_counts_since now t self = (Raises e, self).
Proof.
  intros Hf Hmiss. unfold get_counts_since.
  unfold mbind, M_bind, bind at 1. unfold gets at 1. rewrite Hmiss.
  unfold bind at 1.
  assert (Hq : (if Qltb (now - t) 2 then counts_recent t
                else counts_historical t) self = (Raises e, self)).
  { destruct (Qltb _ _); unfold counts_recent, counts_historical;
      unfold mbind, M_bind, bind at 1;
      by rewrite (on_conn_cursor_fault _ _ Hf). }
  by rewrite Hq.
Qed.

Lemma get_aggregated_data_fault time_range limit self e :
  fault (database_of self) = Some e ->
  get_aggregated_data time_range limit self = (Returns [], self).
Proof.
  intros Hf. unfold get_aggregated_data, try_except.
  unfold mbind, M_bind, bind at 1.
  by rewrite (on_conn_cursor_fault _ _ Hf).
Qed.

Lemma get_today_aggregated_data_fault today time_range limit self e :
  fault (database_of self) = Some e ->
  get_today_aggregated_data today time_range limit self = (Returns [], self).
Proof.
  intros Hf. unfold get_today_aggregated_data, try_except.
  unfold mbind, M_bind, bind at 1.
  by rewrite (on_conn_cursor_fault _ _ Hf).
Qed.

(** Granularities other than the two minute ones get the empty list
    and no statement is executed. *)
Lemma get_today_unsupported today time_range limit self :
  time_range <> "15min" -> time_range <> "30min" ->
  get_today_aggregated_data today time_range limit self = (Returns [], self).
Proof.
  intros H15 H30.
  destruct (fault (database_of self)) as [e|] eqn:Hf;
    [by apply (get_today_aggregated_data_fault _ _ _ _ e) |].
  unfold get_today_aggregated_data, try_except.
  unfold mbind, M_bind, bind at 1.
  rewrite (on_conn_cursor_ok _ Hf).
  apply String.eqb_neq in H15, H30. by rewrite H15, H30.
Qed.
End QueryBoundary.

(* ===================================================================== *)
(** ** The properties of the specification *)
(* ===================================================================== *)

(** C1, as stated, fails: a call answered from the cache returns the
    counts of an earlier call. On an empty store [get_counts_since(99.5)]
    at time 100.0 caches zero counts; a key press stamped 100 is then
    inserted; the same call at time 100.1 is served from the 0.2 s cache
    and still reports no key press, although one raw event has
    [timestamp >= 99.5]. *)
Lemma get_counts_since_stale_cache :
  ~ (forall now t self,
       Store.fault (database_of self) = None ->
       fst (EventService.get_counts_since now t self)
       = Returns (Spec.counts_since t (raw_of self))).
Proof.
  intros H.
  specialize (H (1001 # 10)%Q (995 # 10)%Q Examples.polled_then_insert
                eq_refl).
  assert (Hk : forall c : gmap string Z,
             Returns c = Returns (Spec.counts_since (995 # 10)
                                    (raw_of Examples.polled_then_insert)) ->
             c !! "keyboard" = Some 1).
  { intros c [= ->]. reflexivity. }
  specialize (Hk _ H). vm_compute in Hk. discriminate.
Qed.

(** C1 (amended): on a store that answers, a call of
    [get_counts_since(t)] that its cache does not answer returns, for
    'keyboard' and for 'mouse', the number of raw events of that type with
    [timestamp >= t]; the grouped-count query and the conditional-sum
    query give that same result on the same table; a call that the cache
    answers returns the stored counts of the earlier call and reads
    nothing. *)
Theorem get_counts_since_exact_unless_cached now t self :
  Store.fault (database_of self) = None ->
  (EventService.cached_counts now t self = None ->
   fst (EventService.get_counts_since now t self)
   = Returns (Spec.counts_since t (raw_of self)))
  /\ fst (EventService.counts_recent t self)
     = Returns (Spec.counts_since t (raw_of self))
  /\ fst (EventService.counts_historical t self)
     = fst (EventService.counts_recent t self)
  /\ (forall cached,
        EventService.cached_counts now t self = Some cached ->
        EventService.get_counts_since now t self = (Returns cached, self)).
Proof.
  intros Hf.
  destruct (counts_recent_ok t self Hf) as [s1 E1].
  destruct (counts_historical_ok t self Hf) as [s2 E2].
  split; [by apply get_counts_since_miss |].
  split; [by rewrite E1 |].
  split; [by rewrite E1, E2 |].
  intros cached. apply get_counts_since_hit.
Qed.

Lemma get_counts_since_exact_unless_cached_witness :
  Store.fault (database_of Examples.scenario) = None
  /\ EventService.cached_counts 200 100 Examples.scenario = None
  /\ fst (EventService.get_counts_since 200 100 Examples.scenario)
     = Returns {[ "keyboard" := 3; "mouse" := 1 ]}.
Proof.
  split; [reflexivity |]. split; [reflexivity |].
  exact (proj1 (get_counts_since_exact_unless_cached
                  200 100 Examples.scenario eq_refl) eq_refl).
Defined.

(** C2: for a fixed [raw_events] table and a fixed current time, running
    the aggregation twice in succession leaves [aggregated_stats] with
    exactly the rows that running it once leaves. *)
Theorem aggregation_idempotent utc_offset now self :
  stats_of
    (snd (EventService._do_calculate_aggregates utc_offset now
            (snd (EventService._do_calculate_aggregates utc_offset now self))))
  = stats_of (snd (EventService._do_calculate_aggregates utc_offset now self)).
Proof.
  destruct (run_frame utc_offset now self) as [Hr Hf].
  rewrite (run_stats utc_offset now (snd _)), Hf, Hr.
  rewrite run_stats.
  destruct (Store.fault (database_of self)); [reflexivity |].
  apply map_eq. intros k.
  rewrite !lookup_union, !lookup_delete_like, lookup_union.
  rewrite lookup_delete_like.
  destruct (recomputed utc_offset now (raw_of self) !! k);
    destruct (Sql.like _ k); by destruct (stats_of self !! k).
Qed.

(** C3: the 15-minute bucket and the 30-minute bucket that start on the
    same half hour share one key, so the later upsert replaces the
    15-minute row. With key presses at 22:05 and 22:20 the row
    ['2023-11-14 22:00'] ends with [keyboard_count = 2], although one key
    press falls in the quarter hour from 22:00. *)
Theorem quarter_hour_row_replaced_by_half_hour :
  EventService.period_15min Examples.utc 1699999500 = "2023-11-14 22:00"
  /\ EventService.period_15min Examples.utc 1700000400 = "2023-11-14 22:15"
  /\ EventService.period_30min Examples.utc 1699999500 = "2023-11-14 22:00"
  /\ EventService.period_30min Examples.utc 1700000400 = "2023-11-14 22:00"
  /\ stats_of
       (snd (EventService._do_calculate_aggregates Examples.utc 1700001000
               Examples.two_quarters))
     !! "2023-11-14 22:00"
     = Some (Examples.row 2 0 2).
Proof. repeat split; vm_compute; reflexivity. Qed.

(** C4, as stated, fails: a 15-minute bucket whose period lies outside
    every minute-level horizon is deleted. The key press of 2023-11-04
    22:18:20 is more than seven days before the run of 2023-11-14
    22:30:00; its bucket ['2023-11-04 22:15'] is in the table before the
    run and gone after it. *)
Lemma old_minute_bucket_deleted :
  EventService.period_15min Examples.utc 1699136300 = "2023-11-04 22:15"
  /\ 1699136300 < EventService.days_ago 1700001000 7
  /\ stats_of Examples.aged !! "2023-11-04 22:15" = Some (Examples.row 1 0 1)
  /\ stats_of
       (snd (EventService._do_calculate_aggregates Examples.utc 1700001000
               Examples.aged))
     !! "2023-11-04 22:15" = None.
Proof. repeat split; vm_compute; reflexivity. Qed.

(** C4 (amended): a run on a store that answers deletes exactly the rows
    whose [time_period] matches ['%-%-% %:%'], which are all 15-minute
    and 30-minute buckets whatever their age and no daily, weekly or
    monthly bucket; over the rows that remain it lays, per granularity,
    the buckets of the raw events inside that granularity's horizon (2, 7,
    30, 365 and 365 days). A run on a store that raises changes no row. *)
Theorem aggregation_deletes_minute_rows utc_offset now self :
  stats_of (snd (EventService._do_calculate_aggregates utc_offset now self))
  = match Store.fault (database_of self) with
    | Some _ => stats_of self
    | None =>
        recomputed utc_offset now (raw_of self)
        ∪ Store.delete_like "%-%-% %:%" (stats_of self)
    end
  /\ (forall k,
        Store.delete_like "%-%-% %:%" (stats_of self) !! k
        = if Sql.like "%-%-% %:%" k then None else stats_of self !! k)
  /\ (forall ts,
        Sql.like "%-%-% %:%" (EventService.period_15min utc_offset ts) = true
        /\ Sql.like "%-%-% %:%" (EventService.period_30min utc_offset ts)
           = true
        /\ Sql.like "%-%-% %:%" (EventService.period_day utc_offset ts)
           = false
        /\ Sql.like "%-%-% %:%" (EventService.period_week utc_offset ts)
           = false
        /\ Sql.like "%-%-% %:%" (EventService.period_month utc_offset ts)
           = false).
Proof.
  split; [apply run_stats |].
  split; [intros k; apply lookup_delete_like |].
  intros ts. unfold EventService.period_15min, EventService.period_30min,
    EventService.period_day, EventService.period_week,
    EventService.period_month.
  split; [apply fmt_hour_minute |]. split; [apply fmt_hour_minute |].
  split; [apply no_space_not_minute, fmt_day_plain |].
  split; [apply no_space_not_minute, fmt_week_plain |].
  apply no_space_not_minute, fmt_month_plain.
Qed.

(** C5: when the raw events satisfy the CHECK constraint of their table,
    a run keeps [score = keyboard_count*1 + mouse_count*5] on every row
    of [aggregated_stats]; [calculate_score] returns
    [keyboard*1 + mouse*5] under the default weights in every state the
    calculator can reach, whether or not it answers from its memo; and
    the buckets of three key presses and one click have score 8. *)
Theorem score_is_weighted_sum :
  (forall utc_offset now self,
     Forall Store.check_event_type (raw_of self) ->
     map_Forall (fun _ => Spec.weighted) (stats_of self) ->
     map_Forall (fun _ => Spec.weighted)
       (stats_of
          (snd (EventService._do_calculate_aggregates utc_offset now self))))
  /\ (forall counts self,
        ScoreCalculator.reachable self ->
        ScoreCalculator._keyboard_weight self = 1 ->
        ScoreCalculator._mouse_weight self = 5 ->
        fst (fst (ScoreCalculator.calculate_score counts self))
        = default 0 (counts !! "keyboard") * 1
          + default 0 (counts !! "mouse") * 5)
  /\ stats_of
       (snd (EventService._do_calculate_aggregates Examples.utc 200
               Examples.scenario))
     !! "1970-01-01 00:00"
     = Some (Examples.row 3 1 8).
Proof.
  split; [apply run_weighted |].
  split; [| vm_compute; reflexivity].
  intros counts self Hreach Hk Hm.
  rewrite calculate_score_value by by apply reachable_memo_ok.
  by rewrite Hk, Hm.
Qed.

Lemma score_is_weighted_sum_witness :
  Forall Store.check_event_type (raw_of Examples.scenario)
  /\ map_Forall (fun _ => Spec.weighted) (stats_of Examples.scenario)
  /\ map_Forall (fun _ => Spec.weighted)
       (stats_of
          (snd (EventService._do_calculate_aggregates Examples.utc 200
                  Examples.scenario)))
  /\ ScoreCalculator.reachable
       (snd (ScoreCalculator.calculate_score {[ "keyboard" := 3; "mouse" := 1 ]}
               ScoreCalculator.__init__))
  /\ fst (fst (ScoreCalculator.calculate_score
                 {[ "keyboard" := 3; "mouse" := 1 ]}
                 (snd (ScoreCalculator.calculate_score
                         {[ "keyboard" := 3; "mouse" := 1 ]}
                         ScoreCalculator.__init__))))
     = 8.
Proof.
  assert (Hraw : Forall Store.check_event_type (raw_of Examples.scenario)).
  { unfold raw_of, database_of. cbn.
    repeat (constructor; [unfold Store.check_event_type; cbn; auto |]).
    constructor. }
  assert (Hold : map_Forall (fun _ => Spec.weighted)
                   (stats_of Examples.scenario))
    by apply map_Forall_empty.
  assert (Hreach : ScoreCalculator.reachable
            (snd (ScoreCalculator.calculate_score
                    {[ "keyboard" := 3; "mouse" := 1 ]}
                    ScoreCalculator.__init__)))
    by (apply ScoreCalculator.reach_calculate, ScoreCalculator.reach_init).
  split; [exact Hraw |]. split; [exact Hold |].
  split; [exact (proj1 score_is_weighted_sum Examples.utc 200
                   Examples.scenario Hraw Hold) |].
  split; [exact Hreach |].
  exact (proj1 (proj2 score_is_weighted_sum)
           {[ "keyboard" := 3; "mouse" := 1 ]} _ Hreach eq_refl eq_refl).
Defined.

(** C6: of two inputs of the same type (key presses, or mouse presses)
    whose clock readings differ by less than that type's throttle
    interval of 0.05 s, at most one is forwarded to [record_event]; and
    the key presses that are forwarded do not depend on the clicks in
    the stream, nor the forwarded clicks on the key presses. *)
Theorem throttle_forwards_at_most_one inputs self :
  (forall i j ti tj,
     i <> j ->
     (inputs !! i = Some (EventListener.KeyPress ti)
      /\ inputs !! j = Some (EventListener.KeyPress tj)
      /\ (Qabs (tj - ti) < EventListener.keyboard_throttle)%Q)
     \/ (inputs !! i = Some (EventListener.Click true ti)
         /\ inputs !! j = Some (EventListener.Click true tj)
         /\ (Qabs (tj - ti) < EventListener.mouse_throttle)%Q) ->
     ~ (EventListener.forwarded inputs self i
        /\ EventListener.forwarded inputs self j))
  /\ EventListener.emitted "keyboard" inputs self
     = omap id (EventListener.run
                  (List.filter EventListener.is_key inputs) self)
  /\ EventListener.emitted "mouse" inputs self
     = omap id (EventListener.run
                  (List.filter (fun i => negb (EventListener.is_key i)) inputs)
                  self).
Proof.
  split; [| split; [by apply emitted_keyboard | by apply emitted_mouse]].
  intros i j ti tj Hne Hcase [Hfi Hfj].
  assert (Habs : forall x y : Q, (Qabs x < y)%Q -> (x < y)%Q /\ (- x < y)%Q).
  { intros x y Hx. apply Qabs_Qlt_condition in Hx. split; lra. }
  destruct (Nat.lt_total i j) as [Hij | [-> | Hji]]; [| done |].
  - destruct Hcase as [(Hi & Hj & Hc) | (Hi & Hj & Hc)];
      apply Habs in Hc as [Hc _].
    + by apply (key_forwarded_then_blocked inputs self i j ti tj).
    + by apply (click_forwarded_then_blocked inputs self i j ti tj).
  - destruct Hcase as [(Hi & Hj & Hc) | (Hi & Hj & Hc)];
      apply Habs in Hc as [_ Hc].
    + apply (key_forwarded_then_blocked inputs self j i tj ti); try done.
      lra.
    + apply (click_forwarded_then_blocked inputs self j i tj ti); try done.
      lra.
Qed.

Lemma throttle_forwards_at_most_one_witness :
  0%nat <> 2%nat
  /\ Examples.burst !! 0%nat = Some (EventListener.KeyPress 100)
  /\ Examples.burst !! 2%nat = Some (EventListener.KeyPress (10002 # 100))
  /\ (Qabs ((10002 # 100) - 100) < EventListener.keyboard_throttle)%Q
  /\ ~ (EventListener.forwarded Examples.burst EventListener.__init__ 0
        /\ EventListener.forwarded Examples.burst EventListener.__init__ 2).
Proof.
  assert (Hc : (Qabs ((10002 # 100) - 100)
                < EventListener.keyboard_throttle)%Q) by reflexivity.
  split; [lia |]. split; [reflexivity |]. split; [reflexivity |].
  split; [exact Hc |].
  exact (proj1 (throttle_forwards_at_most_one Examples.burst
                  EventListener.__init__)
           0%nat 2%nat 100%Q (10002 # 100)%Q ltac:(lia)
           (or_introl (conj eq_refl (conj eq_refl Hc)))).
Defined.

(** C7: a [record_event] call that makes the pending buffer exceed 10
    items flushes in that same call, with no timer involved: the pending
    list is left empty and the whole batch, the new event included, is put
    at the end of the worker's queue as one batch insert. *)
Theorem record_event_flushes_past_ten ty ts self q :
  DatabaseManager.worker self = Some q ->
  (10 < length (DatabaseManager.batch_events self ++ [(ty, ts)]))%nat ->
  DatabaseManager.record_event ty ts self
  = (Returns tt,
     {| DatabaseManager.conn := DatabaseManager.conn self;
        DatabaseManager.worker :=
          Some (q ++ [DatabaseManager.BatchInsert
                        (DatabaseManager.batch_events self ++ [(ty, ts)])]);
        DatabaseManager.batch_events := [] |}).
Proof.
  intros Hw Hlen.
  unfold DatabaseManager.record_event, DatabaseManager._flush_batch_events,
    DatabaseManager.queue_put.
  unfold_monad.
  cbn [DatabaseManager.batch_events DatabaseManager.set_batch_events
       DatabaseManager.worker DatabaseManager.conn].
  apply Nat.ltb_lt in Hlen. rewrite Hlen.
  destruct (DatabaseManager.batch_events self ++ [(ty, ts)]) as [|e l] eqn:E.
  - by destruct (DatabaseManager.batch_events self).
  - cbn. by rewrite Hw.
Qed.

Lemma record_event_flushes_past_ten_witness :
  DatabaseManager.worker Examples.ten_pending = Some []
  /\ (10 < length (DatabaseManager.batch_events Examples.ten_pending
                   ++ [("keyboard", 10%Z)]))%nat
  /\ DatabaseManager.batch_events
       (snd (DatabaseManager.record_event "keyboard" 10 Examples.ten_pending))
     = []
  /\ DatabaseManager.worker
       (snd (DatabaseManager.record_event "keyboard" 10 Examples.ten_pending))
     = Some [DatabaseManager.BatchInsert
               (map (fun n => ("keyboard", Z.of_nat n)) (seq 0 11))].
Proof.
  assert (Hlen : (10 < length (DatabaseManager.batch_events Examples.ten_pending
                               ++ [("keyboard", 10%Z)]))%nat)
    by (vm_compute; lia).
  split; [reflexivity |]. split; [exact Hlen |].
  rewrite (record_event_flushes_past_ten "keyboard" 10 Examples.ten_pending []
             eq_refl Hlen).
  split; reflexivity.
Defined.

(** C8: a call of [calculate_aggregates] less than 60 seconds after the
    previous call that was not skipped is a no-op: it returns at once,
    and the queue of the worker, [aggregated_stats] and the recorded time
    of the last aggregation are what they were. *)
Theorem calculate_aggregates_rate_limited utc_offset first second self :
  (60 <= first - EventService._last_aggregate_time self)%Q ->
  (second - first < 60)%Q ->
  let ran := snd (EventService.calculate_aggregates utc_offset first self) in
  EventService._last_aggregate_time ran = first
  /\ EventService.calculate_aggregates utc_offset second ran
     = (Returns tt, ran).
Proof.
  intros Hfar Hclose ran.
  assert (Hlast : EventService._last_aggregate_time ran = first)
    by by apply calculate_aggregates_stamps.
  split; [exact Hlast |].
  apply calculate_aggregates_skips. by rewrite Hlast.
Qed.

Lemma calculate_aggregates_rate_limited_witness :
  (60 <= 1000 - EventService._last_aggregate_time Examples.scenario)%Q
  /\ (1059 - 1000 < 60)%Q
  /\ EventService.calculate_aggregates Examples.utc 1059
       (snd (EventService.calculate_aggregates Examples.utc 1000
               Examples.scenario))
     = (Returns tt,
        snd (EventService.calculate_aggregates Examples.utc 1000
               Examples.scenario)).
Proof.
  assert (H1 : (60 <= 1000 - EventService._last_aggregate_time
                               Examples.scenario)%Q)
    by (vm_compute; discriminate).
  assert (H2 : (1059 - 1000 < 60)%Q) by reflexivity.
  split; [exact H1 |]. split; [exact H2 |].
  exact (proj2 (calculate_aggregates_rate_limited Examples.utc 1000 1059
                  Examples.scenario H1 H2)).
Defined.

(** C9: on a store that raises, [get_aggregated_data] and
    [get_today_aggregated_data] return the empty list, but
    [get_counts_since] has no handler and the error reaches its
    caller. *)
Theorem get_counts_since_propagates_storage_error :
  EventService.get_counts_since 100 50 Examples.locked
  = (Raises "database is locked", Examples.locked)
  /\ EventService.get_aggregated_data "day" 30 Examples.locked
     = (Returns [], Examples.locked)
  /\ EventService.get_today_aggregated_data "2023-11-14" "15min" 96
       Examples.locked
     = (Returns [], Examples.locked).
Proof.
  split; [by apply get_counts_since_fault |].
  split; [by apply (get_aggregated_data_fault _ _ _ "database is locked") |].
  by apply (get_today_aggregated_data_fault _ _ _ _ "database is locked").
Qed.

(** C10: for every [time_range] other than '15min' and '30min',
    [get_today_aggregated_data] returns the empty list whatever the
    aggregate table holds, and executes no statement. *)
Theorem get_today_aggregated_data_unsupported today time_range limit self :
  time_range <> "15min" -> time_range <> "30min" ->
  fst (EventService.get_today_aggregated_data today time_range limit self)
  = Returns []
  /\ Store.journal
       (database_of
          (snd (EventService.get_today_aggregated_data today time_range limit
                  self)))
     = Store.journal (database_of self)
  /\ snd (EventService.get_today_aggregated_data today time_range limit self)
     = self.
Proof.
  intros H15 H30. by rewrite get_today_unsupported.
Qed.

Lemma get_today_aggregated_data_unsupported_witness :
  "day" <> "15min" /\ "day" <> "30min"
  /\ fst (EventService.get_today_aggregated_data "1970-01-01" "day" 96
            (snd (EventService._do_calculate_aggregates Examples.utc 200
                    Examples.scenario)))
     = Returns [].
Proof.
  assert (H15 : "day" <> "15min") by discriminate.
  assert (H30 : "day" <> "30min") by discriminate.
  split; [exact H15 |]. split; [exact H30 |].
  exact (proj1 (get_today_aggregated_data_unsupported "1970-01-01" "day" 96
                  _ H15 H30)).
Defined.

(* ===================================================================== *)
(** ** Further properties: the write buffer and the worker *)
(* ===================================================================== *)

Section Ledger.
Import Store DatabaseManager DatabaseWorker.
Variable utc_offset : Z -> Z.

(** The state that a flushing call leaves. *)
Lemma record_event_flush_state ty ts m q :
  worker m = Some q ->
  (10 < length (batch_events m ++ [(ty, ts)]))%nat ->
  record_event ty ts m
  = (Returns tt,
     {| conn := conn m;
        worker := Some (q ++ [BatchInsert (batch_events m ++ [(ty, ts)])]);
        batch_events := [] |}).
Proof.
  intros Hw Hlen. unfold record_event, _flush_batch_events, queue_put.
  unfold_monad. cbn [batch_events set_batch_events worker conn].
  apply Nat.ltb_lt in Hlen. rewrite Hlen.
  destruct (batch_events m ++ [(ty, ts)]) as [|e l] eqn:E.
  - by destruct (batch_events m).
  - cbn. by rewrite Hw.
Qed.

Lemma pending_queue q b c :
  pending {| conn := c; worker := Some q; batch_events := b |}
  = concat (map batch_of q) ++ b.
Proof. reflexivity. Qed.

(** A recorded event joins the end of what is pending; the store is not
    touched. *)
Lemma record_event_pending ty ts m q :
  worker m = Some q ->
  fst (record_event ty ts m) = Returns tt
  /\ conn (snd (record_event ty ts m)) = conn m
  /\ is_Some (worker (snd (record_event ty ts m)))
  /\ pending (snd (record_event ty ts m)) = pending m ++ [(ty, ts)].
Proof.
  intros Hw.
  destruct (Nat.lt_ge_cases 10 (length (batch_events m ++ [(ty, ts)])))
    as [Hlen | Hlen].
  - rewrite (record_event_flush_state _ _ _ _ Hw Hlen). cbn [fst snd conn].
    repeat split; [by eexists |].
    rewrite pending_queue. unfold pending. rewrite Hw. cbn [default].
    rewrite map_app, concat_app. cbn. by rewrite !app_nil_r, app_assoc.
  - rewrite (record_event_buffers _ _ _ Hlen). cbn [fst snd].
    destruct m as [c w b]. cbn in *. subst w.
    repeat split; [by eexists |].
    unfold pending. cbn. by rewrite app_assoc.
Qed.

(** A flush moves the pending list to the queue and keeps the order. *)
Lemma flush_pending m q :
  worker m = Some q ->
  fst (_flush_batch_events m) = Returns tt
  /\ conn (snd (_flush_batch_events m)) = conn m
  /\ batch_events (snd (_flush_batch_events m)) = []
  /\ is_Some (worker (snd (_flush_batch_events m)))
  /\ pending (snd (_flush_batch_events m)) = pending m.
Proof.
  intros Hw. unfold _flush_batch_events, queue_put. unfold_monad.
  destruct m as [c w b]. cbn in *. subst w.
  destruct b as [|e b]; cbn.
  - repeat split; by eexists.
  - repeat split; [by eexists |].
    unfold pending. cbn.
    rewrite map_app, concat_app. cbn. by rewrite !app_nil_r.
Qed.

Lemma accepted_all events :
  forallb check_ok events = true -> accepted events = events.
Proof.
  induction events as [|e events IH]; [done |].
  cbn. intros [He Hrest]%andb_true_iff. rewrite He. by rewrite IH.
Qed.

(** A batch of well-typed events on a store that answers is appended to
    [raw_events] in order. *)
Lemma batch_insert_ok events m :
  fault (conn m) = None ->
  forallb check_ok events = true ->
  exists d,
    _do_batch_insert events m = (Returns tt, set_conn d m)
    /\ raw_events d = raw_events (conn m) ++ map row_of events
    /\ aggregated_stats d = aggregated_stats (conn m)
    /\ fault d = None.
Proof.
  intros Hf Hok. unfold _do_batch_insert, zoom.
  unfold mbind, M_bind, bind at 1. unfold cursor. rewrite Hf.
  unfold bind at 1. rewrite execute_update_ok by done.
  rewrite Hok. unfold bind at 1. unfold ret at 1.
  rewrite execute_update_ok by (by destruct (conn m)).
  eexists. split; [reflexivity |].
  rewrite (accepted_all _ Hok). by destruct (conn m).
Qed.

Lemma batch_insert_fault events m e :
  fault (conn m) = Some e -> _do_batch_insert events m = (Raises e, m).
Proof.
  intros Hf. unfold _do_batch_insert, zoom.
  unfold mbind, M_bind, bind at 1. unfold cursor. rewrite Hf.
  by destruct m.
Qed.

(** The aggregation task never raises and changes the connection only. *)
Lemma do_calculate_aggregates_frame now self :
  exists d,
    EventService._do_calculate_aggregates utc_offset now self
    = (Returns tt,
       EventService.set_db (set_conn d (EventService.db self)) self)
    /\ raw_events d = raw_of self
    /\ fault d = fault (database_of self).
Proof.
  unfold EventService._do_calculate_aggregates, EventService.on_conn,
    try_except, zoom, raw_of, database_of.
  destruct (fault (conn (EventService.db self))) as [e|] eqn:Hf.
  - rewrite (aggregate_statements_fault _ _ _ e Hf).
    eexists. split; [reflexivity |]. done.
  - destruct (aggregate_statements_ok utc_offset now _ Hf)
      as (d' & -> & Hf' & Hr & _).
    exists d'. by rewrite Hf', Hr.
Qed.

(** One pass of the worker on a store that answers: the oldest task
    leaves the queue and, if it is a batch of well-typed events, its
    events are appended to [raw_events]. *)
Lemma iteration_ok now self task rest :
  worker (EventService.db self) = Some (task :: rest) ->
  fault (database_of self) = None ->
  forallb check_ok (batch_of task) = true ->
  let self' := snd (iteration utc_offset now self) in
  fst (iteration utc_offset now self) = Returns tt
  /\ worker (EventService.db self') = Some rest
  /\ batch_events (EventService.db self')
     = batch_events (EventService.db self)
  /\ raw_of self' = raw_of self ++ map row_of (batch_of task)
  /\ fault (database_of self') = None.
Proof.
  intros Hw Hf Hok. unfold iteration. rewrite Hw.
  set (popped := EventService.set_db _ self).
  assert (Hfp : fault (database_of popped) = None) by exact Hf.
  destruct task as [events |]; cbn [call batch_of] in *.
  - destruct (batch_insert_ok events (EventService.db popped) Hfp Hok)
      as (d & E & Hr & _ & Hfd).
    unfold try_except, zoom. rewrite E. cbn.
    unfold raw_of, database_of. cbn. by rewrite Hr.
  - destruct (do_calculate_aggregates_frame now popped) as (d & E & Hr & Hfd).
    unfold try_except. rewrite E. cbn.
    unfold raw_of, database_of in *. cbn in *.
    rewrite Hr, app_nil_r, Hfd. by rewrite Hf.
Qed.

(** One pass on a store that raises: the task is gone from the queue and
    nothing was stored. *)
Lemma iteration_fault now self task rest e :
  worker (EventService.db self) = Some (task :: rest) ->
  fault (database_of self) = Some e ->
  let self' := snd (iteration utc_offset now self) in
  fst (iteration utc_offset now self) = Returns tt
  /\ worker (EventService.db self') = Some rest
  /\ batch_events (EventService.db self')
     = batch_events (EventService.db self)
  /\ database_of self' = database_of self.
Proof.
  intros Hw Hf. unfold iteration. rewrite Hw.
  set (popped := EventService.set_db _ self).
  assert (Hfp : fault (conn (EventService.db popped)) = Some e) by exact Hf.
  destruct task as [events |]; cbn [call].
  - unfold try_except, zoom.
    rewrite (batch_insert_fault events _ e Hfp). by cbn.
  - unfold EventService._do_calculate_aggregates, EventService.on_conn,
      try_except, zoom.
    rewrite (aggregate_statements_fault _ _ _ e Hfp). by cbn.
Qed.
End Ledger.

Section Drain.
Import Store DatabaseManager DatabaseWorker.
Variable utc_offset : Z -> Z.

Lemma record_event_queue ty ts m q :
  worker m = Some q -> batches_nonempty q ->
  exists q', worker (snd (record_event ty ts m)) = Some q'
             /\ batches_nonempty q'.
Proof.
  intros Hw Hq.
  destruct (Nat.lt_ge_cases 10 (length (batch_events m ++ [(ty, ts)])))
    as [Hlen | Hlen].
  - rewrite (record_event_flush_state _ _ _ _ Hw Hlen). cbn.
    eexists. split; [reflexivity |].
    apply Forall_app. split; [done |]. constructor; [| constructor].
    cbn. by destruct (batch_events m).
  - rewrite (record_event_buffers _ _ _ Hlen). cbn. eauto.
Qed.

Lemma flush_queue m q :
  worker m = Some q -> batches_nonempty q ->
  exists q', worker (snd (_flush_batch_events m)) = Some q'
             /\ batches_nonempty q'.
Proof.
  intros Hw Hq. unfold _flush_batch_events, queue_put. unfold_monad.
  destruct m as [c w b]. cbn in *. subst w.
  destruct b as [|e b]; cbn; [eauto |].
  eexists. split; [reflexivity |].
  apply Forall_app. split; [done |]. by repeat constructor.
Qed.

(** A stream of calls keeps the store untouched and appends its events,
    in order, to what is pending. *)
Lemma record_all_pending events m q :
  worker m = Some q -> batches_nonempty q ->
  exists q',
    worker (record_all events m) = Some q'
    /\ batches_nonempty q'
    /\ conn (record_all events m) = conn m
    /\ pending (record_all events m) = pending m ++ events.
Proof.
  revert m q. induction events as [|[ty ts] events IH]; intros m q Hw Hq.
  - exists q. cbn. by rewrite app_nil_r.
  - destruct (record_event_queue ty ts m q Hw Hq) as (q1 & Hw1 & Hq1).
    destruct (record_event_pending ty ts m q Hw) as (_ & Hc & _ & Hp).
    destruct (IH _ _ Hw1 Hq1) as (q' & Hw' & Hq' & Hc' & Hp').
    exists q'.
    change (record_all ((ty, ts) :: events) m)
      with (record_all events (snd (record_event ty ts m))).
    split; [exact Hw' |]. split; [exact Hq' |].
    split; [by rewrite Hc', Hc |].
    rewrite Hp', Hp. by rewrite <- app_assoc.
Qed.

Lemma iteration_idle now self :
  worker (EventService.db self) = Some [] ->
  iteration utc_offset now self = (Returns tt, self).
Proof. intros Hw. unfold iteration. by rewrite Hw. Qed.

(** Enough passes empty the queue and store the events of its batches
    in the order of submission. *)
Lemma run_drains nows self q :
  worker (EventService.db self) = Some q ->
  fault (database_of self) = None ->
  Forall (fun task => forallb check_ok (batch_of task) = true) q ->
  (length q <= length nows)%nat ->
  let self' := run utc_offset nows self in
  worker (EventService.db self') = Some []
  /\ batch_events (EventService.db self')
     = batch_events (EventService.db self)
  /\ raw_of self' = raw_of self ++ map row_of (concat (map batch_of q))
  /\ fault (database_of self') = None.
Proof.
  revert self q. induction nows as [|now nows IH]; intros self q Hw Hf Hq Hlen.
  - destruct q; [| cbn in Hlen; lia]. cbn. by rewrite app_nil_r.
  - cbn [run]. destruct q as [|task q].
    + rewrite (iteration_idle _ _ Hw). cbn [snd].
      apply (IH self [] Hw Hf); [done | cbn; lia].
    + apply Forall_cons in Hq as [Htask Hq].
      destruct (iteration_ok utc_offset now self task q Hw Hf Htask)
        as (_ & Hw' & Hb' & Hr' & Hf').
      destruct (IH _ q Hw' Hf' Hq ltac:(cbn in Hlen; lia))
        as (Hw2 & Hb2 & Hr2 & Hf2).
      split; [exact Hw2 |]. split; [by rewrite Hb2 |].
      split; [| exact Hf2].
      rewrite Hr2, Hr'. cbn [map concat]. by rewrite map_app, app_assoc.
Qed.

Lemma nonempty_batches_length q :
  batches_nonempty q -> (length q <= length (concat (map batch_of q)))%nat.
Proof.
  induction 1 as [|task q Htask _ IH]; [done |].
  cbn. rewrite length_app. destruct (batch_of task); [done |]. cbn. lia.
Qed.

Lemma forallb_concat {A} (P : A -> bool) (l : list (list A)) :
  forallb P (concat l) = true -> Forall (fun x => forallb P x = true) l.
Proof.
  induction l as [|x l IH]; [constructor |].
  cbn. rewrite forallb_app. intros [Hx Hl]%andb_true_iff.
  constructor; auto.
Qed.
End Drain.

(* ===================================================================== *)
(** ** Further properties of the code *)
(* ===================================================================== *)

Section BufferAndWorker.
Import Store DatabaseManager DatabaseWorker.

(** X1: events recorded through [record_event] on an idle manager, then
    flushed, are all in [raw_events] after the worker has made as many
    passes as there were events: none is lost, none is duplicated and
    their order is kept, provided the store answers and every event is a
    'keyboard' or 'mouse' event. *)
Theorem recorded_events_reach_the_store utc_offset self events nows :
  worker (EventService.db self) = Some [] ->
  batch_events (EventService.db self) = [] ->
  fault (database_of self) = None ->
  forallb check_ok events = true ->
  (length events <= length nows)%nat ->
  let flushed :=
    snd (_flush_batch_events (record_all events (EventService.db self))) in
  let self' := run utc_offset nows (EventService.set_db flushed self) in
  raw_of self' = raw_of self ++ map row_of events
  /\ pending (EventService.db self') = [].
Proof.
  intros Hw Hb Hf Hok Hlen flushed self'.
  destruct (record_all_pending events (EventService.db self) [] Hw)
    as (q1 & Hw1 & Hq1 & Hc1 & Hp1); [constructor |].
  destruct (flush_pending _ _ Hw1) as (_ & Hc2 & Hb2 & _ & Hp2).
  destruct (flush_queue _ _ Hw1 Hq1) as (q2 & Hw2 & Hq2).
  fold flushed in Hc2, Hb2, Hp2, Hw2.
  assert (Hpend : concat (map batch_of q2) = events).
  { unfold pending in Hp2 at 1. rewrite Hw2, Hb2, app_nil_r in Hp2.
    cbn [default from_option id] in Hp2. rewrite Hp2, Hp1.
    unfold pending. by rewrite Hw, Hb. }
  assert (Hfl : fault (database_of (EventService.set_db flushed self)) = None).
  { unfold database_of. cbn. rewrite Hc2, Hc1. exact Hf. }
  destruct (run_drains utc_offset nows (EventService.set_db flushed self) q2)
    as (Hw3 & Hb3 & Hr3 & _); [exact Hw2 | exact Hfl | | |].
  - apply (proj1 (List.Forall_map batch_of
                     (fun x => forallb check_ok x = true) q2)).
    apply forallb_concat. by rewrite Hpend.
  - pose proof (nonempty_batches_length q2 Hq2). rewrite Hpend in *. lia.
  - fold self' in Hw3, Hb3, Hr3. split.
    + rewrite Hr3, Hpend. unfold raw_of, database_of. cbn.
      by rewrite Hc2, Hc1.
    + unfold pending. rewrite Hw3, Hb3. cbn. exact Hb2.
Qed.

Lemma recorded_events_reach_the_store_witness :
  worker (EventService.db Cases.idle) = Some []
  /\ batch_events (EventService.db Cases.idle) = []
  /\ fault (database_of Cases.idle) = None
  /\ forallb check_ok Cases.twelve = true
  /\ (length Cases.twelve <= length Cases.passes)%nat
  /\ raw_of
       (run Examples.utc Cases.passes
          (EventService.set_db
             (snd (_flush_batch_events
                     (record_all Cases.twelve (EventService.db Cases.idle))))
             Cases.idle))
     = map row_of Cases.twelve.
Proof.
  assert (Hlen : (length Cases.twelve <= length Cases.passes)%nat)
    by (vm_compute; lia).
  split; [reflexivity |]. split; [reflexivity |]. split; [reflexivity |].
  split; [reflexivity |]. split; [exact Hlen |].
  exact (proj1 (recorded_events_reach_the_store Examples.utc Cases.idle
                  Cases.twelve Cases.passes eq_refl eq_refl eq_refl eq_refl
                  Hlen)).
Defined.

(** X2: when the store raises, a pass of the worker still takes the
    oldest batch off the queue and returns normally: the events of that
    batch are stored nowhere and are no longer pending. *)
Theorem worker_drops_batch_when_store_raises utc_offset now self events rest e :
  worker (EventService.db self) = Some (BatchInsert events :: rest) ->
  fault (database_of self) = Some e ->
  let self' := snd (iteration utc_offset now self) in
  fst (iteration utc_offset now self) = Returns tt
  /\ database_of self' = database_of self
  /\ worker (EventService.db self') = Some rest
  /\ pending (EventService.db self)
     = events ++ pending (EventService.db self').
Proof.
  intros Hw Hf self'.
  destruct (iteration_fault utc_offset now self _ rest e Hw Hf)
    as (Hr & Hq & Hb & Hd).
  fold self' in Hq, Hb, Hd.
  split; [exact Hr |]. split; [exact Hd |]. split; [exact Hq |].
  unfold pending. rewrite Hw, Hq, Hb. cbn. by rewrite app_assoc.
Qed.

Lemma worker_drops_batch_when_store_raises_witness :
  worker (EventService.db Cases.stuck)
  = Some [BatchInsert [("keyboard", 5); ("mouse", 6)]]
  /\ fault (database_of Cases.stuck) = Some "database is locked"
  /\ raw_of (snd (iteration Examples.utc 0 Cases.stuck)) = []
  /\ pending (EventService.db (snd (iteration Examples.utc 0 Cases.stuck)))
     = [].
Proof.
  split; [reflexivity |]. split; [reflexivity |].
  destruct (worker_drops_batch_when_store_raises Examples.utc 0 Cases.stuck
              _ [] "database is locked" eq_refl eq_refl)
    as (_ & Hd & Hq & _).
  split.
  - unfold raw_of. rewrite Hd. reflexivity.
  - reflexivity.
Defined.

(** X3: between calls the pending list never holds more than 10 events:
    if it holds at most 10 before [record_event], it holds at most 10
    after, with or without a worker. *)
Theorem pending_list_stays_within_threshold ty ts m :
  (length (batch_events m) <= 10)%nat ->
  (length (batch_events (snd (record_event ty ts m))) <= 10)%nat.
Proof.
  intros Hb.
  destruct (Nat.lt_ge_cases 10 (length (batch_events m ++ [(ty, ts)])))
    as [Hlen | Hlen].
  - destruct (worker m) as [q|] eqn:Hw.
    + rewrite (record_event_flush_state _ _ _ _ Hw Hlen). cbn. lia.
    + unfold record_event, _flush_batch_events, queue_put. unfold_monad.
      cbn [batch_events set_batch_events worker].
      apply Nat.ltb_lt in Hlen. rewrite Hlen.
      destruct (batch_events m ++ [(ty, ts)]); cbn; rewrite ?Hw; cbn; lia.
  - rewrite (record_event_buffers _ _ _ Hlen). cbn. exact Hlen.
Qed.

Lemma pending_list_stays_within_threshold_witness :
  (length (batch_events Examples.ten_pending) <= 10)%nat
  /\ (length (batch_events
                (snd (record_event "mouse" 10 Examples.ten_pending)))
      <= 10)%nat.
Proof.
  assert (H : (length (batch_events Examples.ten_pending) <= 10)%nat)
    by (vm_compute; lia).
  split; [exact H |].
  exact (pending_list_stays_within_threshold "mouse" 10
           Examples.ten_pending H).
Defined.

(** X4: with a worker, a [calculate_aggregates] call that is not skipped
    changes no table: it puts one task at the end of the worker's queue;
    when the worker, otherwise idle, takes that task on a store that
    answers, the aggregate table becomes the recomputed rows laid over
    the rows the DELETE left, as after a direct run. *)
Theorem queued_aggregation_runs_on_worker utc_offset current_time now self q :
  worker (EventService.db self) = Some q ->
  (60 <= current_time - EventService._last_aggregate_time self)%Q ->
  let queued :=
    snd (EventService.calculate_aggregates utc_offset current_time self) in
  database_of queued = database_of self
  /\ worker (EventService.db queued) = Some (q ++ [CalculateAggregates])
  /\ (q = [] -> fault (database_of self) = None ->
      stats_of (snd (iteration utc_offset now queued))
      = recomputed utc_offset now (raw_of self)
        ∪ delete_like "%-%-% %:%" (stats_of self)).
Proof.
  intros Hw Hfar queued.
  assert (Hq : queued
               = EventService.set_db
                   {| conn := conn (EventService.db self);
                      worker := Some (q ++ [CalculateAggregates]);
                      batch_events := batch_events (EventService.db self) |}
                   (EventService.set_last_aggregate_time current_time self)).
  { unfold queued, EventService.calculate_aggregates.
    apply Qltb_false in Hfar. unfold_monad. rewrite Hfar.
    cbn [EventService.db EventService.set_last_aggregate_time].
    rewrite Hw. unfold queue_put. cbn. by rewrite Hw. }
  rewrite Hq. split; [reflexivity |]. split; [reflexivity |].
  intros -> Hf. unfold iteration. cbn [EventService.db EventService.set_db
    worker app call].
  set (popped := EventService.set_db _ _).
  destruct (do_calculate_aggregates_frame utc_offset now popped)
    as (d & E & _).
  unfold try_except.
  pose proof (run_stats utc_offset now popped) as Hs.
  rewrite E in Hs |- *. cbn [snd] in Hs |- *. rewrite Hs.
  change (fault (database_of popped)) with (fault (database_of self)).
  by rewrite Hf.
Qed.

Lemma queued_aggregation_runs_on_worker_witness :
  worker (EventService.db Examples.scenario) = Some []
  /\ (60 <= 1000 - EventService._last_aggregate_time Examples.scenario)%Q
  /\ stats_of
       (snd (iteration Examples.utc 200
               (snd (EventService.calculate_aggregates Examples.utc 1000
                       Examples.scenario))))
     !! "1970-01-01" = Some (Examples.row 3 1 8).
Proof.
  assert (H : (60 <= 1000 - EventService._last_aggregate_time
                              Examples.scenario)%Q)
    by (vm_compute; discriminate).
  split; [reflexivity |]. split; [exact H |].
  rewrite (proj2 (proj2 (queued_aggregation_runs_on_worker Examples.utc 1000
                           200 Examples.scenario [] eq_refl H))
             eq_refl eq_refl).
  vm_compute. reflexivity.
Defined.
End BufferAndWorker.

Section RetentionAndTotals.
Import Store.

Lemma cleanup_ok current_time d :
  fault d = None ->
  Retention._cleanup_old_data current_time d
  = (Returns tt,
     set_raw_events
       (Retention.delete_before
          (EventListener.int current_time - 30 * 24 * 60 * 60)) d).
Proof.
  intros Hf. unfold Retention._cleanup_old_data, try_except.
  unfold mbind, M_bind, bind, cursor, Access.write. rewrite Hf.
  destruct d as [raw agg f j]. cbn in *. subst f. reflexivity.
Qed.

Lemma cleanup_fault current_time d e :
  fault d = Some e ->
  Retention._cleanup_old_data current_time d = (Returns tt, d).
Proof.
  intros Hf. unfold Retention._cleanup_old_data, try_except.
  unfold mbind, M_bind, bind at 1. unfold cursor. by rewrite Hf.
Qed.


Lemma filter_implied {A} (f g : A -> bool) l :
  (forall x, f x = true -> g x = true) ->
  List.filter f (List.filter g l) = List.filter f l.
Proof.
  intros Hfg. induction l as [|x l IH]; [reflexivity |].
  cbn. destruct (g x) eqn:Eg; cbn.
  - destruct (f x); by rewrite IH.
  - destruct (f x) eqn:Ef; [| exact IH].
    apply Hfg in Ef. congruence.
Qed.

(** X6: a sweep made no later than an aggregation run takes nothing from
    what the statements with a horizon of at most 30 days read (the
    15-minute, 30-minute and daily ones): they compute the same rows
    from the swept table as from the unswept one. *)
Theorem sweep_leaves_short_horizons_intact key days current_time now d :
  days <= 30 ->
  EventListener.int current_time <= now ->
  group_by_period key (EventService.days_ago now days)
    (raw_events (snd (Retention._cleanup_old_data current_time d)))
  = group_by_period key (EventService.days_ago now days) (raw_events d).
Proof.
  intros Hdays Hnow.
  destruct (fault d) as [e|] eqn:Hf;
    [by rewrite (cleanup_fault _ _ e Hf) |].
  rewrite (cleanup_ok _ _ Hf). cbn [snd].
  assert (Hsel : List.filter
                   (fun e => EventService.days_ago now days <=? timestamp e)
                   (raw_events
                      (set_raw_events
                         (Retention.delete_before
                            (EventListener.int current_time
                             - 30 * 24 * 60 * 60)) d))
                 = List.filter
                     (fun e => EventService.days_ago now days <=? timestamp e)
                     (raw_events d)).
  { destruct d as [raw agg f j]. cbn. unfold Retention.delete_before.
    apply filter_implied. intros x Hx. unfold EventService.days_ago in Hx.
    apply Z.leb_le in Hx. apply negb_true_iff, Z.ltb_ge. lia. }
  unfold group_by_period. by rewrite Hsel.
Qed.

Lemma sweep_leaves_short_horizons_intact_witness :
  30 <= 30
  /\ EventListener.int 1700001000 <= 1700001000
  /\ group_by_period (EventService.period_day Examples.utc)
       (EventService.days_ago 1700001000 30)
       (raw_events
          (snd (Retention._cleanup_old_data 1700001000
                  Cases.month_of_events)))
     = [("2023-10-25", Examples.row 0 1 5);
        ("2023-11-13", Examples.row 1 0 1)].
Proof.
  assert (H1 : 30 <= 30) by lia.
  assert (H2 : EventListener.int 1700001000 <= 1700001000)
    by (vm_compute; discriminate).
  split; [exact H1 |]. split; [exact H2 |].
  rewrite (sweep_leaves_short_horizons_intact
             (EventService.period_day Examples.utc) 30 1700001000 1700001000
             Cases.month_of_events H1 H2).
  vm_compute. reflexivity.
Defined.

Lemma service_totals_ok self :
  fault (database_of self) = None ->
  fst (ServiceTotals.get_total_counts self)
  = Returns {[ "keyboard" := Z.of_nat (length (of_type "keyboard" (raw_of self)));
               "mouse" := Z.of_nat (length (of_type "mouse" (raw_of self))) ]}.
Proof.
  intros Hf. unfold ServiceTotals.get_total_counts.
  unfold mbind, M_bind, bind at 1. rewrite (on_conn_cursor_ok _ Hf).
  unfold bind, EventService.on_conn, zoom, Access.read.
  unfold database_of in Hf. rewrite Hf. unfold mret, M_ret, ret. cbn [fst].
  unfold ServiceTotals.select_sums. cbn [fst snd].
  by rewrite !or0_sum_case.
Qed.

(** X7: the two implementations of [get_total_counts], the one of the
    service with conditional sums and the one of the manager with two
    COUNT queries, return the same result on the same store: the numbers
    of all 'keyboard' and all 'mouse' raw events (zeros on an empty
    table); neither has a handler, so on a store that raises both
    raise. *)
Theorem total_counts_agree self :
  fst (ServiceTotals.get_total_counts self)
  = fst (ManagerTotals.get_total_counts (EventService.db self))
  /\ fst (ServiceTotals.get_total_counts self)
     = match fault (database_of self) with
       | Some e => Raises e
       | None =>
           Returns
             {[ "keyboard" :=
                  Z.of_nat (length (of_type "keyboard" (raw_of self)));
                "mouse" :=
                  Z.of_nat (length (of_type "mouse" (raw_of self))) ]}
       end.
Proof.
  destruct (fault (database_of self)) as [e|] eqn:Hf.
  - assert (Hs : fst (ServiceTotals.get_total_counts self) = Raises e).
    { unfold ServiceTotals.get_total_counts.
      unfold mbind, M_bind, bind at 1.
      by rewrite (on_conn_cursor_fault _ _ Hf). }
    split; [| exact Hs]. rewrite Hs.
    unfold ManagerTotals.get_total_counts, zoom, mbind, M_bind, bind, cursor.
    unfold database_of in Hf. by rewrite Hf.
  - rewrite (service_totals_ok _ Hf). split; [| reflexivity].
    unfold ManagerTotals.get_total_counts, zoom, mbind, M_bind, bind, cursor,
      Access.read.
    unfold database_of in Hf. rewrite Hf. cbv beta iota. rewrite Hf.
    cbv beta iota. rewrite Hf. reflexivity.
Qed.

Lemma count_since_le ty (t1 t2 : Q) raw :
  (t1 <= t2)%Q ->
  Spec.count_since ty t2 raw <= Spec.count_since ty t1 raw
  /\ Spec.count_since ty t1 raw <= Z.of_nat (length (of_type ty raw)).
Proof.
  intros Ht. unfold Spec.count_since, of_type.
  induction raw as [|e raw [IH1 IH2]]; [done |].
  cbn [List.filter].
  destruct (String.eqb (event_type e) ty); cbn [andb];
    [| split; assumption].
  destruct (Qle_bool t2 (inject_Z (timestamp e))) eqn:E2.
  - apply Qle_bool_iff in E2.
    assert (E1 : Qle_bool t1 (inject_Z (timestamp e)) = true)
      by (apply Qle_bool_iff; lra).
    rewrite E1. cbn [length]. lia.
  - destruct (Qle_bool t1 (inject_Z (timestamp e))); cbn [length]; lia.
Qed.

(** X8: of two uncached calls of [get_counts_since] on the same table,
    the one with the later timestamp reports no more key presses and no
    more clicks than the other, and neither reports more than
    [get_total_counts]. *)
Theorem later_window_counts_no_more now1 now2 t1 t2 self ty :
  fault (database_of self) = None ->
  EventService.cached_counts now1 t1 self = None ->
  EventService.cached_counts now2 t2 self = None ->
  (t1 <= t2)%Q ->
  ty = "keyboard" \/ ty = "mouse" ->
  exists c1 c2 total n1 n2 n,
    fst (EventService.get_counts_since now1 t1 self) = Returns c1
    /\ fst (EventService.get_counts_since now2 t2 self) = Returns c2
    /\ fst (ServiceTotals.get_total_counts self) = Returns total
    /\ c1 !! ty = Some n1 /\ c2 !! ty = Some n2 /\ total !! ty = Some n
    /\ n2 <= n1 <= n.
Proof.
  intros Hf H1 H2 Ht Hty.
  destruct (count_since_le ty t1 t2 (raw_of self) Ht) as [Hle1 Hle2].
  do 3 eexists.
  exists (Spec.count_since ty t1 (raw_of self)),
         (Spec.count_since ty t2 (raw_of self)),
         (Z.of_nat (length (of_type ty (raw_of self)))).
  split; [by apply get_counts_since_miss |].
  split; [by apply get_counts_since_miss |].
  split; [by apply service_totals_ok |].
  unfold Spec.counts_since.
  destruct Hty as [-> | ->].
  - rewrite !lookup_insert_eq. repeat split; lia.
  - rewrite !(lookup_insert_ne _ "keyboard") by done.
    rewrite !lookup_singleton_eq. repeat split; lia.
Qed.

Lemma later_window_counts_no_more_witness :
  fault (database_of Examples.scenario) = None
  /\ EventService.cached_counts 200 100 Examples.scenario = None
  /\ EventService.cached_counts 200 (1015 # 10) Examples.scenario = None
  /\ (100 <= 1015 # 10)%Q
  /\ exists c1 c2 total n1 n2 n,
    fst (EventService.get_counts_since 200 100 Examples.scenario) = Returns c1
    /\ fst (EventService.get_counts_since 200 (1015 # 10) Examples.scenario)
       = Returns c2
    /\ fst (ServiceTotals.get_total_counts Examples.scenario) = Returns total
    /\ c1 !! "keyboard" = Some n1 /\ c2 !! "keyboard" = Some n2
    /\ total !! "keyboard" = Some n
    /\ n2 <= n1 <= n.
Proof.
  assert (Ht : (100 <= 1015 # 10)%Q) by (vm_compute; discriminate).
  split; [reflexivity |]. split; [reflexivity |]. split; [reflexivity |].
  split; [exact Ht |].
  exact (later_window_counts_no_more 200 200 100 (1015 # 10) Examples.scenario
           "keyboard" eq_refl eq_refl eq_refl Ht (or_introl eq_refl)).
Defined.
End RetentionAndTotals.

Section CountsCache.
Import Store EventService.

Lemma lookup_foldr_delete {V} (m : gmap Qc V) ks k :
  foldr delete m ks !! k = if decide (k ∈ ks) then None else m !! k.
Proof.
  induction ks as [|a ks IH]; cbn [foldr].
  - rewrite decide_False; [done | apply not_elem_of_nil].
  - rewrite lookup_delete, IH.
    destruct (decide (a = k)) as [->|Hne].
    + rewrite decide_True; [done | by left].
    + destruct (decide (k ∈ ks)).
      * rewrite decide_True; [done | by right].
      * rewrite decide_False; [done |].
        intros [?|?]%elem_of_cons; congruence.
Qed.

Lemma outdated_keys_spec force now self k :
  k ∈ Series.outdated_keys force now self
  <-> exists ct,
        _cache_timestamps self !! k = Some ct
        /\ (force = true \/ (_cache_lifetime self <= now - ct)%Q).
Proof.
  unfold Series.outdated_keys. rewrite list_elem_of_In, in_map_iff. split.
  - intros ([k' ct] & <- & [Hin Hp]%filter_In). exists ct. cbn in *.
    apply list_elem_of_In, elem_of_map_to_list in Hin. split; [done |].
    apply orb_true_iff in Hp as [Hp | Hp]; [by left | right].
    by apply negb_true_iff, Qltb_false in Hp.
  - intros (ct & Hk & Hp). exists (k, ct). split; [done |].
    apply filter_In. split.
    + by apply list_elem_of_In, elem_of_map_to_list.
    + cbn. apply orb_true_iff. destruct Hp as [-> | Hp]; [by left | right].
      by apply negb_true_iff, Qltb_false.
Qed.

Lemma clear_outdated_state force now self :
  _clear_outdated_cache force now self
  = (Returns tt,
     set_caches
       (foldr delete (_counts_cache self) (Series.outdated_keys force now self))
       (foldr delete (_cache_timestamps self)
              (Series.outdated_keys force now self))
       self).
Proof. reflexivity. Qed.

Lemma clear_keeps_same_keys force now self :
  Series.same_keys self ->
  Series.same_keys (snd (_clear_outdated_cache force now self)).
Proof.
  intros Hk k. rewrite clear_outdated_state. cbn.
  rewrite !lookup_foldr_delete.
  destruct (decide (k ∈ _)); [| apply Hk].
  split; intros [? ?]; discriminate.
Qed.

Lemma clear_forced_empties now self :
  Series.same_keys self ->
  _counts_cache (snd (_clear_outdated_cache true now self)) = ∅.
Proof.
  intros Hk. rewrite clear_outdated_state. cbn.
  apply map_eq. intros k. rewrite lookup_foldr_delete, lookup_empty.
  destruct (decide (k ∈ _)) as [|Hnot]; [done |].
  destruct (_counts_cache self !! k) as [c|] eqn:Ec; [| done].
  exfalso. apply Hnot, outdated_keys_spec.
  destruct (proj1 (Hk k) (ex_intro _ c Ec)) as [ct Hct].
  exists ct. auto.
Qed.

Lemma on_conn_execute_state {A} q (f : Database -> A) self :
  fault (database_of self) = None ->
  on_conn (execute q f) self
  = (Returns (f (database_of self)),
     set_db (DatabaseManager.set_conn (log q (database_of self)) (db self))
            self).
Proof.
  intros Hf. unfold on_conn, execute, database_of in *. unfold_monad.
  by rewrite Hf.
Qed.

Lemma count_since_Qeq ty (t t' : Q) raw :
  (t == t')%Q -> Spec.count_since ty t raw = Spec.count_since ty t' raw.
Proof.
  intros E. unfold Spec.count_since.
  rewrite (filter_ext
             (fun e => String.eqb (event_type e) ty
                       && Qle_bool t (inject_Z (timestamp e)))
             (fun e => String.eqb (event_type e) ty
                       && Qle_bool t' (inject_Z (timestamp e))));
    [reflexivity |].
  intros a. f_equal.
  destruct (Qle_bool t' (inject_Z (timestamp a))) eqn:E'.
  - apply Qle_bool_iff. apply Qle_bool_iff in E'. by rewrite E.
  - destruct (Qle_bool t (inject_Z (timestamp a))) eqn:E''; [| done].
    apply Qle_bool_iff in E''. rewrite E in E''.
    apply Qle_bool_iff in E''. congruence.
Qed.

(** The state after a call that the cache does not answer. *)
Lemma get_counts_since_miss_state now t self :
  fault (database_of self) = None ->
  cached_counts now t self = None ->
  exists q,
    let result := Spec.counts_since t (raw_of self) in
    let stored :=
      set_caches (<[Q2Qc t := result]> (_counts_cache self))
                 (<[Q2Qc t := now]> (_cache_timestamps self))
                 (set_db (DatabaseManager.set_conn
                            (log q (database_of self)) (db self)) self) in
    get_counts_since now t self
    = (Returns result,
       if (20 <? size (<[Q2Qc t := result]> (_counts_cache self)))%nat
       then snd (_clear_outdated_cache true now stored) else stored).
Proof.
  intros Hf Hmiss.
  assert (Hq : exists q,
             (if Qltb (now - t) 2 then counts_recent t
              else counts_historical t) self
             = (Returns (Spec.counts_since t (raw_of self)),
                set_db (DatabaseManager.set_conn
                          (log q (database_of self)) (db self)) self)).
  { destruct (Qltb (now - t) 2); eexists;
      unfold counts_recent, counts_historical;
      unfold mbind, M_bind, bind at 1; rewrite (on_conn_cursor_ok _ Hf);
      unfold bind; rewrite (on_conn_execute_state _ _ _ Hf);
      unfold mret, M_ret, ret.
    - by rewrite grouped_counts_exact.
    - by rewrite conditional_sums_exact. }
  destruct Hq as [q Hq]. exists q. cbv zeta.
  unfold get_counts_since.
  unfold mbind, M_bind, bind at 1. unfold gets at 1. rewrite Hmiss.
  unfold bind at 1. rewrite Hq.
  unfold_monad. cbn [_counts_cache set_caches].
  by destruct (20 <? _)%nat.
Qed.

(** On a store that answers, a call keeps a coherent cache coherent and
    returns the exact counts, whether or not the cache answers. *)
Lemma get_counts_since_coherent now t self :
  fault (database_of self) = None ->
  Series.coherent self ->
  exists self',
    get_counts_since now t self
    = (Returns (Spec.counts_since t (raw_of self)), self')
    /\ Series.coherent self'
    /\ raw_of self' = raw_of self
    /\ fault (database_of self') = None.
Proof.
  intros Hf Hc.
  destruct (cached_counts now t self) as [c|] eqn:Ehit.
  - exists self. rewrite (get_counts_since_hit _ _ _ _ Ehit).
    split; [| done]. f_equal. f_equal.
    unfold cached_counts in Ehit.
    destruct (_counts_cache self !! Q2Qc t) as [c'|] eqn:Ec; [| done].
    destruct (Qltb _ _); [| done]. injection Ehit as <-.
    by apply Hc.
  - destruct (get_counts_since_miss_state now t self Hf Ehit) as [q Hq].
    cbv zeta in Hq. rewrite Hq. eexists. split; [reflexivity |].
    set (result := Spec.counts_since t (raw_of self)) in *.
    assert (Hstored : forall t' c',
               <[Q2Qc t := result]> (_counts_cache self) !! Q2Qc t' = Some c' ->
               c' = Spec.counts_since t' (raw_of self)).
    { intros t' c'. destruct (decide (Q2Qc t = Q2Qc t')) as [E | Hne].
      - rewrite E, lookup_insert_eq. intros [= <-].
        apply Q2Qc_eq_iff in E.
        unfold result, Spec.counts_since.
        by rewrite !(count_since_Qeq _ t t' _ E).
      - rewrite lookup_insert_ne by done. apply Hc. }
    destruct (20 <? _)%nat.
    + rewrite clear_outdated_state. cbn [snd].
      split; [| done].
      intros t' c'. cbn. rewrite lookup_foldr_delete.
      destruct (decide (_ ∈ _)); [done |]. apply Hstored.
    + split; [| done]. intros t' c'. cbn. apply Hstored.
Qed.
End CountsCache.

Section CountsCacheProperties.
Import Store EventService.

(** X9: as long as nothing is written to [raw_events], every call of
    [get_counts_since] returns the exact counts for its timestamp, whether
    the cache answers it or not: a series of calls on a store that
    answers, started with a coherent cache (an empty one in particular),
    returns for each call the number of 'keyboard' and 'mouse' events
    with [timestamp >= t]. *)
Theorem polling_an_unchanged_table_is_exact calls self :
  fault (database_of self) = None ->
  Series.coherent self ->
  Series.poll calls self
  = map (fun call => Returns (Spec.counts_since (snd call) (raw_of self)))
        calls.
Proof.
  revert self. induction calls as [|[now t] calls IH]; intros self Hf Hc.
  - reflexivity.
  - destruct (get_counts_since_coherent now t self Hf Hc)
      as (self' & E & Hc' & Hr' & Hf').
    cbn [Series.poll map snd]. rewrite E. f_equal.
    rewrite (IH self' Hf' Hc'). by rewrite Hr'.
Qed.

Lemma polling_an_unchanged_table_is_exact_witness :
  fault (database_of Examples.scenario) = None
  /\ Series.coherent Examples.scenario
  /\ Series.poll [(200, 100); (2001 # 10, 100); (2003 # 10, 1015 # 10)]%Q
       Examples.scenario
     = [Returns {[ "keyboard" := 3; "mouse" := 1 ]};
        Returns {[ "keyboard" := 3; "mouse" := 1 ]};
        Returns {[ "keyboard" := 1; "mouse" := 0 ]}].
Proof.
  assert (Hc : Series.coherent Examples.scenario).
  { intros t c H. cbn in H. by rewrite lookup_empty in H. }
  split; [reflexivity |]. split; [exact Hc |].
  exact (polling_an_unchanged_table_is_exact
           [(200, 100); (2001 # 10, 100); (2003 # 10, 1015 # 10)]%Q
           Examples.scenario eq_refl Hc).
Defined.

Lemma insert_same_keys (self : EventService.t) k r now stored :
  Series.same_keys self ->
  _counts_cache stored = <[k := r]> (_counts_cache self) ->
  _cache_timestamps stored = <[k := now]> (_cache_timestamps self) ->
  Series.same_keys stored.
Proof.
  intros Hk Hc Ht k'. rewrite Hc, Ht, !lookup_insert.
  destruct (decide (k = k')); [| apply Hk].
  split; intros _; by eexists.
Qed.

(** X10: the cache of [get_counts_since] never grows past 20 entries: if
    its two dictionaries have the same keys and it holds at most 20
    entries before a call, the same is true after the call; a call that
    would make it 21 empties it. *)
Theorem counts_cache_never_exceeds_twenty now t self :
  Series.same_keys self ->
  (size (_counts_cache self) <= 20)%nat ->
  let self' := snd (get_counts_since now t self) in
  (size (_counts_cache self') <= 20)%nat /\ Series.same_keys self'.
Proof.
  intros Hk Hsize self'. unfold self'.
  destruct (cached_counts now t self) as [c|] eqn:Ehit.
  - by rewrite (get_counts_since_hit _ _ _ _ Ehit).
  - destruct (fault (database_of self)) as [e|] eqn:Hf.
    + by rewrite (get_counts_since_fault _ _ _ e Hf Ehit).
    + destruct (get_counts_since_miss_state now t self Hf Ehit) as [q Hq].
      cbv zeta in Hq. rewrite Hq. cbn [snd].
      set (stored := set_caches _ _ _).
      assert (Hks : Series.same_keys stored)
        by (by apply (insert_same_keys self (Q2Qc t)
                        (Spec.counts_since t (raw_of self)) now)).
      destruct (20 <? _)%nat eqn:Efull.
      * split; [| by apply clear_keeps_same_keys].
        rewrite (clear_forced_empties _ _ Hks). rewrite map_size_empty. lia.
      * apply Nat.ltb_ge in Efull. split; [exact Efull | exact Hks].
Qed.

Lemma counts_cache_never_exceeds_twenty_witness :
  Series.same_keys Examples.scenario
  /\ (size (_counts_cache Examples.scenario) <= 20)%nat
  /\ (size (_counts_cache
              (snd (get_counts_since 200 100 Examples.scenario))) <= 20)%nat.
Proof.
  assert (Hk : Series.same_keys Examples.scenario).
  { intros k. cbn. rewrite !lookup_empty. done. }
  assert (Hs : (size (_counts_cache Examples.scenario) <= 20)%nat)
    by (cbn; rewrite map_size_empty; lia).
  split; [exact Hk |]. split; [exact Hs |].
  exact (proj1 (counts_cache_never_exceeds_twenty 200 100 Examples.scenario
                  Hk Hs)).
Defined.

(** X11: [_clear_outdated_cache] without [force] removes exactly the
    entries that are at least [_cache_lifetime] old: an entry survives in
    either dictionary if and only if it was stored less than the lifetime
    before the clock reading, and the two dictionaries keep the same
    keys. *)
Theorem clear_outdated_cache_drops_exactly_expired now self k :
  Series.same_keys self ->
  let self' := snd (_clear_outdated_cache false now self) in
  (forall ct,
     _cache_timestamps self' !! k = Some ct
     <-> _cache_timestamps self !! k = Some ct
         /\ (now - ct < _cache_lifetime self)%Q)
  /\ (forall c,
        _counts_cache self' !! k = Some c
        <-> _counts_cache self !! k = Some c
            /\ exists ct, _cache_timestamps self !! k = Some ct
                          /\ (now - ct < _cache_lifetime self)%Q)
  /\ Series.same_keys self'.
Proof.
  intros Hk self'. unfold self'.
  split; [| split; [| by apply clear_keeps_same_keys]].
  - intros ct. rewrite clear_outdated_state. cbn.
    rewrite lookup_foldr_delete.
    destruct (decide (k ∈ _)) as [Hin | Hnot].
    + apply outdated_keys_spec in Hin as (ct' & Hct' & [? | Hold]); [done |].
      split; [done |]. intros [Hct Hfresh].
      rewrite Hct' in Hct. injection Hct as ->. lra.
    + split; [| by intros []]. intros Hct. split; [done |].
      destruct (Qlt_le_dec (now - ct) (_cache_lifetime self)); [done |].
      exfalso. apply Hnot, outdated_keys_spec. eauto.
  - intros c. rewrite clear_outdated_state. cbn.
    rewrite lookup_foldr_delete.
    destruct (decide (k ∈ _)) as [Hin | Hnot].
    + apply outdated_keys_spec in Hin as (ct' & Hct' & [? | Hold]); [done |].
      split; [done |]. intros [_ (ct & Hct & Hfresh)].
      rewrite Hct' in Hct. injection Hct as ->. lra.
    + split; [| by intros []]. intros Hc. split; [done |].
      destruct (proj1 (Hk k) (ex_intro _ c Hc)) as [ct Hct].
      exists ct. split; [done |].
      destruct (Qlt_le_dec (now - ct) (_cache_lifetime self)); [done |].
      exfalso. apply Hnot, outdated_keys_spec. eauto.
Qed.

Lemma clear_outdated_cache_drops_exactly_expired_witness :
  Series.same_keys Examples.polled
  /\ _cache_timestamps
       (snd (_clear_outdated_cache false (1005 # 10) Examples.polled))
     !! Q2Qc (995 # 10) = Some 100%Q
  /\ _cache_timestamps
       (snd (_clear_outdated_cache false 101 Examples.polled))
     !! Q2Qc (995 # 10) = None.
Proof.
  assert (Hk : Series.same_keys Examples.polled).
  { intros k. destruct (decide (k = Q2Qc (995 # 10))) as [-> | Hne].
    - split; intros _; by eexists.
    - change (_counts_cache Examples.polled)
        with (<[Q2Qc (995 # 10) := ({[ "keyboard" := 0; "mouse" := 0 ]}
                                    : gmap string Z)]>
                (∅ : gmap Qc (gmap string Z))).
      change (_cache_timestamps Examples.polled)
        with (<[Q2Qc (995 # 10) := 100%Q]> (∅ : gmap Qc Q)).
      rewrite !lookup_insert_ne, !lookup_empty by done. done. }
  split; [exact Hk |]. split.
  - apply (proj1 (clear_outdated_cache_drops_exactly_expired (1005 # 10)
                    Examples.polled (Q2Qc (995 # 10)) Hk)).
    split; [reflexivity |]. reflexivity.
  - destruct (_cache_timestamps
                (snd (_clear_outdated_cache false 101 Examples.polled))
              !! Q2Qc (995 # 10)) as [ct|] eqn:E; [| reflexivity].
    apply (proj1 (clear_outdated_cache_drops_exactly_expired 101
                    Examples.polled (Q2Qc (995 # 10)) Hk)) in E
      as [Hct Hfresh].
    injection Hct as <-. vm_compute in Hfresh. discriminate.
Defined.
End CountsCacheProperties.

Section QueryResults.
Import Store EventService.

Lemma reads_only_ret {A} (a : A) : Series.reads_only (mret a).
Proof. by intros self. Qed.

Lemma reads_only_bind {A B} (m : M EventService.t A)
    (k : A -> M EventService.t B) :
  Series.reads_only m -> (forall a, Series.reads_only (k a)) ->
  Series.reads_only (m ≫= k).
Proof.
  intros Hm Hk self. unfold mbind, M_bind, bind.
  destruct (Hm self) as (Hr & Ha & Hf).
  destruct (m self) as [[a | e] s1]; cbn [snd] in *; [| done].
  destruct (Hk a s1) as (Hr' & Ha' & Hf').
  by rewrite Hr', Ha', Hf'.
Qed.

Lemma reads_only_try {A} (m : M EventService.t A) h :
  Series.reads_only m -> (forall e, Series.reads_only (h e)) ->
  Series.reads_only (try_except m h).
Proof.
  intros Hm Hh self. unfold try_except.
  destruct (Hm self) as (Hr & Ha & Hf).
  destruct (m self) as [[a | e] s1]; cbn [snd] in *; [done |].
  destruct (Hh e s1) as (Hr' & Ha' & Hf').
  by rewrite Hr', Ha', Hf'.
Qed.

Lemma reads_only_cursor : Series.reads_only (on_conn cursor).
Proof.
  intros self. unfold on_conn, zoom, cursor.
  destruct (fault (DatabaseManager.conn (db self))) eqn:Hf; cbn;
    by rewrite ?Hf.
Qed.

Lemma reads_only_execute {A} q (f : Database -> A) :
  Series.reads_only (on_conn (execute q f)).
Proof.
  intros self. unfold on_conn, zoom, execute.
  destruct (fault (DatabaseManager.conn (db self))) eqn:Hf; cbn;
    by rewrite ?Hf.
Qed.

Lemma reads_only_read {A} (f : Database -> A) :
  Series.reads_only (on_conn (Access.read f)).
Proof.
  intros self. unfold on_conn, zoom, Access.read.
  destruct (fault (DatabaseManager.conn (db self))) eqn:Hf; cbn;
    by rewrite ?Hf.
Qed.

Lemma reads_only_get_counts_since now t :
  Series.reads_only (get_counts_since now t).
Proof.
  intros self.
  destruct (cached_counts now t self) as [c|] eqn:Ehit.
  - by rewrite (get_counts_since_hit _ _ _ _ Ehit).
  - destruct (fault (database_of self)) as [e|] eqn:Hf.
    + by rewrite (get_counts_since_fault _ _ _ e Hf Ehit).
    + destruct (get_counts_since_miss_state now t self Hf Ehit) as [q Hq].
      cbv zeta in Hq. rewrite Hq. cbn [snd].
      unfold database_of in *.
      destruct (20 <? _)%nat; cbn;
        by destruct (DatabaseManager.conn (db self)).
Qed.

Lemma reads_only_get_aggregated_data time_range limit :
  Series.reads_only (get_aggregated_data time_range limit).
Proof.
  unfold get_aggregated_data.
  apply reads_only_try; [| intros; apply reads_only_ret].
  apply reads_only_bind; [apply reads_only_cursor | intros _].
  apply reads_only_bind; [| intros; apply reads_only_ret].
  repeat (destruct (String.eqb time_range _); [apply reads_only_execute |]).
  apply reads_only_ret.
Qed.

Lemma reads_only_get_today today time_range limit :
  Series.reads_only (get_today_aggregated_data today time_range limit).
Proof.
  unfold get_today_aggregated_data.
  apply reads_only_try; [| intros; apply reads_only_ret].
  apply reads_only_bind; [apply reads_only_cursor | intros _].
  repeat (destruct (String.eqb time_range _);
          [apply reads_only_bind;
             [apply reads_only_execute | intros; apply reads_only_ret] |]).
  apply reads_only_ret.
Qed.

Lemma reads_only_get_total_counts :
  Series.reads_only ServiceTotals.get_total_counts.
Proof.
  unfold ServiceTotals.get_total_counts.
  apply reads_only_bind; [apply reads_only_cursor | intros _].
  apply reads_only_bind; [apply reads_only_read | intros; apply reads_only_ret].
Qed.

(** X12: no query of the service writes: [get_counts_since],
    [get_total_counts], [get_aggregated_data] and
    [get_today_aggregated_data] leave [raw_events], [aggregated_stats] and
    the state of the store as they found them, whatever they return or
    raise. *)
Theorem queries_change_no_table :
  (forall now t, Series.reads_only (get_counts_since now t))
  /\ Series.reads_only ServiceTotals.get_total_counts
  /\ (forall time_range limit,
        Series.reads_only (get_aggregated_data time_range limit))
  /\ (forall today time_range limit,
        Series.reads_only (get_today_aggregated_data today time_range limit)).
Proof.
  split; [apply reads_only_get_counts_since |].
  split; [apply reads_only_get_total_counts |].
  split; [apply reads_only_get_aggregated_data | apply reads_only_get_today].
Qed.
End QueryResults.

Section AggregateRows.
Import Store EventService Series.

Local Instance key_le_total : Total key_le.
Proof. intros a b. apply (total String.le). Qed.

Lemma Sorted_take {A} (R : relation A) n l :
  Sorted R l -> Sorted R (take n l).
Proof.
  intros Hl. revert n. induction Hl as [|x l _ IH Hhd]; intros n.
  - by rewrite take_nil.
  - destruct n as [|n]; cbn; [constructor |].
    constructor; [apply IH |].
    destruct Hhd as [|y l' Hxy]; destruct n; cbn; by constructor.
Qed.

Lemma Sorted_limit {A} (R : relation A) n l :
  Sorted R l -> Sorted R (Sql.limit n l).
Proof.
  intros Hl. unfold Sql.limit. destruct (n <? 0); [done |].
  by apply Sorted_take.
Qed.

Lemma limit_subset {A} n (l : list A) x : x ∈ Sql.limit n l -> x ∈ l.
Proof.
  unfold Sql.limit. destruct (n <? 0); [done |].
  apply subseteq_take.
Qed.

Lemma limit_length {A} n (l : list A) :
  0 <= n -> (Z.of_nat (length (Sql.limit n l)) <= n).
Proof.
  intros Hn. unfold Sql.limit.
  destruct (Z.ltb_spec n 0); [lia |]. rewrite length_take. lia.
Qed.

Lemma limit_NoDup {A} n (l : list A) : NoDup l -> NoDup (Sql.limit n l).
Proof.
  intros Hl. unfold Sql.limit. destruct (n <? 0); [done |].
  eapply sublist_NoDup; [done | apply sublist_take].
Qed.

Lemma filter_sublist {A} (f : A -> bool) l : List.filter f l `sublist_of` l.
Proof.
  induction l as [|x l IH]; [constructor |].
  cbn. destruct (f x); by constructor.
Qed.

Lemma NoDup_fst_filter {A B} (f : A * B -> bool) (l : list (A * B)) :
  NoDup (l.*1) -> NoDup ((List.filter f l).*1).
Proof.
  induction l as [|x l IH]; [done |].
  cbn. intros [Hx Hl]%NoDup_cons. destruct (f x); [| by apply IH].
  cbn. apply NoDup_cons. split; [| by apply IH].
  intros Hin. apply Hx.
  apply list_elem_of_fmap in Hin as (y & -> & Hy).
  apply list_elem_of_fmap. exists y. split; [done |].
  eapply elem_of_sublist; [exact Hy | apply filter_sublist].
Qed.

(** What a SELECT on [aggregated_stats] returns: rows of the table that
    satisfy the condition, each once, at most [limit] of them, in the
    order of their keys. *)
Lemma select_aggregates_rows cond descending limit d :
  let out := select_aggregates cond descending limit d in
  (forall k r, (k, r) ∈ out ->
               aggregated_stats d !! k = Some r /\ cond k = true)
  /\ (0 <= limit -> Z.of_nat (length out) <= limit)
  /\ NoDup (map fst out)
  /\ Sorted (if descending then flip key_le else key_le) out.
Proof.
  intros out. unfold out, select_aggregates.
  set (rows := List.filter _ (map_to_list (aggregated_stats d))).
  set (asc := merge_sort _ rows).
  assert (Hperm : asc ≡ₚ rows) by apply merge_sort_Permutation.
  assert (Hasc : Sorted key_le asc) by apply (Sorted_merge_sort key_le).
  assert (Hrows : forall k r, (k, r) ∈ rows ->
                    aggregated_stats d !! k = Some r /\ cond k = true).
  { intros k r [Hin Hc]%list_elem_of_In%filter_In.
    by apply list_elem_of_In, elem_of_map_to_list in Hin. }
  assert (Hnd : NoDup (map fst rows)).
  { change (map fst rows) with (rows.*1).
    apply NoDup_fst_filter, NoDup_fst_map_to_list. }
  assert (Hnd_asc : NoDup (map fst asc)).
  { change (map fst asc) with (asc.*1). change (map fst rows) with (rows.*1)
      in Hnd. by rewrite Hperm. }
  set (ordered := if descending then reverse asc else asc).
  assert (Hperm' : ordered ≡ₚ rows).
  { unfold ordered. destruct descending; [by rewrite reverse_Permutation |].
    done. }
  split; [| split; [apply limit_length | split]].
  - intros k r Hin%limit_subset. apply Hrows. by rewrite <- Hperm'.
  - change (map fst (Sql.limit limit ordered))
      with ((Sql.limit limit ordered).*1).
    assert (Hnd' : NoDup (ordered.*1)).
    { change (map fst rows) with (rows.*1) in Hnd. by rewrite Hperm'. }
    unfold Sql.limit. destruct (limit <? 0); [done |].
    rewrite fmap_take.
    eapply sublist_NoDup; [done | apply sublist_take].
  - apply Sorted_limit. unfold ordered.
    destruct descending; [by apply Sorted_reverse | done].
Qed.
End AggregateRows.

Section QueryRows.
Import Store EventService Series.

(** The dictionaries built from selected rows. *)
Lemma row_dict_rows (R : relation (string * AggRow))
    (R' : relation AggregatedStats) (table : gmap string AggRow)
    (limit : Z) (out : list (string * AggRow)) :
  (forall a b, R a b -> R' (row_dict a) (row_dict b)) ->
  (forall k r, (k, r) ∈ out -> table !! k = Some r) ->
  (0 <= limit -> Z.of_nat (length out) <= limit) ->
  NoDup (map fst out) -> Sorted R out ->
  (forall x, In x (map row_dict out) ->
             table !! period x = Some (row_of_entry x))
  /\ (0 <= limit -> Z.of_nat (length (map row_dict out)) <= limit)
  /\ NoDup (map period (map row_dict out))
  /\ Sorted R' (map row_dict out).
Proof.
  intros HR Hin Hlen Hnd Hs.
  split; [| split; [| split]].
  - intros x ([k [rk rm rs]] & <- & Hk)%in_map_iff.
    apply list_elem_of_In in Hk. by apply Hin in Hk.
  - by rewrite length_map.
  - rewrite map_map. cbn. exact Hnd.
  - change (map row_dict out) with (row_dict <$> out).
    by apply (Sorted_fmap row_dict R R').
Qed.

Lemma aggregated_data_shape time_range limit self :
  exists out,
    fst (get_aggregated_data time_range limit self)
    = Returns (map row_dict out)
    /\ (out = []
        \/ exists cond,
             out = select_aggregates cond true limit (database_of self)).
Proof.
  destruct (fault (database_of self)) as [e|] eqn:Hf.
  - exists []. rewrite (get_aggregated_data_fault _ _ _ e Hf). auto.
  - unfold get_aggregated_data, try_except.
    unfold mbind, M_bind, bind at 1. rewrite (on_conn_cursor_ok _ Hf).
    unfold bind. cbv beta.
    repeat (destruct (String.eqb time_range _);
            [cbv iota; rewrite (on_conn_execute_state _ _ _ Hf);
             eexists; split; [reflexivity | right; eexists; reflexivity] |]).
    exists []. auto.
Qed.

(** The condition of the two SELECTs of [get_today_aggregated_data]
    implies the LIKE on today's date. *)
Lemma today_data_shape today time_range limit self :
  exists out,
    fst (get_today_aggregated_data today time_range limit self)
    = Returns (map row_dict out)
    /\ (out = []
        \/ exists cond,
             (forall k, cond k = true ->
                        Sql.like (today +:+ " %:%") k = true)
             /\ out = select_aggregates cond false limit (database_of self)).
Proof.
  destruct (fault (database_of self)) as [e|] eqn:Hf.
  - exists []. rewrite (get_today_aggregated_data_fault _ _ _ _ e Hf). auto.
  - unfold get_today_aggregated_data, try_except.
    unfold mbind, M_bind, bind at 1. rewrite (on_conn_cursor_ok _ Hf).
    cbv beta.
    repeat (destruct (String.eqb time_range _);
            [unfold bind; cbv iota;
             rewrite (on_conn_execute_state _ _ _ Hf);
             eexists; split; [reflexivity |];
             right; eexists; split; [| reflexivity];
             cbv beta; intros k [Hk _]%andb_true_iff; exact Hk |]).
    exists []. auto.
Qed.

Lemma rigid_spec c d :
  rigid c = true ->
  Ascii.eqb c "%" = false
  /\ Ascii.eqb c "_" = false
  /\ (Ascii.eqb (Sql.fold_case c) (Sql.fold_case d) = true -> d = c).
Proof.
  unfold rigid. intros [[H1 H2]%andb_true_iff H3]%andb_true_iff.
  apply negb_true_iff in H1, H2. split; [done |]. split; [done |].
  intros Hcd. rewrite forallb_forall in H3.
  assert (Hin : In d (map ascii_of_nat (seq 0 256))).
  { apply in_map_iff. exists (nat_of_ascii d).
    split; [apply ascii_nat_embedding |].
    apply in_seq. pose proof (nat_ascii_bounded d). lia. }
  specialize (H3 d Hin). rewrite Hcd in H3. cbn [implb] in H3.
  by apply Ascii.eqb_eq.
Qed.

(** A pattern that opens with rigid characters only matches texts that
    open with those characters. *)
Lemma like_rigid_prefix p q s :
  Sql.all_chars rigid p = true ->
  Sql.like (p +:+ q) s = true ->
  exists rest, s = p +:+ rest /\ Sql.like q rest = true.
Proof.
  revert s. induction p as [|c p IH]; intros s Hp Hlike.
  - exists s. done.
  - cbn [Sql.all_chars] in Hp. apply andb_true_iff in Hp as [Hc Hp].
    rewrite append_cons in Hlike. cbn [Sql.like] in Hlike.
    destruct s as [|d s].
    + destruct (rigid_spec c c Hc) as (E1 & _). by rewrite E1 in Hlike.
    + destruct (rigid_spec c d Hc) as (E1 & E2 & E3).
      rewrite E1, E2 in Hlike. cbn [orb] in Hlike.
      apply andb_true_iff in Hlike as [Hd Hrest].
      apply E3 in Hd as ->.
      destruct (IH s Hp Hrest) as (rest & -> & Hq).
      exists rest. by rewrite append_cons.
Qed.

Lemma digit_rigid n : rigid (Calendar.digit n) = true.
Proof.
  unfold Calendar.digit.
  assert (H : (Z.to_nat (n mod 10) < 10)%nat)
    by (pose proof (Z.mod_pos_bound n 10); lia).
  generalize dependent (Z.to_nat (n mod 10)). intros k Hk.
  do 10 (destruct k as [|k]; [vm_compute; reflexivity |]); lia.
Qed.

Lemma fmt_day_rigid t : Sql.all_chars rigid (Calendar.fmt_day t +:+ " ") = true.
Proof.
  unfold Calendar.fmt_day, Calendar.pad4, Calendar.pad2.
  rewrite !all_chars_app. cbn [Sql.all_chars].
  rewrite !digit_rigid. vm_compute. reflexivity.
Qed.

(** X13: [get_aggregated_data] never raises; what it returns are rows of
    [aggregated_stats], each at most once, at most [limit] of them when
    [limit] is not negative, in descending order of [time_period]. *)
Theorem aggregated_data_rows time_range limit self :
  exists rows,
    fst (get_aggregated_data time_range limit self) = Returns rows
    /\ (forall x, In x rows ->
                  stats_of self !! period x = Some (row_of_entry x))
    /\ (0 <= limit -> Z.of_nat (length rows) <= limit)
    /\ NoDup (map period rows)
    /\ Sorted (fun a b => String.le (period b) (period a)) rows.
Proof.
  destruct (aggregated_data_shape time_range limit self)
    as (out & E & [-> | [cond ->]]); rewrite E; eexists;
    (split; [reflexivity |]).
  - split; [by intros x [] |]. split; [cbn; lia |]. split; constructor.
  - destruct (select_aggregates_rows cond true limit (database_of self))
      as (Hin & Hlen & Hnd & Hs).
    exact (row_dict_rows (flip key_le)
             (fun a b => String.le (period b) (period a))
             (stats_of self) limit _
             (fun a b H => H)
             (fun k r Hk => proj1 (Hin k r Hk)) Hlen Hnd Hs).
Qed.

(** X14: [get_today_aggregated_data], called with the local date as
    ['%Y-%m-%d'] formats it, never raises and returns only rows of
    [aggregated_stats] whose [time_period] is that date followed by a
    space, each at most once, at most [limit] of them when [limit] is not
    negative, in ascending order of [time_period]. *)
Theorem today_data_rows t time_range limit self :
  exists rows,
    fst (get_today_aggregated_data (Calendar.fmt_day t) time_range limit self)
    = Returns rows
    /\ (forall x, In x rows ->
                  stats_of self !! period x = Some (row_of_entry x)
                  /\ exists rest,
                       period x = Calendar.fmt_day t +:+ " " +:+ rest)
    /\ (0 <= limit -> Z.of_nat (length rows) <= limit)
    /\ NoDup (map period rows)
    /\ Sorted (fun a b => String.le (period a) (period b)) rows.
Proof.
  destruct (today_data_shape (Calendar.fmt_day t) time_range limit self)
    as (out & E & [-> | (cond & Hcond & ->)]); rewrite E; eexists;
    (split; [reflexivity |]).
  - split; [by intros x [] |]. split; [cbn; lia |]. split; constructor.
  - destruct (select_aggregates_rows cond false limit (database_of self))
      as (Hin & Hlen & Hnd & Hs).
    destruct (row_dict_rows key_le
                (fun a b => String.le (period a) (period b))
                (stats_of self) limit _
                (fun a b H => H)
                (fun k r Hk => proj1 (Hin k r Hk)) Hlen Hnd Hs)
      as (H1 & H2 & H3 & H4).
    split; [| done].
    intros x Hx. split; [by apply H1 |].
    apply in_map_iff in Hx as ([k r] & <- & Hk).
    apply list_elem_of_In, Hin in Hk as [_ Hc]. apply Hcond in Hc.
    change (Calendar.fmt_day t +:+ " %:%")
      with (Calendar.fmt_day t +:+ (" " +:+ "%:%")) in Hc.
    rewrite <- append_assoc in Hc.
    apply like_rigid_prefix in Hc as (rest & Hk & _); [| apply fmt_day_rigid].
    exists rest. cbn. by rewrite Hk, append_assoc.
Qed.
End QueryRows.

Section Utilities.

(** X15: a change of weights takes effect at once: in every state the
    calculator can reach, [calculate_score] called after
    [update_weights(k, m)] returns [keyboard*k + mouse*m], also when the
    same counts were scored just before under the old weights. *)
Theorem new_weights_apply_at_once counts k m self :
  ScoreCalculator.reachable self ->
  fst (fst (ScoreCalculator.calculate_score counts
              (ScoreCalculator.update_weights k m self)))
  = default 0 (counts !! "keyboard") * k + default 0 (counts !! "mouse") * m.
Proof.
  intros Hreach.
  rewrite calculate_score_value
    by (by apply reachable_memo_ok, ScoreCalculator.reach_update).
  unfold ScoreCalculator.update_weights.
  destruct (Z.eqb_spec (ScoreCalculator._keyboard_weight self) k) as [<- |];
    [| reflexivity].
  destruct (Z.eqb_spec (ScoreCalculator._mouse_weight self) m) as [<- |];
    reflexivity.
Qed.

Lemma new_weights_apply_at_once_witness :
  ScoreCalculator.reachable
    (snd (ScoreCalculator.calculate_score {[ "keyboard" := 3; "mouse" := 1 ]}
            ScoreCalculator.__init__))
  /\ fst (fst (ScoreCalculator.calculate_score
                 {[ "keyboard" := 3; "mouse" := 1 ]}
                 (ScoreCalculator.update_weights 2 3
                    (snd (ScoreCalculator.calculate_score
                            {[ "keyboard" := 3; "mouse" := 1 ]}
                            ScoreCalculator.__init__)))))
     = 9.
Proof.
  assert (Hreach : ScoreCalculator.reachable
            (snd (ScoreCalculator.calculate_score
                    {[ "keyboard" := 3; "mouse" := 1 ]}
                    ScoreCalculator.__init__)))
    by (apply ScoreCalculator.reach_calculate, ScoreCalculator.reach_init).
  split; [exact Hreach |].
  exact (new_weights_apply_at_once {[ "keyboard" := 3; "mouse" := 1 ]} 2 3 _
           Hreach).
Defined.

Section FormatCache.
Variable strftime : Z -> string -> string.

Lemma timestamp_to_str_step timestamp fmt cache :
  Series.faithful strftime cache ->
  (size cache <= TimeUtils._cache_size_limit)%nat ->
  fst (TimeUtils.timestamp_to_str strftime timestamp fmt cache)
  = strftime timestamp fmt
  /\ Series.faithful strftime
       (snd (TimeUtils.timestamp_to_str strftime timestamp fmt cache))
  /\ (size (snd (TimeUtils.timestamp_to_str strftime timestamp fmt cache))
      <= TimeUtils._cache_size_limit)%nat.
Proof.
  intros Hc Hsize. unfold TimeUtils.timestamp_to_str.
  destruct (cache !! (timestamp, fmt)) as [s|] eqn:E; cbn [fst snd].
  - split; [by apply Hc |]. done.
  - split; [reflexivity |].
    destruct (Nat.leb_spec TimeUtils._cache_size_limit (size cache)).
    + split.
      * intros ts' fmt' s'. rewrite lookup_insert.
        destruct (decide _) as [[= <- <-] |]; [by intros [= <-] |].
        by rewrite lookup_empty.
      * rewrite map_size_insert_None by apply lookup_empty.
        rewrite map_size_empty. unfold TimeUtils._cache_size_limit. lia.
    + split.
      * intros ts' fmt' s'. rewrite lookup_insert.
        destruct (decide _) as [[= <- <-] |]; [by intros [= <-] |].
        apply Hc.
      * rewrite map_size_insert_None by done. lia.
Qed.

Lemma reachable_format_cache cache :
  TimeUtils.reachable strftime cache ->
  Series.faithful strftime cache
  /\ (size cache <= TimeUtils._cache_size_limit)%nat.
Proof.
  induction 1 as [|timestamp fmt cache _ [Hc Hs]].
  - split; [by intros ? ? ? ?%lookup_empty_Some |].
    rewrite map_size_empty. lia.
  - by destruct (timestamp_to_str_step timestamp fmt cache Hc Hs)
      as (_ & ? & ?).
Qed.

(** X16: the format cache does not change what [timestamp_to_str]
    returns and never holds more than 100 entries: with every dictionary
    that calls can produce from the empty one, the result is what
    formatting the timestamp gives, and the dictionary after the call has
    at most 100 entries. *)
Theorem format_cache_is_transparent_and_bounded timestamp fmt cache :
  TimeUtils.reachable strftime cache ->
  fst (TimeUtils.timestamp_to_str strftime timestamp fmt cache)
  = strftime timestamp fmt
  /\ (size (snd (TimeUtils.timestamp_to_str strftime timestamp fmt cache))
      <= 100)%nat.
Proof.
  intros [Hc Hs]%reachable_format_cache.
  by destruct (timestamp_to_str_step timestamp fmt cache Hc Hs) as (? & _ & ?).
Qed.
End FormatCache.

Lemma format_cache_is_transparent_and_bounded_witness :
  TimeUtils.reachable (fun ts _ => TimerService.format_created Examples.utc ts)
    (snd (TimeUtils.timestamp_to_str
            (fun ts _ => TimerService.format_created Examples.utc ts)
            1700000000 "%Y-%m-%d %H:%M" ∅))
  /\ fst (TimeUtils.timestamp_to_str
            (fun ts _ => TimerService.format_created Examples.utc ts)
            1700000000 "%Y-%m-%d %H:%M"
            (snd (TimeUtils.timestamp_to_str
                    (fun ts _ => TimerService.format_created Examples.utc ts)
                    1700000000 "%Y-%m-%d %H:%M" ∅)))
     = "2023-11-14 22:13".
Proof.
  assert (Hr : TimeUtils.reachable
                 (fun ts _ => TimerService.format_created Examples.utc ts)
                 (snd (TimeUtils.timestamp_to_str
                         (fun ts _ =>
                            TimerService.format_created Examples.utc ts)
                         1700000000 "%Y-%m-%d %H:%M" ∅)))
    by (apply TimeUtils.reach_call, TimeUtils.reach_empty).
  split; [exact Hr |].
  rewrite (proj1 (format_cache_is_transparent_and_bounded _ 1700000000
                    "%Y-%m-%d %H:%M" _ Hr)).
  vm_compute. reflexivity.
Defined.

Lemma presses_key_times inputs :
  List.filter EventListener.is_key inputs
  = Series.presses (Series.key_times inputs).
Proof.
  induction inputs as [|[t | pressed t] inputs IH]; [reflexivity | |].
  - cbn. by rewrite IH.
  - cbn. exact IH.
Qed.

Lemma spaced_presses_all_emitted times self :
  Series.spaced (EventListener.last_key_time self) times ->
  EventListener.run (Series.presses times) self
  = map (fun t => Some ("keyboard", EventListener.int t)) times.
Proof.
  revert self. induction times as [|t times IH]; intros self Hs; [reflexivity |].
  destruct Hs as [Hfar Hs].
  cbn [Series.presses map EventListener.run EventListener.handle].
  unfold EventListener.on_press.
  apply Qltb_true in Hfar. rewrite Hfar. f_equal.
  by apply IH.
Qed.

Lemma omap_id_map_Some {A B} (f : A -> B) (l : list A) :
  omap id (map (fun x => Some (f x)) l) = map f l.
Proof.
  induction l as [|x l IH]; [reflexivity |]. cbn. by rewrite IH.
Qed.

(** X19: no key press is lost to the throttle when the presses are far
    enough apart: if each key press of a stream is read more than 0.05 s
    after the previous one (the first one after the last press forwarded
    before), every key press is forwarded, in order, stamped with the
    whole seconds of its reading, whatever clicks the stream has in
    between. *)
Theorem spaced_key_presses_are_all_forwarded inputs self :
  Series.spaced (EventListener.last_key_time self) (Series.key_times inputs) ->
  EventListener.emitted "keyboard" inputs self
  = map (fun t => ("keyboard", EventListener.int t)) (Series.key_times inputs).
Proof.
  intros Hs.
  rewrite (emitted_keyboard inputs self self eq_refl).
  rewrite presses_key_times, (spaced_presses_all_emitted _ _ Hs).
  apply omap_id_map_Some.
Qed.

Lemma spaced_key_presses_are_all_forwarded_witness :
  Series.spaced (EventListener.last_key_time EventListener.__init__)
    (Series.key_times
       [EventListener.KeyPress (1005 # 10);
        EventListener.Click true (1005 # 10);
        EventListener.KeyPress (1006 # 10)])
  /\ EventListener.emitted "keyboard"
       [EventListener.KeyPress (1005 # 10);
        EventListener.Click true (1005 # 10);
        EventListener.KeyPress (1006 # 10)]
       EventListener.__init__
     = [("keyboard", 100); ("keyboard", 100)].
Proof.
  assert (Hs : Series.spaced
                 (EventListener.last_key_time EventListener.__init__)
                 (Series.key_times
                    [EventListener.KeyPress (1005 # 10);
                     EventListener.Click true (1005 # 10);
                     EventListener.KeyPress (1006 # 10)])).
  { cbn. repeat split; reflexivity. }
  split; [exact Hs |].
  exact (spaced_key_presses_are_all_forwarded _ EventListener.__init__ Hs).
Defined.
End Utilities.

Section Timers.
Import Store TimerService.

Lemma timer_on_conn_cursor self :
  on_conn cursor self
  = match timer_fault self with
    | Some e => (Raises e, self)
    | None => (Returns tt, self)
    end.
Proof.
  unfold on_conn, zoom, cursor, timer_fault.
  destruct self as [[c w b] x]. cbn. by destruct (fault c).
Qed.

Lemma timer_on_conn_write self :
  timer_fault self = None ->
  on_conn (Access.write (fun d => d)) self = (Returns tt, self).
Proof.
  unfold on_conn, zoom, Access.write, timer_fault.
  destruct self as [[c w b] x]. cbn. by intros ->.
Qed.

Lemma add_timer_ok now minutes self :
  timer_fault self = None ->
  add_timer now minutes self
  = (Returns (sequence (timers self) + 1),
     set_timers
       {| rows := rows (timers self)
                  ++ [ {| id := sequence (timers self) + 1;
                          duration := minutes; created_at := now |} ];
          sequence := sequence (timers self) + 1 |}
       self).
Proof.
  intros Hf. unfold add_timer.
  unfold mbind, M_bind, bind at 1. rewrite timer_on_conn_cursor, Hf.
  unfold bind at 1. rewrite (timer_on_conn_write _ Hf).
  unfold bind at 1. unfold gets at 1.
  unfold bind at 1. unfold modify at 1.
  unfold bind at 1. by rewrite timer_on_conn_write.
Qed.

Lemma remove_timer_ok timer_id self :
  timer_fault self = None ->
  remove_timer timer_id self
  = (Returns tt,
     set_timers
       {| rows := List.filter (fun r => negb (id r =? timer_id))
                              (rows (timers self));
          sequence := sequence (timers self) |}
       self).
Proof.
  intros Hf. unfold remove_timer.
  unfold mbind, M_bind, bind at 1. rewrite timer_on_conn_cursor, Hf.
  unfold bind at 1. rewrite (timer_on_conn_write _ Hf).
  unfold bind at 1. unfold modify at 1.
  by rewrite timer_on_conn_write.
Qed.

Lemma filter_absent_id timer_id (l : list Timer) :
  ~ In timer_id (map id l) ->
  List.filter (fun r => negb (id r =? timer_id)) l = l.
Proof.
  induction l as [|r l IH]; [done |].
  cbn. intros Hnot.
  destruct (Z.eqb_spec (id r) timer_id) as [E | _]; [tauto |].
  cbn. rewrite IH; [done | tauto].
Qed.

(** X17: on a store that answers and a table whose ids are distinct and
    within the sequence, [add_timer] returns an id that no timer has,
    appends a timer with that id, the given minutes and the clock of the
    store, and keeps the table well formed; [remove_timer] with that id
    then restores the rows as they were, and [remove_timer] with an id
    that no timer has changes no row. *)
Theorem timer_added_then_removed now minutes self :
  timer_fault self = None ->
  well_formed (timers self) ->
  let new_id := sequence (timers self) + 1 in
  let added := snd (add_timer now minutes self) in
  fst (add_timer now minutes self) = Returns new_id
  /\ ~ In new_id (map id (rows (timers self)))
  /\ rows (timers added)
     = rows (timers self)
       ++ [ {| id := new_id; duration := minutes; created_at := now |} ]
  /\ well_formed (timers added)
  /\ rows (timers (snd (remove_timer new_id added))) = rows (timers self)
  /\ (forall absent,
        ~ In absent (map id (rows (timers self))) ->
        rows (timers (snd (remove_timer absent self))) = rows (timers self)).
Proof.
  intros Hf [Hnd Hids] new_id added.
  assert (Hfresh : ~ In new_id (map id (rows (timers self)))).
  { intros (r & Hr & Hin)%in_map_iff.
    rewrite List.Forall_forall in Hids. apply Hids in Hin.
    unfold new_id in Hr. lia. }
  unfold added. rewrite (add_timer_ok _ _ _ Hf). cbn [fst snd timers set_timers
    rows sequence].
  split; [reflexivity |]. split; [exact Hfresh |]. split; [reflexivity |].
  split; [| split].
  - split; cbn [rows sequence].
    + rewrite map_app. apply NoDup_app. split; [done |].
      split; [| apply NoDup_singleton].
      intros x Hx ->%list_elem_of_singleton.
      by apply Hfresh, list_elem_of_In.
    + apply Forall_app. split.
      * eapply Forall_impl; [exact Hids |]. cbn. intros r Hr. lia.
      * constructor; [| constructor]. cbn. lia.
  - rewrite remove_timer_ok by exact Hf.
    cbn [snd timers set_timers rows]. rewrite List.filter_app.
    rewrite (filter_absent_id _ _ Hfresh). cbn.
    rewrite Z.eqb_refl. cbn. apply app_nil_r.
  - intros absent Habsent. rewrite (remove_timer_ok _ _ Hf).
    cbn [snd timers set_timers rows]. by apply filter_absent_id.
Qed.
Lemma timer_added_then_removed_witness :
  timer_fault Cases.two_timers = None
  /\ well_formed (timers Cases.two_timers)
  /\ fst (add_timer 1700001000 10 Cases.two_timers) = Returns 4
  /\ rows (timers (snd (remove_timer 4
                          (snd (add_timer 1700001000 10 Cases.two_timers)))))
     = rows (timers Cases.two_timers).
Proof.
  assert (Hw : well_formed (timers Cases.two_timers)).
  { split; cbn.
    - apply NoDup_cons. split; [by intros [= ]%list_elem_of_singleton |].
      apply NoDup_singleton.
    - repeat constructor; cbn; lia. }
  destruct (timer_added_then_removed 1700001000 10 Cases.two_timers
              eq_refl Hw) as (H1 & _ & _ & _ & H5 & _).
  split; [reflexivity |]. split; [exact Hw |].
  split; [exact H1 | exact H5].
Defined.

Local Instance newer_total : Total newer.
Proof. intros a b. unfold newer. lia. Qed.

(** X18: on a store that answers, [get_timers] lists every timer exactly
    once and changes nothing: its entries are those of the rows of
    [timers] in an order in which no timer comes before one created
    later; each entry carries the id and the minutes of its row, and
    shows the local creation time, or '-' for a creation time of 0. *)
Theorem get_timers_lists_every_timer_newest_first utc_offset self :
  timer_fault self = None ->
  exists ordered,
    ordered ≡ₚ rows (timers self)
    /\ Sorted newer ordered
    /\ get_timers utc_offset self
       = (Returns
            (map (fun r =>
                    {| entry_id := id r; minutes := duration r;
                       shown := if created_at r =? 0 then "-"
                                else format_created utc_offset (created_at r) |})
                 ordered),
          self).
Proof.
  intros Hf. exists (newest_first (rows (timers self))).
  split; [apply merge_sort_Permutation |].
  split; [apply (Sorted_merge_sort newer) |].
  unfold get_timers.
  unfold mbind, M_bind, bind at 1. rewrite timer_on_conn_cursor, Hf.
  unfold bind at 1.
  assert (Hread : on_conn (Access.read (fun _ => tt)) self = (Returns tt, self)).
  { unfold on_conn, zoom, Access.read. unfold timer_fault in Hf.
    destruct self as [[c w b] x]. cbn in *. by rewrite Hf. }
  by rewrite Hread.
Qed.

Lemma get_timers_lists_every_timer_newest_first_witness :
  timer_fault Cases.two_timers = None
  /\ exists ordered,
       ordered ≡ₚ rows (timers Cases.two_timers)
       /\ Sorted newer ordered
       /\ get_timers Examples.utc Cases.two_timers
          = (Returns
               (map (fun r =>
                       {| entry_id := id r; minutes := duration r;
                          shown := if created_at r =? 0 then "-"
                                   else format_created Examples.utc
                                          (created_at r) |})
                    ordered),
             Cases.two_timers).
Proof.
  split; [reflexivity |].
  exact (get_timers_lists_every_timer_newest_first Examples.utc
           Cases.two_timers eq_refl).
Defined.

Example two_timers_listed :
  fst (get_timers Examples.utc Cases.two_timers)
  = Returns [ {| entry_id := 3; minutes := 5;
                 shown := "2023-11-14 22:23" |};
              {| entry_id := 1; minutes := 25;
                 shown := "2023-11-14 22:13" |} ].
Proof. vm_compute. reflexivity. Qed.
End Timers.

Section Buckets.
Import Store EventService.
Variable utc_offset : Z -> Z.

Lemma filter_app_none {A} (f : A -> bool) l extra :
  Forall (fun x => f x = false) extra ->
  List.filter f (l ++ extra) = List.filter f l.
Proof.
  intros Hx. rewrite List.filter_app.
  assert (E : List.filter f extra = []).
  { induction Hx as [|x extra Hfx _ IH]; [done |]. cbn. by rewrite Hfx. }
  by rewrite E, app_nil_r.
Qed.

Lemma group_by_period_ignores_old key cutoff raw extra :
  Forall (fun e => timestamp e < cutoff) extra ->
  group_by_period key cutoff (raw ++ extra) = group_by_period key cutoff raw.
Proof.
  intros Hold. unfold group_by_period. rewrite filter_app_none; [done |].
  eapply Forall_impl; [exact Hold |]. cbn. intros e He. apply Z.leb_gt. lia.
Qed.

(** X20: events stamped before every horizon do not change any bucket:
    a run on a table to which events older than 365 days were appended
    leaves the same aggregate table as a run without them. *)
Theorem events_before_all_horizons_change_no_bucket now self extra :
  Forall (fun e => timestamp e < days_ago now 365) extra ->
  stats_of (snd (_do_calculate_aggregates utc_offset now
                   (Series.with_more_events extra self)))
  = stats_of (snd (_do_calculate_aggregates utc_offset now self)).
Proof.
  intros Hold. rewrite !run_stats.
  change (fault (database_of (Series.with_more_events extra self)))
    with (fault (database_of self)).
  destruct (fault (database_of self)); [reflexivity |].
  change (stats_of (Series.with_more_events extra self)) with (stats_of self).
  change (raw_of (Series.with_more_events extra self))
    with (raw_of self ++ extra).
  unfold recomputed.
  rewrite !group_by_period_ignores_old; [reflexivity | ..];
    (eapply Forall_impl; [exact Hold |]); cbn; intros e He;
    unfold days_ago in *; lia.
Qed.

End Buckets.

Lemma events_before_all_horizons_change_no_bucket_witness :
  Forall (fun e => Store.timestamp e < EventService.days_ago 1700001000 365)
         [Examples.key_at 1600000000]
  /\ stats_of (snd (EventService._do_calculate_aggregates Examples.utc
                      1700001000
                      (Series.with_more_events [Examples.key_at 1600000000]
                         Examples.two_quarters)))
     !! "2023-11" = Some (Examples.row 2 0 2).
Proof.
  assert (H : Forall (fun e => Store.timestamp e
                               < EventService.days_ago 1700001000 365)
                     [Examples.key_at 1600000000]).
  { repeat constructor. }
  split; [exact H |].
  rewrite (events_before_all_horizons_change_no_bucket Examples.utc 1700001000
             Examples.two_quarters _ H).
  vm_compute. reflexivity.
Defined.

Section BucketContents.
Import Store EventService.
Variable utc_offset : Z -> Z.

Lemma length_append (a b : string) :
  String.length (a +:+ b) = (String.length a + String.length b)%nat.
Proof.
  induction a as [|c a IH]; [reflexivity |].
  rewrite append_cons. cbn [String.length]. by rewrite IH.
Qed.

Lemma append_inj_suffix (a b c d : string) :
  String.length a = String.length b -> a +:+ c = b +:+ d -> c = d.
Proof.
  revert b. induction a as [|x a IH]; intros [|y b] Hlen Heq;
    try discriminate Hlen.
  - exact Heq.
  - rewrite !append_cons in Heq. injection Heq as _ Heq.
    injection Hlen as Hlen. by apply (IH b).
Qed.

Lemma fmt_hour_length t : String.length (Calendar.fmt_hour t) = 14%nat.
Proof. reflexivity. Qed.

Lemma period_30min_length ts :
  String.length (period_30min utc_offset ts) = 16%nat.
Proof.
  unfold period_30min. rewrite length_append, fmt_hour_length.
  by destruct (_ <? 30).
Qed.

Lemma period_day_length ts :
  String.length (period_day utc_offset ts) = 10%nat.
Proof. reflexivity. Qed.

Lemma period_week_length ts :
  String.length (period_week utc_offset ts) = 8%nat.
Proof. reflexivity. Qed.

Lemma period_month_length ts :
  String.length (period_month utc_offset ts) = 7%nat.
Proof. reflexivity. Qed.

(** A quarter-hour key that is not the half-hour key of its own instant
    is the half-hour key of no instant. *)
Lemma quarter_key_apart ts ts' :
  period_15min utc_offset ts <> period_30min utc_offset ts ->
  period_30min utc_offset ts' <> period_15min utc_offset ts.
Proof.
  unfold period_15min, period_30min.
  set (t := Calendar.localtime utc_offset ts).
  set (t' := Calendar.localtime utc_offset ts').
  intros Hown Heq.
  assert (Hlen : String.length (Calendar.fmt_hour t')
                 = String.length (Calendar.fmt_hour t))
    by by rewrite !fmt_hour_length.
  apply (append_inj_suffix _ _ _ _ Hlen) in Heq.
  destruct (Z.ltb_spec (Calendar.minute t) 15) as [H15|H15].
  - apply Hown. destruct (Z.ltb_spec (Calendar.minute t) 30); [done | lia].
  - destruct (Z.ltb_spec (Calendar.minute t) 30) as [H30|H30].
    + by destruct (Calendar.minute t' <? 30).
    + destruct (Z.ltb_spec (Calendar.minute t) 45) as [H45|H45];
        [by apply Hown |].
      by destruct (Calendar.minute t' <? 30).
Qed.

Lemma insert_or_replace_lookup (g : string -> string * AggRow) ps
    (m : gmap string AggRow) k :
  (forall p, fst (g p) = p) ->
  insert_or_replace (map g ps) m !! k
  = if decide (k ∈ ps) then Some (snd (g k)) else m !! k.
Proof.
  intros Hg. revert m. induction ps as [|p ps IH]; intros m.
  - cbn. destruct (decide (k ∈ [])) as [Hin|_]; [| done].
    by apply elem_of_nil in Hin.
  - cbn [map insert_or_replace foldl].
    change (foldl (fun m r => <[fst r := snd r]> m) (<[fst (g p) := snd (g p)]> m)
              (map g ps))
      with (insert_or_replace (map g ps) (<[fst (g p) := snd (g p)]> m)).
    rewrite IH, Hg.
    destruct (decide (k ∈ ps)) as [Hin|Hout].
    + rewrite decide_True; [done | by right].
    + destruct (decide (k = p)) as [->|Hne].
      * rewrite decide_True; [| by left]. by rewrite lookup_insert_eq.
      * rewrite decide_False; [by rewrite lookup_insert_ne |].
        intros [?|?]%elem_of_cons; done.
Qed.

(** An upsert leaves alone the keys that its period expression never
    produces. *)
Lemma upsert_lookup_other key cutoff raw (m : gmap string AggRow) k :
  (forall ts, key ts <> k) ->
  insert_or_replace (group_by_period key cutoff raw) m !! k = m !! k.
Proof.
  intros Hk. unfold group_by_period. rewrite insert_or_replace_lookup; [| done].
  rewrite decide_False; [done |].
  intros Hin. apply elem_of_remove_dups, list_elem_of_In, in_map_iff in Hin
    as (e & He & _).
  by apply (Hk (timestamp e)).
Qed.

Lemma upsert_lookup_length n key cutoff raw (m : gmap string AggRow) k :
  (forall ts, String.length (key ts) = n) ->
  String.length k <> n ->
  insert_or_replace (group_by_period key cutoff raw) m !! k = m !! k.
Proof.
  intros Hn Hk. apply upsert_lookup_other. intros ts <-. by apply Hk.
Qed.

Lemma sum_case_default ty (rows : list RawEvent) :
  default 0 (sum_case ty rows) = Z.of_nat (length (of_type ty rows)).
Proof.
  rewrite <- sum_case_count. unfold sum_case, Sql.sum.
  by destruct rows.
Qed.

Lemma of_type_group key cutoff p ty (raw : list RawEvent) :
  of_type ty
    (List.filter (fun e => String.eqb (key (timestamp e)) p)
       (List.filter (fun e => cutoff <=? timestamp e) raw))
  = Series.in_bucket key cutoff p ty raw.
Proof.
  unfold of_type, Series.in_bucket.
  induction raw as [|e raw IH]; [reflexivity |].
  cbn [List.filter].
  destruct (cutoff <=? timestamp e); cbn [List.filter andb]; [| exact IH].
  destruct (String.eqb (key (timestamp e)) p); cbn [List.filter andb];
    [| exact IH].
  destruct (String.eqb (event_type e) ty); by rewrite IH.
Qed.

(** An upsert writes, for every event inside its horizon, a row at the
    event's period with the counts of that period. *)
Lemma upsert_lookup_own key cutoff raw (m : gmap string AggRow) e :
  In e raw -> cutoff <= timestamp e ->
  Series.holds_counts key cutoff raw
    (insert_or_replace (group_by_period key cutoff raw) m)
    (key (timestamp e)).
Proof.
  intros Hin Hcut. unfold Series.holds_counts, group_by_period.
  rewrite insert_or_replace_lookup; [| done].
  rewrite decide_True.
  - eexists. split; [reflexivity |]. cbn [snd keyboard_count mouse_count].
    by rewrite !sum_case_default, !of_type_group.
  - apply elem_of_remove_dups, list_elem_of_In, in_map_iff.
    exists e. split; [done |]. apply filter_In. split; [done |].
    by apply Z.leb_le.
Qed.

Lemma holds_counts_lookup key cutoff raw (m m' : gmap string AggRow) p :
  m' !! p = m !! p ->
  Series.holds_counts key cutoff raw m p ->
  Series.holds_counts key cutoff raw m' p.
Proof. unfold Series.holds_counts. by intros ->. Qed.

Lemma holds_counts_union key cutoff raw (m old : gmap string AggRow) p :
  Series.holds_counts key cutoff raw m p ->
  Series.holds_counts key cutoff raw (m ∪ old) p.
Proof.
  intros (r & Hr & Hk). exists r. split; [| done].
  by apply lookup_union_Some_l.
Qed.

(** X21: after a run on a store that answers, every event inside a
    horizon finds its bucket filled with the counts of its period: the
    half-hour, daily, weekly and monthly buckets always, the quarter-hour
    bucket whenever its key is not also the half-hour key. *)
Theorem run_fills_the_buckets_of_every_recent_event now self e :
  fault (database_of self) = None ->
  In e (raw_of self) ->
  let after := stats_of (snd (_do_calculate_aggregates utc_offset now self)) in
  let filled key days :=
    days_ago now days <= timestamp e ->
    Series.holds_counts key (days_ago now days) (raw_of self) after
      (key (timestamp e)) in
  (period_15min utc_offset (timestamp e)
   <> period_30min utc_offset (timestamp e) ->
   filled (period_15min utc_offset) 2)
  /\ filled (period_30min utc_offset) 7
  /\ filled (period_day utc_offset) 30
  /\ filled (period_week utc_offset) 365
  /\ filled (period_month utc_offset) 365.
Proof.
  intros Hf Hin after filled. subst after filled. cbv beta.
  rewrite run_stats, Hf. unfold recomputed.
  split; [| split; [| split; [| split]]].
  - intros Hown Hcut. apply holds_counts_union.
    eapply holds_counts_lookup.
    + rewrite (upsert_lookup_length 7); [| apply period_month_length | ].
      2: { unfold period_15min. rewrite length_append, fmt_hour_length.
           by repeat destruct (_ <? _). }
      rewrite (upsert_lookup_length 8); [| apply period_week_length | ].
      2: { unfold period_15min. rewrite length_append, fmt_hour_length.
           by repeat destruct (_ <? _). }
      rewrite (upsert_lookup_length 10); [| apply period_day_length | ].
      2: { unfold period_15min. rewrite length_append, fmt_hour_length.
           by repeat destruct (_ <? _). }
      rewrite upsert_lookup_other; [reflexivity |].
      intros ts'. by apply quarter_key_apart.
    + by apply upsert_lookup_own.
  - intros Hcut. apply holds_counts_union.
    eapply holds_counts_lookup.
    + rewrite (upsert_lookup_length 7);
        [| apply period_month_length | by rewrite period_30min_length].
      rewrite (upsert_lookup_length 8);
        [| apply period_week_length | by rewrite period_30min_length].
      rewrite (upsert_lookup_length 10);
        [| apply period_day_length | by rewrite period_30min_length].
      reflexivity.
    + by apply upsert_lookup_own.
  - intros Hcut. apply holds_counts_union.
    eapply holds_counts_lookup.
    + rewrite (upsert_lookup_length 7);
        [| apply period_month_length | by rewrite period_day_length].
      rewrite (upsert_lookup_length 8);
        [| apply period_week_length | by rewrite period_day_length].
      reflexivity.
    + by apply upsert_lookup_own.
  - intros Hcut. apply holds_counts_union.
    eapply holds_counts_lookup.
    + rewrite (upsert_lookup_length 7);
        [| apply period_month_length | by rewrite period_week_length].
      reflexivity.
    + by apply upsert_lookup_own.
  - intros Hcut. apply holds_counts_union. by apply upsert_lookup_own.
Qed.

End BucketContents.

Lemma run_fills_the_buckets_of_every_recent_event_witness :
  Store.fault (database_of Examples.two_quarters) = None
  /\ In (Examples.key_at 1700000400) (raw_of Examples.two_quarters)
  /\ Series.holds_counts (EventService.period_day Examples.utc)
       (EventService.days_ago 1700001000 30) (raw_of Examples.two_quarters)
       (stats_of (snd (EventService._do_calculate_aggregates Examples.utc
                         1700001000 Examples.two_quarters)))
       "2023-11-14".
Proof.
  assert (Hin : In (Examples.key_at 1700000400)
                   (raw_of Examples.two_quarters)) by (right; left; reflexivity).
  split; [reflexivity | split; [exact Hin |]].
  destruct (run_fills_the_buckets_of_every_recent_event Examples.utc
              1700001000 Examples.two_quarters (Examples.key_at 1700000400)
              eq_refl Hin) as (_ & _ & Hday & _).
  apply Hday. by vm_compute.
Defined.

Section Countdown.
Import MainWindow.

Lemma timeouts_inactive n self :
  timer_countdown self <> Some true ->
  timeouts n self = (Returns tt, self).
Proof.
  intros Hoff. induction n as [|n IH]; [reflexivity |].
  cbn [timeouts]. unfold mbind, M_bind, bind, timeout.
  destruct (timer_countdown self) as [[|]|]; done.
Qed.

(** A running countdown with [r] seconds left takes [r] periods to end,
    and ends once. *)
Lemma timeouts_running n : forall self r,
  timer_countdown self = Some true ->
  remaining_seconds self = Some r ->
  0 < r ->
  let after := snd (timeouts n self) in
  fst (timeouts n self) = Returns tt
  /\ remaining_seconds after = Some (r - Z.min (Z.of_nat n) r)
  /\ timer_countdown after = Some (Z.of_nat n <? r)
  /\ notices after
     = (notices self + if (r <=? Z.of_nat n)%Z then 1 else 0)%nat.
Proof.
  induction n as [|n IH]; intros self r Hon Hr Hpos after; subst after.
  - cbn [timeouts]. unfold ret. cbn [fst snd].
    replace (Z.min (Z.of_nat 0) r) with 0 by lia.
    rewrite Z.sub_0_r.
    destruct (Z.ltb_spec (Z.of_nat 0) r); [| lia].
    destruct (Z.leb_spec r (Z.of_nat 0)); [lia |].
    by rewrite Nat.add_0_r.
  - cbn [timeouts]. unfold mbind, M_bind, bind, timeout.
    rewrite Hon. unfold update_timer_display. rewrite Hr.
    cbn [divmod]. cbv zeta. rewrite Hon.
    destruct (Z.leb_spec (r - 1) 0) as [Hend|Hmore].
    + assert (r = 1) as -> by lia.
      rewrite timeouts_inactive by done. cbn [fst snd remaining_seconds
        timer_countdown notices].
      replace (Z.min (Z.of_nat (S n)) 1) with 1 by lia.
      destruct (Z.ltb_spec (Z.of_nat (S n)) 1); [lia |].
      destruct (Z.leb_spec 1 (Z.of_nat (S n))); [| lia].
      split; [reflexivity | split; [reflexivity | split; [reflexivity |]]].
      lia.
    + match goal with
      | |- context [timeouts n ?w] =>
          destruct (IH w (r - 1) eq_refl eq_refl ltac:(lia))
            as (Hret & Hrem & Hact & Hnot)
      end.
      rewrite Hret, Hrem, Hact, Hnot. cbn [notices].
      repeat split.
      * f_equal. lia.
      * f_equal. destruct (Z.ltb_spec (Z.of_nat n) (r - 1)),
          (Z.ltb_spec (Z.of_nat (S n)) r); [done | lia | lia | done].
      * destruct (Z.leb_spec (r - 1) (Z.of_nat n)),
          (Z.leb_spec r (Z.of_nat (S n))); [done | lia | lia | done].
Qed.

(** X22: a countdown started for [minutes] minutes (at least one) while
    none is paused runs for exactly [minutes * 60] periods of its timer:
    it never raises, after [n] periods that many seconds are gone, the
    timer is active until the last of them, and the notice of the end is
    shown once, then. *)
Theorem countdown_runs_for_sixty_periods_a_minute minutes self (n : nat) :
  0 < minutes ->
  timer_paused self = false ->
  let started := snd (start_timer_countdown minutes self) in
  let after := snd (timeouts n started) in
  fst (timeouts n started) = Returns tt
  /\ remaining_seconds after
     = Some (minutes * 60 - Z.min (Z.of_nat n) (minutes * 60))
  /\ timer_countdown after = Some (Z.of_nat n <? minutes * 60)
  /\ notices after
     = (notices self + if (minutes * 60 <=? Z.of_nat n)%Z then 1 else 0)%nat.
Proof.
  intros Hpos Hrun started after. subst started after.
  assert (Hstart : exists w,
             snd (start_timer_countdown minutes self) = w
             /\ timer_countdown w = Some true
             /\ remaining_seconds w = Some (minutes * 60)
             /\ notices w = notices self).
  { unfold start_timer_countdown. rewrite Hrun.
    destruct (remaining_seconds self); cbn; eauto. }
  destruct Hstart as (w & -> & Hon & Hr & Hn).
  rewrite <- Hn. apply timeouts_running; [done | done | lia].
Qed.

Lemma countdown_runs_for_sixty_periods_a_minute_witness :
  0 < 1 /\ timer_paused Cases.window = false
  /\ remaining_seconds
       (snd (timeouts 59 (snd (start_timer_countdown 1 Cases.window))))
     = Some 1
  /\ timer_countdown
       (snd (timeouts 60 (snd (start_timer_countdown 1 Cases.window))))
     = Some false.
Proof.
  split; [lia | split; [reflexivity |]].
  split.
  - exact (proj1 (proj2 (countdown_runs_for_sixty_periods_a_minute 1
                           Cases.window 59 eq_refl eq_refl))).
  - exact (proj1 (proj2 (proj2 (countdown_runs_for_sixty_periods_a_minute 1
                                  Cases.window 60 eq_refl eq_refl)))).
Defined.

(** X23: a paused countdown neither moves nor is lost: the periods of
    its timer change nothing, the start button resumes it with the same
    seconds left, and so does starting any timer of the menu, whose own
    minutes are ignored. *)
Theorem paused_countdown_resumes_where_it_stopped self r minutes n :
  timer_countdown self = Some true ->
  remaining_seconds self = Some r ->
  let paused := snd (pause_timer self) in
  timeouts n paused = (Returns tt, paused)
  /\ remaining_seconds (snd (start_timer paused)) = Some r
  /\ timer_countdown (snd (start_timer paused)) = Some true
  /\ remaining_seconds (snd (start_timer_countdown minutes paused)) = Some r
  /\ timer_countdown (snd (start_timer_countdown minutes paused)) = Some true.
Proof.
  intros Hon Hr paused. subst paused.
  unfold pause_timer. rewrite Hon. cbn [snd].
  split; [by apply timeouts_inactive |].
  unfold start_timer, start_timer_countdown.
  cbn [timer_paused remaining_seconds]. rewrite Hr. by cbn.
Qed.

Lemma paused_countdown_resumes_where_it_stopped_witness :
  let running := snd (start_timer_countdown 5 Cases.window) in
  timer_countdown running = Some true
  /\ remaining_seconds running = Some 300
  /\ remaining_seconds
       (snd (start_timer_countdown 25 (snd (pause_timer running))))
     = Some 300.
Proof.
  split; [reflexivity | split; [reflexivity |]].
  exact (proj1 (proj2 (proj2 (proj2
    (paused_countdown_resumes_where_it_stopped
       (snd (start_timer_countdown 5 Cases.window)) 300 25 0
       eq_refl eq_refl))))).
Defined.

End Countdown.

Section ClipboardText.
Import MainWindow.
Variable score_close : Z -> Z -> bool.
Variable time_close : string -> string -> bool.

Lemma rows_total_Permutation rows rows' :
  rows ≡ₚ rows' -> Series.rows_total rows = Series.rows_total rows'.
Proof.
  unfold Series.rows_total.
  induction 1 as [|x l l' _ IH|x y l|l l' l'' _ IH1 _ IH2]; cbn [map foldr];
    [reflexivity | by rewrite IH | lia | by rewrite IH1].
Qed.

Lemma merged_total_app a b :
  Series.merged_total (a ++ b)
  = Series.merged_total a + Series.merged_total b.
Proof.
  unfold Series.merged_total.
  induction a as [|x a IH]; cbn [app map foldr]; [reflexivity | lia].
Qed.

(** The loop adds every score to exactly one entry. *)
Lemma merge_loop_total rest : forall start cs cur prev merged,
  Series.merged_total
    (merge_loop score_close time_close start cs cur prev rest merged)
  = Series.merged_total merged + EventService.score cur
    + Series.rows_total rest.
Proof.
  induction rest as [|item rest IH]; intros start cs cur prev merged.
  - cbn [merge_loop]. rewrite merged_total_app.
    unfold Series.merged_total, Series.rows_total. cbn. lia.
  - cbn [merge_loop].
    destruct (score_close _ _ && time_close _ _); rewrite IH.
    + unfold Series.rows_total. cbn. lia.
    + rewrite merged_total_app.
      unfold Series.merged_total, Series.rows_total. cbn. lia.
Qed.

Lemma merge_loop_length rest : forall start cs cur prev merged,
  (length merged < length
     (merge_loop score_close time_close start cs cur prev rest merged)
   <= length merged + S (length rest))%nat.
Proof.
  induction rest as [|item rest IH]; intros start cs cur prev merged.
  - cbn [merge_loop]. rewrite length_app. cbn. lia.
  - cbn [merge_loop].
    destruct (score_close _ _ && time_close _ _).
    + specialize (IH start cs (accumulate cur item) item merged).
      cbn [length]. lia.
    + match goal with
      | |- context [merge_loop _ _ ?a ?b ?c ?d rest ?m] =>
          specialize (IH a b c d m)
      end.
      rewrite length_app in IH. cbn [length] in *. lia.
Qed.

(** X24: whatever the two merge criteria decide, the entries put on the
    clipboard account for every score of the day exactly once: their
    scores add up to the scores of the day's rows, and there is at least
    one entry and at most one for each row; the clipboard is left alone
    exactly when the day has no row. *)
Theorem clipboard_entries_keep_the_day_total today data :
  let today_data :=
    List.filter (fun item => String.prefix today (EventService.period item))
      data in
  match _copy_to_clipboard score_close time_close today data with
  | None => today_data = []
  | Some merged =>
      Series.merged_total merged = Series.rows_total today_data
      /\ (0 < length merged <= length today_data)%nat
  end.
Proof.
  intros today_data. unfold _copy_to_clipboard. fold today_data.
  destruct today_data as [|row rows] eqn:E; [reflexivity |].
  pose proof (merge_sort_Permutation
                (fun a b => String.le (EventService.period a)
                              (EventService.period b)) (row :: rows))
    as Hperm.
  destruct (merge_sort _ (row :: rows)) as [|first rest].
  - by apply Permutation_nil_cons in Hperm.
  - rewrite merge_loop_total.
    pose proof (merge_loop_length rest (EventService.period first)
                  (EventService.score first) first first []) as Hlen.
    apply Permutation_length in Hperm as Hn.
    apply rows_total_Permutation in Hperm. rewrite <- Hperm.
    cbn [length] in *. split; [| lia].
    unfold Series.merged_total, Series.rows_total. cbn. lia.
Qed.

End ClipboardText.

Example quarters_on_the_clipboard :
  MainWindow._copy_to_clipboard Cases.within_half Cases.neighbours
    "2023-11-14" Cases.quarters
  = Some [ {| MainWindow.period := "09:00-09:15"; MainWindow.score := 42 |};
           {| MainWindow.period := "09:30-09:30"; MainWindow.score := 5 |} ].
Proof. vm_compute. reflexivity. Qed.

Section TimeOfDay.
Import MainWindow.

Lemma digit_not_separator n :
  Ascii.eqb (Calendar.digit n) " " = false
  /\ Ascii.eqb (Calendar.digit n) ":" = false.
Proof.
  unfold Calendar.digit. generalize (Z.to_nat (n mod 10)). intros k.
  do 11 (destruct k as [|k]; [by split |]). by split.
Qed.

Lemma contains_app c a b :
  contains c (a +:+ b) = contains c a || contains c b.
Proof.
  induction a as [|x a IH]; [reflexivity |].
  rewrite append_cons. cbn [contains]. rewrite IH. by rewrite orb_assoc.
Qed.

Lemma split_whole sep a :
  contains sep a = false -> split sep a = [a].
Proof.
  induction a as [|x a IH]; [reflexivity |].
  cbn [contains split]. intros [Hx Ha]%orb_false_elim.
  by rewrite Hx, (IH Ha).
Qed.

Lemma split_at_first sep a b :
  contains sep a = false ->
  split sep (a +:+ String sep b) = a :: split sep b.
Proof.
  induction a as [|x a IH].
  - intros _. change ("" +:+ String sep b) with (String sep b).
    cbn [split]. by rewrite Ascii.eqb_refl.
  - cbn [contains]. intros [Hx Ha]%orb_false_elim.
    rewrite append_cons. cbn [split]. by rewrite Hx, (IH Ha).
Qed.

(** A string made of a date, a space, an hour, a colon and the minutes
    is formatted as its last two parts. *)
Lemma format_time_parts date hh mm :
  contains " " hh = false -> contains " " mm = false ->
  contains " " date = false ->
  contains ":" hh = false -> contains ":" mm = false ->
  _format_time (date +:+ String " " (hh +:+ String ":" mm))
  = hh +:+ ":" +:+ mm.
Proof.
  intros Hsh Hsm Hsd Hch Hcm. unfold _format_time.
  rewrite contains_app. cbn [contains]. rewrite Ascii.eqb_refl.
  rewrite orb_true_r. cbn [orb].
  rewrite (split_at_first " " date _ Hsd).
  rewrite split_whole.
  2: { rewrite contains_app. cbn [contains]. rewrite Hsh, Hsm.
       reflexivity. }
  cbn [nth]. rewrite contains_app. cbn [contains]. rewrite Ascii.eqb_refl.
  rewrite orb_true_r. cbn [orb].
  rewrite (split_at_first ":" hh _ Hch), (split_whole ":" mm Hcm).
  reflexivity.
Qed.

Lemma contains_pad2 n :
  contains " " (Calendar.pad2 n) = false
  /\ contains ":" (Calendar.pad2 n) = false.
Proof.
  unfold Calendar.pad2. cbn [contains].
  destruct (digit_not_separator n) as [-> ->].
  destruct (digit_not_separator (n / 10)) as [-> ->]. by split.
Qed.

Lemma contains_fmt_day t : contains " " (Calendar.fmt_day t) = false.
Proof.
  cbv [Calendar.fmt_day Calendar.pad4 Calendar.pad2 append contains].
  rewrite !(proj1 (digit_not_separator _)). reflexivity.
Qed.

Lemma format_time_minute_key t mm :
  contains " " mm = false -> contains ":" mm = false ->
  _format_time (Calendar.fmt_hour t +:+ mm)
  = Calendar.pad2 (Calendar.hour t) +:+ ":" +:+ mm.
Proof.
  intros Hs Hc.
  replace (Calendar.fmt_hour t +:+ mm)
    with (Calendar.fmt_day t
          +:+ String " " (Calendar.pad2 (Calendar.hour t) +:+ String ":" mm)).
  - apply format_time_parts; try done; apply contains_pad2
      || apply contains_fmt_day.
  - unfold Calendar.fmt_hour. rewrite !append_assoc. reflexivity.
Qed.

(** X25: the clipboard shows a quarter-hour or half-hour bucket by its
    time of day: [_format_time] turns the key into its hour and minutes,
    the five characters after the date; a daily key comes back as it
    is. *)
Theorem format_time_shows_the_time_of_day utc_offset ts :
  let t := Calendar.localtime utc_offset ts in
  _format_time (EventService.period_15min utc_offset ts)
  = substring 11 5 (EventService.period_15min utc_offset ts)
  /\ _format_time (EventService.period_30min utc_offset ts)
     = substring 11 5 (EventService.period_30min utc_offset ts)
  /\ substring 11 2 (EventService.period_15min utc_offset ts)
     = Calendar.pad2 (Calendar.hour t)
  /\ _format_time (EventService.period_day utc_offset ts)
     = EventService.period_day utc_offset ts.
Proof.
  intros t. unfold EventService.period_15min, EventService.period_30min,
    EventService.period_day. fold t.
  split; [| split; [| split]].
  - destruct (_ <? 15); [| destruct (_ <? 30); [| destruct (_ <? 45)]];
      by rewrite format_time_minute_key.
  - destruct (_ <? 30); by rewrite format_time_minute_key.
  - reflexivity.
  - unfold _format_time. by rewrite contains_fmt_day.
Qed.

End TimeOfDay.
